(** * Pserv: FITS binary tables to CSV files and SQL schemas

    A shallow embedding of [python/desc/pserv/Pserv.py] (Python 2):
    the bit-flag packer [BinTableData.pack_flags], the column
    materializer [BinTableData.__init__], the CSV emitter
    [create_csv_file_from_fits], the schema emitter
    [create_schema_from_fits] with its two helpers, and the header
    check [DbConnection.check_column_names].

    Conventions of the embedding.
    - Python integers are [Z]; list positions and lengths are [nat].
    - An exception is a value of [exn]; a call that may raise returns
      a [result].  Code that writes to a file and may raise half-way is
      a function from the text (or rows) written so far to the text
      written afterwards together with its [result]: what was written
      before a [raise] stays written.
    - An [OrderedDict] is an association list in insertion order whose
      assignment replaces in place or appends.
    - The FITS file reader, the [csv] writer's quoting and the database
      are not part of the embedding: a binary table is the list of its
      columns, a CSV file is the list of rows handed to
      [writer.writerow], and a schema file is the text handed to
      [output.write]. *)

From Stdlib Require Import ZArith NArith String Ascii Bool Lia List.
From Stdlib Require Import Decimal DecimalString DecimalPos DecimalN.
From Stdlib Require Import SpecFloat.
Import ListNotations.

Local Open Scope Z_scope.

(** ** Exceptions and results *)

Inductive exn : Type :=
| IndexError
| KeyError (key : string)
| ValueError
| TypeError
| ZeroDivisionError
| OverflowError
| RuntimeError (msg : string)
| OtherError (what : string).

Inductive result (A : Type) : Type :=
| Ok (a : A)
| Raise (e : exn).

Arguments Ok {A} a.
Arguments Raise {A} e.

Definition bind_result {A B : Type} (r : result A) (k : A -> result B)
  : result B :=
  match r with
  | Ok a => k a
  | Raise e => Raise e
  end.

Fixpoint map_result {A B : Type} (f : A -> result B) (l : list A)
  : result (list B) :=
  match l with
  | [] => Ok []
  | x :: t =>
      bind_result (f x) (fun y =>
      bind_result (map_result f t) (fun ys => Ok (y :: ys)))
  end.

(** ** A writer that may raise

    [M S A] is a computation over the state [S] (the rows or the text
    written so far, or a table being updated) that either returns an
    [A] or raises; the state reached at the [raise] is kept. *)

Definition M (S A : Type) : Type := S -> S * result A.

Definition ret {S A : Type} (a : A) : M S A := fun s => (s, Ok a).

Definition raise {S A : Type} (e : exn) : M S A := fun s => (s, Raise e).

Definition bind {S A B : Type} (m : M S A) (k : A -> M S B) : M S B :=
  fun s =>
    match m s with
    | (s', Ok a) => k a s'
    | (s', Raise e) => (s', Raise e)
    end.

Definition lift {S A : Type} (r : result A) : M S A := fun s => (s, r).

Fixpoint for_each {S A : Type} (l : list A) (body : A -> M S unit)
  : M S unit :=
  match l with
  | [] => ret tt
  | x :: t => bind (body x) (fun _ => for_each t body)
  end.

Declare Scope writer_scope.
Delimit Scope writer_scope with writer.
Notation "x <- m ;; k" := (bind m (fun x => k))
  (at level 61, m at next level, right associativity) : writer_scope.
Notation "m ;;; k" := (bind m (fun _ => k))
  (at level 61, right associativity) : writer_scope.

(** ** Python built-ins used by the module *)

Module Py.

(** [int(numpy.ceil(float(a) / b))] for [b <> 0].  The quotient
    [float(a) / b] is taken here as the exact rational; the two agree
    for every [a] below [2^53], which covers every list length and
    every FITS repeat count. *)
Definition ceil_div (a b : Z) : Z := - ((- a) / b).

(** [range(n)]: empty for [n <= 0]. *)
Definition range (n : Z) : list nat := seq 0 (Z.to_nat n).

(** An index of a slice [l[lo:hi]], clamped as Python does: a
    negative index counts from the end. *)
Definition slice_index (len i : Z) : nat :=
  Z.to_nat (if i <? 0 then Z.max 0 (len + i) else Z.min i len).

(** [l[lo:hi]] *)
Definition slice {A : Type} (l : list A) (lo hi : Z) : list A :=
  let len := Z.of_nat (length l) in
  skipn (slice_index len lo) (firstn (slice_index len hi) l).

Fixpoint enumerate_from {A : Type} (start : nat) (l : list A)
  : list (nat * A) :=
  match l with
  | [] => []
  | x :: t => (start, x) :: enumerate_from (S start) t
  end.

(** [enumerate(l)] *)
Definition enumerate {A : Type} (l : list A) : list (nat * A) :=
  enumerate_from 0 l.

(** [sum(l)]: left to right from 0. *)
Definition sum (l : list Z) : Z := fold_left Z.add l 0.

(** The heads and the tails of a list of lists, when none is empty. *)
Fixpoint uncons_all {A : Type} (ls : list (list A))
  : option (list A * list (list A)) :=
  match ls with
  | [] => Some ([], [])
  | [] :: _ => None
  | (x :: t) :: rest =>
      match uncons_all rest with
      | Some (hs, ts) => Some (x :: hs, t :: ts)
      | None => None
      end
  end.

Fixpoint zip_star_fuel {A : Type} (fuel : nat) (ls : list (list A))
  : list (list A) :=
  match fuel with
  | O => []
  | S fuel' =>
      match uncons_all ls with
      | Some (hs, ts) => hs :: zip_star_fuel fuel' ts
      | None => []
      end
  end.

(** [zip( *ls )]: the tuples of the i-th elements, as many as the
    shortest list has; none when [ls] is empty. *)
Definition zip_star {A : Type} (ls : list (list A)) : list (list A) :=
  match ls with
  | [] => []
  | l :: _ => zip_star_fuel (length l) ls
  end.

(** *** Strings (Python 2 [str]: a sequence of bytes) *)

Definition nl : string := String "010"%char EmptyString.

Definition upper_char (c : ascii) : ascii :=
  let n := nat_of_ascii c in
  if ((97 <=? n) && (n <=? 122))%nat then ascii_of_nat (n - 32) else c.

(** [s.upper()] *)
Fixpoint upper (s : string) : string :=
  match s with
  | EmptyString => EmptyString
  | String c t => String (upper_char c) (upper t)
  end.

Fixpoint lstrip (p : ascii -> bool) (s : string) : string :=
  match s with
  | EmptyString => EmptyString
  | String c t => if p c then lstrip p t else s
  end.

Fixpoint rstrip (p : ascii -> bool) (s : string) : string :=
  match s with
  | EmptyString => EmptyString
  | String c t =>
      match rstrip p t with
      | EmptyString => if p c then EmptyString else String c EmptyString
      | r => String c r
      end
  end.

(** [s.strip(chars)], [chars] given as a predicate. *)
Definition strip_chars (p : ascii -> bool) (s : string) : string :=
  rstrip p (lstrip p s).

(** The characters [str.strip()] removes: space, tab, line feed,
    vertical tab, form feed, carriage return. *)
Definition is_space (c : ascii) : bool :=
  let n := nat_of_ascii c in
  ((n =? 32) || ((9 <=? n) && (n <=? 13)))%nat.

(** [s.strip()] *)
Definition strip (s : string) : string := strip_chars is_space s.

(** [s[-1]] *)
Fixpoint last_char (s : string) : result ascii :=
  match s with
  | EmptyString => Raise IndexError
  | String c EmptyString => Ok c
  | String _ t => last_char t
  end.

(** [s[:-1]] *)
Fixpoint but_last (s : string) : string :=
  match s with
  | EmptyString => EmptyString
  | String _ EmptyString => EmptyString
  | String c t => String c (but_last t)
  end.

(** [s.split(sep)] for a one-character separator. *)
Fixpoint split (sep : ascii) (s : string) : list string :=
  match s with
  | EmptyString => [EmptyString]
  | String c t =>
      if Ascii.eqb c sep then EmptyString :: split sep t
      else
        match split sep t with
        | h :: r => String c h :: r
        | [] => [String c EmptyString]
        end
  end.

(** [f.readline()] on a file just opened with contents [s]. *)
Fixpoint readline (s : string) : string :=
  match s with
  | EmptyString => EmptyString
  | String c t =>
      if Ascii.eqb c "010"%char then String c EmptyString
      else String c (readline t)
  end.

(** ['%i' % n] for a natural number. *)
Definition str_of_nat (n : nat) : string :=
  NilEmpty.string_of_uint (N.to_uint (N.of_nat n)).

Definition digits (s : string) : result Z :=
  match s with
  | EmptyString => Raise ValueError
  | _ =>
      match NilEmpty.uint_of_string s with
      | Some d => Ok (Z.of_N (N.of_uint d))
      | None => Raise ValueError
      end
  end.

(** [int(s)] in base 10: blanks around, an optional sign, digits. *)
Definition int (s : string) : result Z :=
  match strip s with
  | String "-"%char r => bind_result (digits r) (fun n => Ok (- n))
  | String "+"%char r => digits r
  | r => digits r
  end.

(** [float(s)] on the integer literals [int] reads.  The literals
    with a fraction or an exponent and the names [inf] and [nan],
    which [float] reads as well, are no FITS repeat count and are not
    modelled: they are a [ValueError] here. *)
Definition float (s : string) : result Z := int s.

(** [d[k]] on a dictionary with string keys. *)
Fixpoint getitem {V : Type} (d : list (string * V)) (k : string)
  : result V :=
  match d with
  | [] => Raise (KeyError k)
  | (k', v) :: r => if String.eqb k' k then Ok v else getitem r k
  end.

(** [try: body  except KeyError: handler] *)
Definition except_KeyError {A : Type} (body handler : result A)
  : result A :=
  match body with
  | Raise (KeyError _) => handler
  | r => r
  end.

(** [f.readlines()] on a file just opened with contents [s]: the
    lines, each with its newline. *)
Fixpoint readlines (s : string) : list string :=
  match s with
  | EmptyString => []
  | String c t =>
      if Ascii.eqb c "010"%char then String c EmptyString :: readlines t
      else
        match readlines t with
        | [] => [String c EmptyString]
        | l :: r => String c l :: r
        end
  end.

Fixpoint find_from (sub s : string) (i : Z) : Z :=
  if String.prefix sub s then i
  else
    match s with
    | EmptyString => -1
    | String _ t => find_from sub t (i + 1)
    end.

(** [s.find(sub)]: the lowest index where [sub] occurs, or -1. *)
Definition find (s sub : string) : Z := find_from sub s 0.

End Py.

(** ** [collections.OrderedDict] with string keys *)

Module OrderedDict.

Definition t (V : Type) : Type := list (string * V).

Definition empty {V : Type} : t V := [].

(** [d[k] = v]: in place when [k] is a key, appended otherwise. *)
Fixpoint set {V : Type} (d : t V) (k : string) (v : V) : t V :=
  match d with
  | [] => [(k, v)]
  | (k', v') :: r =>
      if String.eqb k' k then (k', v) :: r else (k', v') :: set r k v
  end.

Definition keys {V : Type} (d : t V) : list string := map fst d.

Definition values {V : Type} (d : t V) : list V := map snd d.

(** [d.has_key(k)], [k in d.keys()] *)
Definition has_key {V : Type} (d : t V) (k : string) : bool :=
  existsb (String.eqb k) (keys d).

(** [OrderedDict(pairs)] *)
Definition of_pairs {V : Type} (pairs : list (string * V)) : t V :=
  fold_left (fun d p => set d (fst p) (snd p)) pairs empty.

End OrderedDict.

(** ** Table data *)

(** A cell after [tolist()]: a [str], an [int] or [long], a [float],
    a [bool], or the flag vector of a bit-array cell. *)
Inductive value : Type :=
| VStr (s : string)
| VInt (n : Z)
| VFloat (x : spec_float)
| VBool (b : bool)
| VBits (flags : list bool).

(** A column of [bintable.columns] together with its series
    [bintable.data[col.name]]. *)
Record Column : Type := mkColumn {
  name : string;
  format : string;
  data : list value
}.

(** ** [class BinTableData(OrderedDict)] *)

Module BinTableData.

(** The ordered mapping from column name to series, and the
    attribute [nrows]. *)
Record t : Type := mk {
  cols : OrderedDict.t (list value);
  nrows : nat
}.

(** [sum([long(2**i) for i, flag in enumerate(subarr) if flag])] *)
Definition pack_subarr (subarr : list bool) : Z :=
  Py.sum (map (fun p : nat * bool => 2 ^ Z.of_nat (fst p))
              (filter (fun p : nat * bool => snd p) (Py.enumerate subarr))).

(** [[flags[i*nbits:(i+1)*nbits] for i in range(num_ints)]] *)
Definition subarrs (flags : list bool) (nbits num_ints : Z)
  : list (list bool) :=
  map (fun i : nat =>
         Py.slice flags (Z.of_nat i * nbits) ((Z.of_nat i + 1) * nbits))
      (Py.range num_ints).

Definition pack_flags (flags : list bool) (nbits : Z) : result (list Z) :=
  if nbits =? 0 then Raise ZeroDivisionError
  else
    let num_ints := Py.ceil_div (Z.of_nat (length flags)) nbits in
    Ok (map pack_subarr (subarrs flags nbits num_ints)).

(** The sequence [pack_flags] sees in a cell: the flags of a bit
    vector; a [str] is a sequence of one-character strings, all of
    them true; a number has no [len()]. *)
Definition flags_of_cell (x : value) : result (list bool) :=
  match x with
  | VBits l => Ok l
  | VStr s => Ok (repeat true (String.length s))
  | _ => Raise TypeError
  end.

(** An element of [np.array(flags, dtype=np.uint64)]; [pack_flags]
    gives no negative value. *)
Definition to_uint64 (v : Z) : result value :=
  if (0 <=? v) && (v <? 2 ^ 64) then Ok (VInt v) else Raise OverflowError.

(** [zip( *(self.pack_flags(x, nbits=nbits) for x in series))] *)
Definition flag_cols (series : list value) (nbits : Z)
  : result (list (list Z)) :=
  bind_result
    (map_result
       (fun x => bind_result (flags_of_cell x) (fun f => pack_flags f nbits))
       series)
    (fun packed => Ok (Py.zip_star packed)).

(** The body of [for i, flags in enumerate(flag_cols)]. *)
Definition set_flag_col (col_name : string)
  (acc : result (OrderedDict.t (list value))) (p : nat * list Z)
  : result (OrderedDict.t (list value)) :=
  bind_result acc (fun d =>
  bind_result (map_result to_uint64 (snd p)) (fun arr =>
  Ok (OrderedDict.set d
        (Py.upper col_name ++ Py.str_of_nat (fst p + 1))%string arr))).

(** The body of [for col in bintable.columns]. *)
Definition set_column (nbits : Z) (acc : result (OrderedDict.t (list value)))
  (col : Column) : result (OrderedDict.t (list value)) :=
  bind_result acc (fun d =>
  bind_result (Py.last_char (format col)) (fun c =>
  if Ascii.eqb c "X"%char then
    bind_result (flag_cols (data col) nbits) (fun fc =>
    fold_left (set_flag_col (name col)) (Py.enumerate fc) (Ok d))
  else Ok (OrderedDict.set d (name col) (data col)))).

Definition __init__ (bintable : list Column) (nbits : Z) : result t :=
  bind_result
    (fold_left (set_column nbits) bintable (Ok OrderedDict.empty))
    (fun d =>
       match OrderedDict.values d with
       | [] => Raise IndexError
       | v :: _ => Ok (mk d (length v))
       end).

End BinTableData.

(** ** [create_csv_file_from_fits] *)

Definition row : Type := list value.

(** A callback: a function over a whole series that may raise. *)
Definition callback : Type := list value -> result (list value).

Definition duplicate_message (col_name : string) : string :=
  ("Column named " ++ col_name
   ++ " already exists in the binary table data.")%string.

(** The body of [for name, value in added_columns.items()]. *)
Definition add_column (col_name : string) (v : value)
  : M BinTableData.t unit :=
  fun bintable_data =>
    if OrderedDict.has_key (BinTableData.cols bintable_data) col_name
    then (bintable_data, Raise (RuntimeError (duplicate_message col_name)))
    else
      (BinTableData.mk
         (OrderedDict.set (BinTableData.cols bintable_data) col_name
            (repeat v (BinTableData.nrows bintable_data)))
         (BinTableData.nrows bintable_data),
       Ok tt).

Definition add_columns (added_columns : option (list (string * value)))
  : M BinTableData.t unit :=
  match added_columns with
  | None => ret tt
  | Some items => for_each items (fun p => add_column (fst p) (snd p))
  end.

(** The body of [for colname in column_mapping.values()]: the series
    appended to [columns].  A [colname] that is no [str] equals no
    key. *)
Definition column_for (bintable_data : BinTableData.t)
  (callbacks : list (string * callback)) (colname : value)
  : result (list value) :=
  match colname with
  | VStr s =>
      if OrderedDict.has_key (BinTableData.cols bintable_data) s then
        bind_result (Py.getitem (BinTableData.cols bintable_data) s)
          (fun coldata =>
             Py.except_KeyError
               (bind_result (Py.getitem callbacks s) (fun f => f coldata))
               (Ok coldata))
      else Ok (repeat colname (BinTableData.nrows bintable_data))
  | _ => Ok (repeat colname (BinTableData.nrows bintable_data))
  end.

(** A float that is neither NaN nor an infinity. *)
Definition float_is_finite (x : spec_float) : bool :=
  match x with
  | S754_nan => false
  | S754_infinity _ => false
  | _ => true
  end.

(** The integers numpy holds in 64 bits, as [int64] or as [uint64]:
    those from [-2^63] to [2^64 - 1]. *)
Definition fits_64_bits (n : Z) : bool :=
  (- 2 ^ 63 <=? n) && (n <? 2 ^ 64).

(** [bool(np.isfinite(x))] for a cell that is no [str].  An integer
    that numpy holds in 64 bits is finite; a Python integer beyond
    them becomes an object array, for which [np.isfinite] is not
    supported and raises [TypeError].  On a flag vector [np.isfinite]
    is an array of [True], whose truth value is false when empty and
    ambiguous beyond one element. *)
Definition isfinite (x : value) : result bool :=
  match x with
  | VStr _ => Raise TypeError
  | VInt n => if fits_64_bits n then Ok true else Raise TypeError
  | VBool _ => Ok true
  | VFloat f => Ok (float_is_finite f)
  | VBits [] => Ok false
  | VBits [_] => Ok true
  | VBits _ => Raise ValueError
  end.

Definition NULL : value := VStr "\N".

(** [x if isinstance(x, str) or np.isfinite(x) else '\N'] *)
Definition null_if_not_finite (x : value) : result value :=
  match x with
  | VStr _ => Ok x
  | _ => bind_result (isfinite x) (fun b => Ok (if b then x else NULL))
  end.

Definition writerow (r : row) : M (list row) unit :=
  fun written => (written ++ [r], Ok tt).

(** The body of [for row in zip( *tuple(columns))]: substitute, then
    write. *)
Definition write_row (r : row) : M (list row) unit :=
  (r' <- lift (map_result null_if_not_finite r) ;;
   writerow r')%writer.

Definition write_rows (columns : list (list value)) : M (list row) unit :=
  for_each (Py.zip_star columns) write_row.

(** [if callbacks is None: callbacks = {}] *)
Definition callbacks_used (callbacks : option (list (string * callback)))
  : list (string * callback) :=
  match callbacks with
  | None => []
  | Some c => c
  end.

(** [if column_mapping is None: column_mapping = OrderedDict([(name,
    name) for name in bintable_data])] *)
Definition mapping_used (column_mapping : option (list (string * value)))
  (bintable_data : BinTableData.t) : list (string * value) :=
  match column_mapping with
  | None =>
      OrderedDict.of_pairs
        (map (fun n => (n, VStr n))
           (OrderedDict.keys (BinTableData.cols bintable_data)))
  | Some m => m
  end.

(** The rows handed to the csv writer, header first, and how the call
    ends.  [bintable] is [fits.open(fits_file)[fits_hdunum]]; a
    dictionary argument is the list of its items in iteration
    order. *)
Definition create_csv_file_from_fits (bintable : list Column)
  (column_mapping : option (list (string * value)))
  (callbacks : option (list (string * callback)))
  (added_columns : option (list (string * value)))
  : list row * result unit :=
  let callbacks := callbacks_used callbacks in
  match BinTableData.__init__ bintable 64 with
  | Raise e => ([], Raise e)
  | Ok bintable_data0 =>
      match add_columns added_columns bintable_data0 with
      | (_, Raise e) => ([], Raise e)
      | (bintable_data, Ok _) =>
          let column_mapping := mapping_used column_mapping bintable_data in
          let colnames := map fst column_mapping in
          (writerow (map VStr colnames) ;;;
           columns <- lift (map_result
                              (column_for bintable_data callbacks)
                              (map snd column_mapping)) ;;
           write_rows columns)%writer []
      end
  end.

(** ** [create_schema_from_fits] *)

Definition write (s : string) : M string unit :=
  fun output => ((output ++ s)%string, Ok tt).

Definition type_map : list (string * string) :=
  [("1D", "DOUBLE"); ("1E", "FLOAT"); ("1K", "BIGINT"); ("1J", "INT");
   ("1I", "SMALLINT")]%string.

Definition is_quote (c : ascii) : bool := Ascii.eqb c "'"%char.

Definition write_bit_schema_column (column : Column) (padding : string)
  : M string unit :=
  let mysql_type := "BIGINT UNSIGNED"%string in
  let colsize := 64 in
  let format_ := Py.strip_chars is_quote (format column) in
  (num_bits <- lift (Py.float (Py.but_last format_)) ;;
   let ncols := Py.ceil_div num_bits colsize in
   for_each (Py.range ncols) (fun icol =>
     let name_ := (Py.upper (name column) ++ Py.str_of_nat (icol + 1))%string in
     write (padding ++ name_ ++ " " ++ mysql_type ++ "," ++ Py.nl)%string)
  )%writer.

Definition write_schema_column (column : Column) (padding : string)
  : M string unit :=
  let format_ := Py.strip_chars is_quote (format column) in
  (c <- lift (Py.last_char format_) ;;
   if Ascii.eqb c "X"%char then write_bit_schema_column column padding
   else
     n <- lift (Py.int (Py.but_last format_)) ;;
     if negb (n =? 1) then ret tt
     else
       sql_type <- lift (Py.getitem type_map format_) ;;
       write (padding ++ name column ++ " " ++ sql_type ++ "," ++ Py.nl)%string
  )%writer.

(** The text written to [outfile] and how the call ends. *)
Definition create_schema_from_fits (bin_table : list Column)
  (table_name primary_key : string) (add_columns : list string)
  : string * result unit :=
  let padding := "       "%string in
  (write ("create table if not exists " ++ table_name ++ " (" ++ Py.nl)%string ;;;
   for_each bin_table (fun column => write_schema_column column padding) ;;;
   for_each add_columns (fun column =>
     write (padding ++ column ++ "," ++ Py.nl)%string) ;;;
   write ((padding ++ "primary key (" ++ primary_key ++ ")" ++ Py.nl)
          ++ (padding ++ ")" ++ Py.nl))%string
  )%writer EmptyString.

(** ** [DbConnection.check_column_names] *)

Module DbConnection.

Definition count_message : string :=
  ("Number of columns in csv file do not match "
   ++ "the number of columns of db table.")%string.

Definition name_message (csv_col table_col : string) : string :=
  ("Column name mismatch between csv file and db table:"
   ++ " " ++ csv_col ++ " vs " ++ table_col)%string.

(** [csv_input.readline().strip().split(',')] *)
Definition csv_cols (contents : string) : list string :=
  Py.split ","%char (Py.strip (Py.readline contents)).

(** [for csv_col, table_col in zip(csv_cols, column_names)] *)
Fixpoint check_pairs (pairs : list (string * string)) : result unit :=
  match pairs with
  | [] => Ok tt
  | (csv_col, table_col) :: rest =>
      if negb (String.eqb csv_col table_col)
      then Raise (RuntimeError (name_message csv_col table_col))
      else check_pairs rest
  end.

(** [contents] is what the file [csv_file] holds. *)
Definition check_column_names (column_names : list string)
  (contents : string) : result unit :=
  let csv_cols := csv_cols contents in
  if negb (length csv_cols =? length column_names)%nat
  then Raise (RuntimeError count_message)
  else check_pairs (combine csv_cols column_names).

(** *** The connection

    The database is an external collaborator: [db] gives, for a
    statement, the rows its cursor yields, or the exception
    [cursor.execute] raises.  What the module does to the connection
    is the list of its events, oldest first. *)

Inductive event : Type :=
| Execute (sql : string)
| CursorClose
| Commit
| Print (text : string).

(** The argument [cursorFunc] of [apply]: the module's [null_func], or
    a function of the caller over the rows of the cursor. *)
Inductive cursor_func (R A : Type) : Type :=
| null_func
| user_func (f : list R -> result A).

Arguments null_func {R A}.
Arguments user_func {R A} f.

Definition log (e : event) : M (list event) unit :=
  fun events => (events ++ [e], Ok tt).

(** [apply(self, sql, cursorFunc=null_func)]; the result is [None]
    for [null_func]. *)
Definition apply {R A : Type} (db : string -> result (list R))
  (sql : string) (cursorFunc : cursor_func R A) : M (list event) (option A) :=
  (log (Execute sql) ;;;
   curs <- lift (db sql) ;;
   results <- lift (match cursorFunc with
                    | null_func => Ok None
                    | user_func f => bind_result (f curs) (fun a => Ok (Some a))
                    end) ;;
   log CursorClose ;;;
   match cursorFunc with
   | null_func => log Commit ;;; ret results
   | user_func _ => ret results
   end)%writer.

(** [run_script(self, script, dry_run=False)]; [contents] is what the
    file [script] holds. *)
Definition run_script {R : Type} (db : string -> result (list R))
  (contents : string) (dry_run : bool) : M (list event) unit :=
  let sql := String.concat EmptyString (Py.readlines contents) in
  if dry_run then log (Print (sql ++ Py.nl))
  else (_ <- apply (A := unit) db sql null_func ;; ret tt)%writer.

(** The body of [for x in curs] in [dtype_tuple]: [dtypes[x] = 1] on
    an [OrderedDict] whose keys are the rows. *)
Fixpoint set_row (dtypes : list ((string * string) * Z))
  (x : string * string) : list ((string * string) * Z) :=
  match dtypes with
  | [] => [(x, 1)]
  | (k, v) :: r =>
      if String.eqb (fst k) (fst x) && String.eqb (snd k) (snd x)
      then (k, 1) :: r
      else (k, v) :: set_row r x
  end.

(** [dtype_tuple(curs)]: the distinct rows, in order of first
    appearance. *)
Definition dtype_tuple (curs : list (string * string))
  : list (string * string) :=
  map fst (fold_left set_row curs []).

Definition query (table_name : string) : string :=
  ("SELECT COLUMN_NAME, DATA_TYPE FROM INFORMATION_SCHEMA.COLUMNS" ++ Py.nl
   ++ "                   WHERE TABLE_NAME='" ++ table_name ++ "'")%string.

Definition load_data (csv_file table_name : string) : string :=
  ("LOAD DATA LOCAL INFILE '" ++ csv_file ++ "'" ++ Py.nl
   ++ "                 INTO TABLE " ++ table_name ++ Py.nl
   ++ "                 FIELDS TERMINATED BY ',' LINES TERMINATED BY '"
   ++ Py.nl ++ "'" ++ Py.nl
   ++ "                 IGNORE 1 LINES (")%string.

Definition dtypes : list (string * string) :=
  [("int", "SIGNED"); ("bigint", "UNSIGNED"); ("tinyint", "SIGNED");
   ("float", "DECIMAL(50,25)"); ("double", "DECIMAL(65,30)")]%string.

(** The body of [for column_name, data_type in conversions]: the
    entry appended to [cast_list]. *)
Definition cast_entry (dt_pair : string * string) : result string :=
  bind_result (Py.getitem dtypes (snd dt_pair)) (fun my_dtype =>
  Ok (fst dt_pair ++ "=cast(" ++ fst dt_pair ++ " as " ++ my_dtype ++ ")")%string).

(** [load_csv(self, table_name, csv_file)]; [contents] is what the
    file [csv_file] holds. *)
Definition load_csv (db : string -> result (list (string * string)))
  (table_name csv_file contents : string) : M (list event) unit :=
  (results <- apply db (query table_name)
                (user_func (fun curs => Ok (dtype_tuple curs))) ;;
   data_types <- lift (match results with
                       | Some t => Ok t
                       | None => Raise TypeError
                       end) ;;
   let sql := load_data csv_file table_name in
   let column_names := map fst data_types in
   lift (check_column_names column_names contents) ;;;
   let sql := (sql ++ String.concat ("," ++ Py.nl) column_names ++ ")")%string in
   let conversions :=
     filter (fun dt_pair => Py.find (snd dt_pair) "char" =? -1) data_types in
   sql <- lift (match conversions with
                | [] => Ok sql
                | _ =>
                    bind_result (map_result cast_entry conversions)
                      (fun cast_list =>
                         Ok (sql ++ " set " ++ Py.nl
                             ++ String.concat ("," ++ Py.nl) cast_list
                             ++ ";")%string)
                end) ;;
   _ <- apply (A := unit) db sql null_func ;;
   ret tt)%writer.

End DbConnection.

(** ** Definitions used to state the properties *)

(** The value of a chunk, least-significant flag first. *)
Fixpoint bits_value (l : list bool) : Z :=
  match l with
  | [] => 0
  | b :: t => Z.b2z b + 2 * bits_value t
  end.

(** The chunk [k] of [flags] for a positive width. *)
Definition chunk (flags : list bool) (w : Z) (k : nat) : list bool :=
  skipn (k * Z.to_nat w) (firstn ((k + 1) * Z.to_nat w) flags).

(** A numeric cell: an [int], a [float] or a [bool]. *)
Definition numeric (x : value) : bool :=
  match x with
  | VInt _ | VFloat _ | VBool _ => true
  | _ => false
  end.

(** A cell numpy holds as a value of one of its types: any cell but
    an integer beyond 64 bits. *)
Definition held_by_numpy (x : value) : bool :=
  match x with
  | VInt n => fits_64_bits n
  | _ => true
  end.

(** A numeric cell that is NaN or an infinity. *)
Definition non_finite (x : value) : bool :=
  match x with
  | VFloat f => negb (float_is_finite f)
  | _ => false
  end.

(** What the per-value rule makes of a string or numeric cell. *)
Definition serialized (x : value) : value :=
  if non_finite x then VStr "\N" else x.

(** The binary table of the end-to-end scenario, for any two values
    of RA. *)
Definition scenario_table (ra1 ra2 : value) : list Column :=
  [ mkColumn "RA" "1D" [ra1; ra2];
    mkColumn "FLAGS" "9X"
      [ VBits [true; false; true; true; false; true; true; true; false];
        VBits (repeat false 9) ] ].

(** A mapping under construction has no repeated key. *)
Definition keys_unique (acc : result (OrderedDict.t (list value))) : Prop :=
  match acc with
  | Ok d => NoDup (OrderedDict.keys d)
  | Raise _ => True
  end.

(** The schema text the scenario is said to produce: three blanks of
    indentation, a bare closing parenthesis, no final newline. *)
Definition scenario_text_3 : string :=
  ("create table if not exists T (" ++ Py.nl
   ++ "   RA DOUBLE," ++ Py.nl
   ++ "   FLAGS1 BIGINT UNSIGNED," ++ Py.nl
   ++ "   primary key ()" ++ Py.nl
   ++ ")")%string.

(** The schema text with the seven blanks of [padding] before every
    line after the first, the closing parenthesis included, and a
    final newline. *)
Definition scenario_text_7 : string :=
  ("create table if not exists T (" ++ Py.nl
   ++ "       RA DOUBLE," ++ Py.nl
   ++ "       FLAGS1 BIGINT UNSIGNED," ++ Py.nl
   ++ "       primary key ()" ++ Py.nl
   ++ "       )" ++ Py.nl)%string.

(** The characters of a string. *)
Fixpoint chars (s : string) : list ascii :=
  match s with
  | EmptyString => []
  | String c t => c :: chars t
  end.

Definition is_digit (c : ascii) : bool :=
  let n := nat_of_ascii c in ((48 <=? n) && (n <=? 57))%nat.

(** The names of the output columns of a bit-array column [C] of
    width [W]: [UPPERCASE(C)] followed by 1, 2, ..., [ceil(W/64)]. *)
Definition bit_column_names (C : string) (W : nat) : list string :=
  map (fun i : nat => (Py.upper C ++ Py.str_of_nat (i + 1))%string)
      (seq 0 (Z.to_nat ((Z.of_nat W + 63) / 64))).

(** The schema line of an output column of a bit-array column. *)
Definition bit_schema_line (padding col_name : string) : string :=
  (padding ++ col_name ++ " BIGINT UNSIGNED," ++ Py.nl)%string.

(** The assignments [d[k] = v] for the items [(k, v)], in order. *)
Definition assign {V : Type} (d : OrderedDict.t V)
  (items : list (string * V)) : OrderedDict.t V :=
  fold_left (fun d p => OrderedDict.set d (fst p) (snd p)) items d.

(** Both sides give a bit-array column of width [W] the names
    [bit_column_names]: the materializer assigns exactly them, in
    order, each to a series with one value per record, and the schema
    emitter writes exactly their lines, in order. *)
Definition bit_columns_agree (col : Column) (W : nat)
  (d : OrderedDict.t (list value)) (padding output : string) : Prop :=
  (exists series : list (list value),
     length series = length (bit_column_names (name col) W)
     /\ Forall (fun s => length s = length (data col)) series
     /\ BinTableData.set_column 64 (Ok d) col
        = Ok (assign d (combine (bit_column_names (name col) W) series)))
  /\ write_bit_schema_column col padding output
     = ((output
         ++ String.concat EmptyString
              (map (bit_schema_line padding)
                 (bit_column_names (name col) W)))%string,
        Ok tt).

(** ** Definitions used to state further properties *)

(** Reading the flags back from the packed integers: flag [i] is bit
    [i mod nbits] of element [i / nbits]. *)
Definition unpack_flags (packed : list Z) (nbits : Z) (n : nat) : list bool :=
  map (fun i : nat =>
         Z.testbit (nth (Z.to_nat (Z.of_nat i / nbits)) packed 0)
                   (Z.of_nat i mod nbits))
      (seq 0 n).

(** The format of a column ends in [X]: the materializer takes it as
    a bit array. *)
Definition is_bit_column (c : Column) : Prop :=
  Py.last_char (format c) = Ok "X"%char.

(** The format of a column is not empty and does not end in [X]: the
    materializer passes the column through. *)
Definition is_plain_column (c : Column) : Prop :=
  exists ch : ascii, Py.last_char (format c) = Ok ch /\ ch <> "X"%char.

(** Every series of a mapping under construction satisfies [Q]. *)
Definition series_all (Q : list value -> Prop)
  (acc : result (OrderedDict.t (list value))) : Prop :=
  match acc with
  | Ok d => Forall (fun kv => Q (snd kv)) d
  | Raise _ => True
  end.

(** A construction of the mapping has not failed, or has failed with
    [IndexError] or [TypeError]. *)
Definition fails_mildly (acc : result (OrderedDict.t (list value))) : Prop :=
  match acc with
  | Ok _ => True
  | Raise e => e = IndexError \/ e = TypeError
  end.

(** A cell that is a string or a number numpy holds, not a flag
    vector and not an integer beyond 64 bits. *)
Definition scalar (x : value) : bool :=
  match x with
  | VBits _ => false
  | VInt n => fits_64_bits n
  | _ => true
  end.

(** A cell that is a string or a number of any size, not a flag
    vector. *)
Definition string_or_number (x : value) : bool :=
  match x with
  | VBits _ => false
  | _ => true
  end.


(** The SQL columns a column declaration stands for: one column of
    the mapped type for one of the five scalar formats, the
    [BIGINT UNSIGNED] columns of [bit_column_names] for a bit array of
    [W] bits. *)
Inductive declares (c : Column) : list (string * string) -> Prop :=
| declares_scalar (sql_type : string) :
    In (format c, sql_type) type_map ->
    declares c [(name c, sql_type)]
| declares_bits (W : nat) :
    format c = (Py.str_of_nat W ++ "X")%string ->
    declares c (map (fun n => (n, "BIGINT UNSIGNED"%string))
                  (bit_column_names (name c) W)).

(** The parts of a schema text. *)
Definition schema_head (table_name : string) : string :=
  ("create table if not exists " ++ table_name ++ " (" ++ Py.nl)%string.

Definition schema_line (padding : string) (p : string * string) : string :=
  (padding ++ fst p ++ " " ++ snd p ++ "," ++ Py.nl)%string.

Definition schema_added_line (padding column : string) : string :=
  (padding ++ column ++ "," ++ Py.nl)%string.

Definition schema_tail (padding primary_key : string) : string :=
  ((padding ++ "primary key (" ++ primary_key ++ ")" ++ Py.nl)
   ++ (padding ++ ")" ++ Py.nl))%string.

(** What [write_schema_column] adds for a column, and how it ends. *)
Definition column_text (padding : string) (c : Column) : string :=
  fst (write_schema_column c padding EmptyString).

Definition column_outcome (padding : string) (c : Column) : result unit :=
  snd (write_schema_column c padding EmptyString).

(** A writer that only appends: what it adds to the text and how it
    ends do not depend on the text written before. *)
Definition appends {A : Type} (m : M string A) : Prop :=
  forall output : string,
    m output = ((output ++ fst (m EmptyString))%string, snd (m EmptyString)).

(** A string without a newline. *)
Definition one_line (s : string) : Prop :=
  Forall (fun c => c <> "010"%char) (chars s).

(** A column name that the header check reads back as it is: no
    comma and no blank character in it. *)
Definition plain_name (s : string) : Prop :=
  Forall (fun c => Py.is_space c = false /\ c <> ","%char) (chars s).

(** Two rows of the cursor are the same row. *)
Definition same_row (k x : string * string) : bool :=
  String.eqb (fst k) (fst x) && String.eqb (snd k) (snd x).

(** The columns of [data_types] that [load_csv] casts: those whose
    type does not contain [char]. *)
Definition conversions (data_types : list (string * string))
  : list (string * string) :=
  filter (fun dt_pair => Py.find (snd dt_pair) "char" =? -1) data_types.

(** The cast of a column to the type [my_dtype]. *)
Definition cast_text (dt_pair : string * string) (my_dtype : string)
  : string :=
  (fst dt_pair ++ "=cast(" ++ fst dt_pair ++ " as " ++ my_dtype ++ ")")%string.

(** The [set] clause of the load statement for a list of casts. *)
Definition set_clause (cast_list : list string) : string :=
  match cast_list with
  | [] => EmptyString
  | _ => (" set " ++ Py.nl ++ String.concat ("," ++ Py.nl) cast_list ++ ";")%string
  end.

(** * Properties *)

(** ** Bit-flag packing *)

Lemma fold_left_add_acc (l : list Z) (a : Z) :
  fold_left Z.add l a = a + fold_left Z.add l 0.
Proof.
  revert a; induction l as [|x t IH]; intros a; simpl.
  - lia.
  - rewrite (IH (a + x)), (IH x). lia.
Qed.

Lemma sum_cons (x : Z) (l : list Z) : Py.sum (x :: l) = x + Py.sum l.
Proof. unfold Py.sum; simpl. apply fold_left_add_acc. Qed.

Lemma pack_from_shift (l : list bool) (k : nat) :
  Py.sum (map (fun p : nat * bool => 2 ^ Z.of_nat (fst p))
            (filter (fun p : nat * bool => snd p) (Py.enumerate_from k l)))
  = 2 ^ Z.of_nat k * bits_value l.
Proof.
  revert k; induction l as [|b t IH]; intros k.
  - cbn. lia.
  - cbn [Py.enumerate_from filter snd bits_value].
    assert (E : 2 ^ Z.of_nat (S k) = 2 * 2 ^ Z.of_nat k)
      by (rewrite Nat2Z.inj_succ, Z.pow_succ_r by lia; reflexivity).
    destruct b; cbn [map fst Z.b2z].
    + rewrite sum_cons, IH, E. lia.
    + rewrite IH, E. lia.
Qed.

Lemma pack_subarr_value (l : list bool) : BinTableData.pack_subarr l = bits_value l.
Proof.
  unfold BinTableData.pack_subarr, Py.enumerate. rewrite pack_from_shift.
  change (Z.of_nat 0) with 0. lia.
Qed.

Lemma bits_value_range (l : list bool) :
  0 <= bits_value l < 2 ^ Z.of_nat (length l).
Proof.
  induction l as [|b t IH].
  - simpl; lia.
  - cbn [bits_value length]. rewrite Nat2Z.inj_succ, Z.pow_succ_r by lia.
    destruct b; simpl Z.b2z; lia.
Qed.

Lemma bits_value_testbit (l : list bool) (j : nat) :
  Z.testbit (bits_value l) (Z.of_nat j) = nth j l false.
Proof.
  revert j; induction l as [|b t IH]; intros j.
  - simpl. rewrite Z.testbit_0_l. destruct j; reflexivity.
  - cbn [bits_value]. destruct j as [|j].
    + simpl nth. change (Z.of_nat 0) with 0.
      rewrite Z.add_comm. rewrite Z.testbit_0_r. reflexivity.
    + simpl nth. rewrite Nat2Z.inj_succ.
      rewrite Z.add_comm. rewrite Z.testbit_succ_r by lia. apply IH.
Qed.

Lemma ceil_div_pos (a w : Z) :
  0 < w -> Py.ceil_div a w = (a + w - 1) / w.
Proof.
  intros Hw. unfold Py.ceil_div.
  pose proof (Z.div_mod (- a) w ltac:(lia)) as E1.
  pose proof (Z.mod_pos_bound (- a) w Hw) as B1.
  apply (Z.div_unique_pos _ _ _ (w - 1 - (- a) mod w)); lia.
Qed.

Lemma ceil_div_bounds (a w : Z) :
  0 < w -> 0 <= a ->
  0 <= Py.ceil_div a w /\ a <= Py.ceil_div a w * w < a + w.
Proof.
  intros Hw Ha. rewrite ceil_div_pos by assumption.
  pose proof (Z.div_mod (a + w - 1) w ltac:(lia)) as E.
  pose proof (Z.mod_pos_bound (a + w - 1) w Hw) as B.
  assert (0 <= (a + w - 1) / w) by (apply Z.div_pos; lia).
  lia.
Qed.

Lemma slice_of_nat {A : Type} (l : list A) (lo hi : nat) :
  Py.slice l (Z.of_nat lo) (Z.of_nat hi) = skipn lo (firstn hi l).
Proof.
  unfold Py.slice, Py.slice_index.
  destruct (Z.ltb_spec (Z.of_nat lo) 0) as [?|_]; [lia|].
  destruct (Z.ltb_spec (Z.of_nat hi) 0) as [?|_]; [lia|].
  rewrite <- !Nat2Z.inj_min, !Nat2Z.id.
  assert (F : firstn (Nat.min hi (length l)) l = firstn hi l).
  { destruct (Nat.le_ge_cases hi (length l)) as [H|H].
    - rewrite Nat.min_l by assumption. reflexivity.
    - rewrite Nat.min_r by assumption.
      rewrite firstn_all, firstn_all2 by assumption. reflexivity. }
  rewrite F.
  destruct (Nat.le_ge_cases lo (length l)) as [H|H].
  - rewrite Nat.min_l by assumption. reflexivity.
  - rewrite Nat.min_r by assumption.
    rewrite !skipn_all2; [reflexivity| |];
      rewrite length_firstn; lia.
Qed.

Lemma nth_skipn_firstn {A : Type} (l : list A) (lo hi j : nat) (d : A) :
  (lo + j < hi)%nat ->
  nth j (skipn lo (firstn hi l)) d = nth (lo + j) l d.
Proof.
  intros H. rewrite nth_skipn.
  destruct (Nat.lt_ge_cases (lo + j) (length l)) as [L|L].
  - rewrite <- (firstn_skipn hi l) at 2.
    rewrite app_nth1; [reflexivity|]. rewrite length_firstn. lia.
  - rewrite !nth_overflow; [reflexivity|assumption|].
    rewrite length_firstn. lia.
Qed.

Lemma nth_map_seq {A : Type} (g : nat -> A) (m k : nat) (d : A) :
  (k < m)%nat -> nth k (map g (seq 0 m)) d = g k.
Proof.
  intros H. rewrite (nth_indep _ d (g 0%nat)) by
    (rewrite length_map, length_seq; assumption).
  rewrite map_nth, seq_nth by assumption. reflexivity.
Qed.

Lemma pack_flags_chunks (flags : list bool) (w : Z) :
  0 < w ->
  BinTableData.pack_flags flags w =
  Ok (map (fun k => bits_value (chunk flags w k))
        (seq 0 (Z.to_nat (Py.ceil_div (Z.of_nat (length flags)) w)))).
Proof.
  intros Hw. unfold BinTableData.pack_flags.
  destruct (Z.eqb_spec w 0) as [?|_]; [lia|].
  f_equal. unfold BinTableData.subarrs, Py.range. rewrite map_map.
  apply map_ext. intros k. rewrite pack_subarr_value. f_equal.
  unfold chunk.
  replace (Z.of_nat k * w) with (Z.of_nat (k * Z.to_nat w)) by lia.
  replace ((Z.of_nat k + 1) * w) with (Z.of_nat ((k + 1) * Z.to_nat w))
    by lia.
  apply slice_of_nat.
Qed.

Lemma length_chunk (flags : list bool) (w : Z) (k : nat) :
  0 < w ->
  Z.of_nat (length (chunk flags w k)) =
  Z.max 0 (Z.min w (Z.of_nat (length flags) - Z.of_nat k * w)).
Proof.
  intros Hw. unfold chunk. rewrite length_skipn, length_firstn. nia.
Qed.


Lemma bits_value_all_false (l : list bool) :
  (forall j : nat, (j < length l)%nat -> nth j l false = false) ->
  bits_value l = 0.
Proof.
  induction l as [|b t IH]; intros H; [reflexivity|].
  cbn [bits_value].
  rewrite IH.
  - specialize (H 0%nat). cbn in H. rewrite H by lia. reflexivity.
  - intros j Hj. apply (H (S j)). cbn. lia.
Qed.

Lemma land_shiftr_1 (v j : Z) :
  0 <= j -> Z.land (Z.shiftr v j) 1 = Z.b2z (Z.testbit v j).
Proof.
  intros Hj. change 1 with (Z.ones 1). rewrite Z.land_ones by lia.
  change (2 ^ 1) with 2. rewrite <- Z.bit0_mod, Z.shiftr_spec by lia.
  reflexivity.
Qed.

(** C2.  For a positive width [w], [BinTableData.pack_flags f w] returns
    [ceil(len(f)/w)] integers; for every valid index [i] of [f],
    [(packed[i // w] >> (i % w)) & 1] is [f[i]], so index 0 of a chunk
    is its least-significant bit; and a chunk without a true flag,
    the empty chunk included, packs to 0. *)
Theorem pack_flags_unpack (f : list bool) (w : Z) :
  0 < w ->
  exists packed : list Z,
    BinTableData.pack_flags f w = Ok packed
    /\ Z.of_nat (length packed) = (Z.of_nat (length f) + w - 1) / w
    /\ (forall i : nat, (i < length f)%nat ->
          Z.land (Z.shiftr (nth (Z.to_nat (Z.of_nat i / w)) packed 0)
                           (Z.of_nat i mod w)) 1
          = Z.b2z (nth i f false))
    /\ (forall k : nat, (k < length packed)%nat ->
          (forall i : nat, (i < length f)%nat ->
             Z.of_nat i / w = Z.of_nat k -> nth i f false = false) ->
          nth k packed 0 = 0)
    /\ (forall subarr : list bool,
          Forall (fun b => b = false) subarr -> BinTableData.pack_subarr subarr = 0).
Proof.
  intros Hw. eexists. split; [apply pack_flags_chunks; assumption|].
  pose proof (ceil_div_bounds (Z.of_nat (length f)) w Hw ltac:(lia))
    as [Hm0 Hm].
  set (m := Py.ceil_div (Z.of_nat (length f)) w) in *.
  repeat split.
  - rewrite length_map, length_seq, Z2Nat.id by assumption.
    apply ceil_div_pos; assumption.
  - intros i Hi.
    pose proof (Z.div_mod (Z.of_nat i) w ltac:(lia)) as E.
    pose proof (Z.mod_pos_bound (Z.of_nat i) w Hw) as B.
    assert (0 <= Z.of_nat i / w) by (apply Z.div_pos; lia).
    rewrite nth_map_seq by nia.
    rewrite land_shiftr_1 by lia. f_equal.
    rewrite <- (Z2Nat.id (Z.of_nat i mod w)) by lia.
    rewrite bits_value_testbit. unfold chunk.
    rewrite nth_skipn_firstn by nia.
    f_equal. nia.
  - intros k Hk Hall.
    rewrite length_map, length_seq in Hk.
    rewrite nth_map_seq by assumption.
    apply bits_value_all_false. intros j Hj.
    assert (Lc := length_chunk f w k Hw).
    unfold chunk in *. rewrite nth_skipn_firstn by nia.
    apply Hall; [nia|].
    symmetry. apply (Z.div_unique_pos _ _ _ (Z.of_nat j)); nia.
  - intros subarr Hall. rewrite pack_subarr_value.
    apply bits_value_all_false. intros j Hj.
    rewrite Forall_forall in Hall. apply Hall. apply nth_In. assumption.
Qed.

Lemma pack_flags_unpack_witness :
  exists packed : list Z,
    BinTableData.pack_flags [true; false; true] 2 = Ok packed
    /\ Z.of_nat (length packed) = (3 + 2 - 1) / 2.
Proof.
  destruct (pack_flags_unpack [true; false; true] 2 ltac:(lia))
    as (packed & H1 & H2 & _).
  exists packed. split; [exact H1 | exact H2].
Defined.

(** C10.  For a positive [nbits], every element of
    [BinTableData.pack_flags flags nbits] is a non-negative integer below
    [2^nbits], and no bit is set at or above position [nbits] nor at or
    above the number of flags of its chunk. *)
Theorem pack_flags_fits (flags : list bool) (nbits : Z) :
  0 < nbits ->
  exists packed : list Z,
    BinTableData.pack_flags flags nbits = Ok packed
    /\ Forall (fun v => 0 <= v < 2 ^ nbits) packed
    /\ (forall (k : nat) (j : Z), (k < length packed)%nat ->
          Z.min nbits (Z.of_nat (length flags) - Z.of_nat k * nbits) <= j ->
          Z.testbit (nth k packed 0) j = false).
Proof.
  intros Hw. eexists. split; [apply pack_flags_chunks; assumption|].
  pose proof (ceil_div_bounds (Z.of_nat (length flags)) nbits Hw ltac:(lia))
    as [Hm0 Hm].
  set (m := Py.ceil_div (Z.of_nat (length flags)) nbits) in *.
  split.
  - rewrite Forall_forall. intros v Hv.
    apply in_map_iff in Hv. destruct Hv as (k & <- & _).
    pose proof (bits_value_range (chunk flags nbits k)) as R.
    pose proof (length_chunk flags nbits k Hw) as L.
    assert (2 ^ Z.of_nat (length (chunk flags nbits k)) <= 2 ^ nbits)
      by (apply Z.pow_le_mono_r; lia).
    lia.
  - intros k j Hk Hj.
    rewrite length_map, length_seq in Hk.
    rewrite nth_map_seq by assumption.
    pose proof (length_chunk flags nbits k Hw) as L.
    assert (0 <= j) by nia.
    rewrite <- (Z2Nat.id j) by assumption.
    rewrite bits_value_testbit. apply nth_overflow. nia.
Qed.

Lemma pack_flags_fits_witness :
  exists packed : list Z,
    BinTableData.pack_flags [true; true; true] 2 = Ok packed
    /\ Forall (fun v => 0 <= v < 2 ^ 2) packed.
Proof.
  destruct (pack_flags_fits [true; true; true] 2 ltac:(lia))
    as (packed & H1 & H2 & _).
  exists packed. split; [exact H1 | exact H2].
Defined.

(** ** The writer *)

Lemma map_result_Forall2 {A B : Type} (f : A -> result B) (l : list A)
  (l' : list B) :
  map_result f l = Ok l' -> Forall2 (fun x y => f x = Ok y) l l'.
Proof.
  revert l'; induction l as [|x t IH]; intros l' H; cbn in H.
  - injection H as <-. constructor.
  - destruct (f x) as [y|e] eqn:Ex; cbn in H; [|discriminate].
    destruct (map_result f t) as [ys|e] eqn:Et; cbn in H; [|discriminate].
    injection H as <-. constructor; [assumption|]. apply IH. reflexivity.
Qed.

Lemma map_result_ext {A B : Type} (f g : A -> result B) (l : list A) :
  (forall x, f x = g x) -> map_result f l = map_result g l.
Proof.
  intros H. induction l as [|x t IH]; [reflexivity|].
  cbn. rewrite H, IH. reflexivity.
Qed.

(** ** The ordered dictionary *)

Lemma has_key_In {V : Type} (d : OrderedDict.t V) (k : string) :
  OrderedDict.has_key d k = true <-> In k (OrderedDict.keys d).
Proof.
  unfold OrderedDict.has_key. rewrite existsb_exists. split.
  - intros (x & Hx & E). apply String.eqb_eq in E. subst. assumption.
  - intros H. exists k. split; [assumption|apply String.eqb_refl].
Qed.

Lemma has_key_false {V : Type} (d : OrderedDict.t V) (k : string) :
  OrderedDict.has_key d k = false <-> ~ In k (OrderedDict.keys d).
Proof.
  rewrite <- has_key_In. destruct (OrderedDict.has_key d k); split;
    congruence.
Qed.

Lemma set_fresh {V : Type} (d : OrderedDict.t V) (k : string) (v : V) :
  ~ In k (OrderedDict.keys d) -> OrderedDict.set d k v = d ++ [(k, v)].
Proof.
  induction d as [|[k' v'] r IH]; intros H; [reflexivity|].
  cbn in *. destruct (String.eqb_spec k' k) as [->|N].
  - exfalso. apply H. left. reflexivity.
  - rewrite IH by tauto. reflexivity.
Qed.

Lemma keys_set_present {V : Type} (d : OrderedDict.t V) (k : string) (v : V) :
  In k (OrderedDict.keys d) ->
  OrderedDict.keys (OrderedDict.set d k v) = OrderedDict.keys d.
Proof.
  induction d as [|[k' v'] r IH]; intros H; [destruct H|].
  cbn in *. destruct (String.eqb_spec k' k) as [->|N]; [reflexivity|].
  cbn. f_equal. apply IH. destruct H; [contradiction|assumption].
Qed.

Lemma keys_app {V : Type} (d1 d2 : OrderedDict.t V) :
  OrderedDict.keys (d1 ++ d2) = OrderedDict.keys d1 ++ OrderedDict.keys d2.
Proof. apply map_app. Qed.

Lemma NoDup_snoc {A : Type} (l : list A) (x : A) :
  NoDup l -> ~ In x l -> NoDup (l ++ [x]).
Proof.
  intros Hl Hx. induction Hl as [|y l Hy Hl IH]; cbn.
  - constructor; [intros []|constructor].
  - constructor.
    + rewrite in_app_iff. cbn. intros [H|[H|[]]]; [contradiction|].
      subst. apply Hx. left. reflexivity.
    + apply IH. intros H. apply Hx. right. assumption.
Qed.

Lemma NoDup_keys_set {V : Type} (d : OrderedDict.t V) (k : string) (v : V) :
  NoDup (OrderedDict.keys d) ->
  NoDup (OrderedDict.keys (OrderedDict.set d k v)).
Proof.
  intros H. destruct (in_dec string_dec k (OrderedDict.keys d)) as [I|I].
  - rewrite keys_set_present; assumption.
  - rewrite set_fresh, keys_app by assumption. cbn.
    apply NoDup_snoc; assumption.
Qed.

Lemma keys_assign {V : Type} (items : list (string * V))
  (d : OrderedDict.t V) :
  NoDup (OrderedDict.keys d ++ map fst items) ->
  OrderedDict.keys (assign d items) = OrderedDict.keys d ++ map fst items.
Proof.
  unfold assign.
  revert d; induction items as [|[k v] t IH]; intros d H.
  - cbn. rewrite app_nil_r. reflexivity.
  - assert (Hk : ~ In k (OrderedDict.keys d)).
    { apply NoDup_remove_2 in H. intros I. apply H.
      apply in_or_app. left. assumption. }
    cbn [map fold_left fst snd] in *.
    rewrite (set_fresh d k v Hk).
    assert (E : OrderedDict.keys (d ++ [(k, v)]) ++ map fst t
                = OrderedDict.keys d ++ k :: map fst t).
    { rewrite keys_app, <- app_assoc. reflexivity. }
    rewrite IH; rewrite E; [reflexivity|assumption].
Qed.

Lemma keys_of_pairs_identity {V : Type} (f : string -> V) (ks : list string) :
  NoDup ks ->
  OrderedDict.keys (OrderedDict.of_pairs (map (fun n => (n, f n)) ks)) = ks.
Proof.
  intros H. change (OrderedDict.of_pairs ?p) with (assign OrderedDict.empty p).
  rewrite keys_assign; rewrite map_map, map_id; [reflexivity|assumption].
Qed.

(** ** The materialized table has no repeated key *)

Lemma set_flag_col_unique (col_name : string)
  (acc : result (OrderedDict.t (list value))) (p : nat * list Z) :
  keys_unique acc -> keys_unique (BinTableData.set_flag_col col_name acc p).
Proof.
  unfold BinTableData.set_flag_col. destruct acc as [d|e]; cbn; [|trivial].
  intros H. destruct (map_result BinTableData.to_uint64 (snd p)); cbn;
    [|trivial].
  apply NoDup_keys_set. assumption.
Qed.

Lemma fold_unique {A : Type}
  (step : result (OrderedDict.t (list value)) -> A ->
          result (OrderedDict.t (list value)))
  (l : list A) (acc : result (OrderedDict.t (list value))) :
  (forall a x, keys_unique a -> keys_unique (step a x)) ->
  keys_unique acc -> keys_unique (fold_left step l acc).
Proof.
  intros Hs. revert acc. induction l as [|x t IH]; intros acc H; cbn.
  - assumption.
  - apply IH, Hs, H.
Qed.

Lemma set_column_unique (nbits : Z)
  (acc : result (OrderedDict.t (list value))) (col : Column) :
  keys_unique acc -> keys_unique (BinTableData.set_column nbits acc col).
Proof.
  unfold BinTableData.set_column. destruct acc as [d|e]; cbn; [|trivial].
  intros H. destruct (Py.last_char (format col)) as [c|e]; cbn; [|trivial].
  destruct (Ascii.eqb c "X").
  - destruct (BinTableData.flag_cols (data col) nbits) as [fc|e]; cbn;
      [|trivial].
    apply fold_unique; [apply set_flag_col_unique|assumption].
  - cbn. apply NoDup_keys_set. assumption.
Qed.

Lemma init_keys_unique (bintable : list Column) (nbits : Z)
  (t : BinTableData.t) :
  BinTableData.__init__ bintable nbits = Ok t ->
  NoDup (OrderedDict.keys (BinTableData.cols t)).
Proof.
  unfold BinTableData.__init__. intros H.
  pose proof (fold_unique (BinTableData.set_column nbits) bintable
                (Ok OrderedDict.empty) (set_column_unique nbits)
                (NoDup_nil _)) as U.
  destruct (fold_left _ bintable _) as [d|e]; cbn in H; [|discriminate].
  destruct (OrderedDict.values d); [discriminate|].
  injection H as <-. exact U.
Qed.

Lemma add_column_unique (col_name : string) (v : value) (t : BinTableData.t) :
  NoDup (OrderedDict.keys (BinTableData.cols t)) ->
  NoDup (OrderedDict.keys (BinTableData.cols (fst (add_column col_name v t)))).
Proof.
  intros H. unfold add_column.
  destruct (OrderedDict.has_key _ _); cbn; [assumption|].
  apply NoDup_keys_set. assumption.
Qed.

Lemma add_columns_unique (added : option (list (string * value)))
  (t : BinTableData.t) :
  NoDup (OrderedDict.keys (BinTableData.cols t)) ->
  NoDup (OrderedDict.keys (BinTableData.cols (fst (add_columns added t)))).
Proof.
  destruct added as [items|]; cbn; [|trivial].
  revert t. induction items as [|[n v] r IH]; intros t H; cbn; [assumption|].
  unfold bind. pose proof (add_column_unique n v t H) as U.
  destruct (add_column n v t) as [t' [u|e]]; cbn in *.
  - apply IH. assumption.
  - assumption.
Qed.

(** ** The CSV emitter *)

Lemma write_row_eq (r : row) (out : list row) :
  write_row r out =
  match map_result null_if_not_finite r with
  | Ok r' => (out ++ [r'], Ok tt)
  | Raise e => (out, Raise e)
  end.
Proof.
  unfold write_row, bind, lift, writerow.
  destruct (map_result null_if_not_finite r); reflexivity.
Qed.

(** The rows [write_rows] adds come, in order, from the first rows of
    [zip( *columns )], each cell through [null_if_not_finite]; all of
    them when the loop ends without raising. *)
Lemma for_each_rows (rows : list row) (out : list row) :
  exists w,
    fst (for_each rows write_row out) = out ++ w
    /\ Forall2 (Forall2 (fun x y => null_if_not_finite x = Ok y))
         (firstn (length w) rows) w
    /\ (snd (for_each rows write_row out) = Ok tt ->
        length w = length rows).
Proof.
  revert out. induction rows as [|r t IH]; intros out.
  - exists []. cbn. rewrite app_nil_r. repeat split. constructor.
  - cbn [for_each]. unfold bind. rewrite write_row_eq.
    destruct (map_result null_if_not_finite r) as [r'|e] eqn:E.
    + destruct (IH (out ++ [r'])) as (w & E1 & F & L).
      exists (r' :: w). rewrite E1, <- app_assoc. cbn. repeat split.
      * constructor; [apply map_result_Forall2; assumption|assumption].
      * intros H. f_equal. apply L. assumption.
    + exists []. cbn. rewrite app_nil_r. repeat split; [constructor|].
      discriminate.
Qed.

(** The loop stops at the first row that has a cell the rule cannot
    take: the rows written are all the rows before it. *)
Lemma for_each_rows_stop (rows : list row) (out : list row) (e : exn) :
  snd (for_each rows write_row out) = Raise e ->
  exists r,
    nth_error rows (length (fst (for_each rows write_row out)) - length out)
    = Some r
    /\ map_result null_if_not_finite r = Raise e.
Proof.
  revert out. induction rows as [|r t IH]; intros out; [discriminate|].
  cbn [for_each]. unfold bind. rewrite write_row_eq.
  destruct (map_result null_if_not_finite r) as [r'|e'] eqn:E.
  - intros H. destruct (IH (out ++ [r']) H) as (r0 & N & R).
    exists r0. split; [|assumption].
    destruct (for_each_rows t (out ++ [r'])) as (w & E1 & _).
    unfold row in *. rewrite E1 in *. rewrite !length_app in *. cbn in *.
    replace (length out + 1 + length w - length out)%nat
      with (S (length w)) by lia.
    replace (length out + 1 + length w - (length out + 1))%nat
      with (length w) in N by lia.
    exact N.
  - cbn. intros H. injection H as <-. exists r.
    rewrite Nat.sub_diag. split; [reflexivity|exact E].
Qed.

Lemma null_if_not_finite_rule (x y : value) :
  null_if_not_finite x = Ok y ->
  (x = VBits [] /\ y = NULL) \/
  (exists b, x = VBits [b] /\ y = x) \/
  ((exists s, x = VStr s) \/ numeric x = true) /\ y = serialized x.
Proof.
  destruct x as [s|n|f|b|l]; cbn; intros H.
  - injection H as <-. right. right. split; [left; eauto|reflexivity].
  - destruct (fits_64_bits n); [|discriminate].
    injection H as <-. right. right. split; [right|]; reflexivity.
  - injection H as <-. right. right. split; [right; reflexivity|].
    unfold serialized, non_finite.
    destruct (float_is_finite f); reflexivity.
  - injection H as <-. right. right. split; [right|]; reflexivity.
  - destruct l as [|b [|c l]]; cbn in H; try discriminate;
      injection H as <-; [left|right; left; exists b]; split; reflexivity.
Qed.

Lemma null_if_not_finite_total (x : value) :
  (exists s, x = VStr s) \/ numeric x = true ->
  held_by_numpy x = true ->
  null_if_not_finite x = Ok (serialized x).
Proof.
  intros [[s ->]|H] Hh; [reflexivity|].
  destruct x as [s|n|f|b|l]; try discriminate; cbn; try reflexivity.
  - cbn in Hh. rewrite Hh. reflexivity.
  - unfold serialized, non_finite. destruct (float_is_finite f); reflexivity.
Qed.

Lemma null_if_not_finite_beyond (n : Z) :
  fits_64_bits n = false -> null_if_not_finite (VInt n) = Raise TypeError.
Proof.
  intros H. cbn. rewrite H. reflexivity.
Qed.

Lemma null_if_not_finite_output (x y : value) :
  null_if_not_finite x = Ok y -> non_finite y = false.
Proof.
  intros H. destruct (null_if_not_finite_rule x y H)
    as [[-> ->]|[(b & -> & ->)|[_ ->]]]; try reflexivity.
  unfold serialized. destruct (non_finite x) eqn:E; [reflexivity|assumption].
Qed.

Lemma create_csv_eq (bintable : list Column)
  (column_mapping : option (list (string * value)))
  (callbacks : option (list (string * callback)))
  (added_columns : option (list (string * value)))
  (t0 t : BinTableData.t) :
  BinTableData.__init__ bintable 64 = Ok t0 ->
  add_columns added_columns t0 = (t, Ok tt) ->
  create_csv_file_from_fits bintable column_mapping callbacks added_columns =
  let m := mapping_used column_mapping t in
  match map_result (column_for t (callbacks_used callbacks)) (map snd m) with
  | Ok columns => write_rows columns [map VStr (map fst m)]
  | Raise e => ([map VStr (map fst m)], Raise e)
  end.
Proof.
  intros H0 H1. unfold create_csv_file_from_fits. rewrite H0, H1.
  unfold bind, writerow, lift. cbn.
  destruct (map_result _ _); reflexivity.
Qed.

Lemma create_csv_cases (bintable : list Column)
  (column_mapping : option (list (string * value)))
  (callbacks : option (list (string * callback)))
  (added_columns : option (list (string * value))) :
  (exists e,
     create_csv_file_from_fits bintable column_mapping callbacks added_columns
     = ([], Raise e))
  \/ (exists t0 t,
        BinTableData.__init__ bintable 64 = Ok t0
        /\ add_columns added_columns t0 = (t, Ok tt)).
Proof.
  unfold create_csv_file_from_fits.
  destruct (BinTableData.__init__ bintable 64) as [t0|e] eqn:H0.
  - destruct (add_columns added_columns t0) as [t [[]|e]] eqn:H1.
    + right. exists t0, t. split; [reflexivity|assumption].
    + left. exists e. reflexivity.
  - left. exists e. reflexivity.
Qed.

Lemma Forall2_Forall_r {A B : Type} (R : A -> B -> Prop) (P : B -> Prop)
  (l : list A) (l' : list B) :
  (forall x y, R x y -> P y) -> Forall2 R l l' -> Forall P l'.
Proof.
  intros H F. induction F; constructor; eauto.
Qed.

(** ** The CSV emitter: header, rows, added columns, callbacks *)

(** C4.  With [column_mapping=None] the first row handed to the csv
    writer, the header, is the list of the keys of the materialized
    table (added columns included), in the table's key order. *)
Theorem csv_header_is_table_keys (bintable : list Column)
  (callbacks : option (list (string * callback)))
  (added_columns : option (list (string * value)))
  (t0 t : BinTableData.t) :
  BinTableData.__init__ bintable 64 = Ok t0 ->
  add_columns added_columns t0 = (t, Ok tt) ->
  exists (rows : list row) (outcome : result unit),
    create_csv_file_from_fits bintable None callbacks added_columns
    = (map VStr (OrderedDict.keys (BinTableData.cols t)) :: rows, outcome).
Proof.
  intros H0 H1. rewrite (create_csv_eq _ _ _ _ t0 t H0 H1).
  cbn zeta. unfold mapping_used.
  assert (U : NoDup (OrderedDict.keys (BinTableData.cols t))).
  { pose proof (add_columns_unique added_columns t0
                  (init_keys_unique _ _ _ H0)) as U.
    rewrite H1 in U. exact U. }
  change (map fst (OrderedDict.of_pairs ?p)) with
    (OrderedDict.keys (OrderedDict.of_pairs p)).
  rewrite (keys_of_pairs_identity VStr _ U).
  destruct (map_result _ _) as [columns|e].
  - unfold write_rows.
    destruct (for_each_rows (Py.zip_star columns)
                [map VStr (OrderedDict.keys (BinTableData.cols t))])
      as (w & E & _).
    destruct (for_each _ _ _) as [out outcome]. cbn in E. subst out.
    exists w, outcome. reflexivity.
  - exists [], (Raise e). reflexivity.
Qed.

Lemma csv_header_is_table_keys_witness :
  exists (rows : list row) (outcome : result unit),
    create_csv_file_from_fits
      [mkColumn "ra" "1D" [VInt 1]; mkColumn "flags" "3X" [VBits [true; true; false]]]
      None None (Some [("project"%string, VInt 7)])
    = (map VStr ["ra"; "FLAGS1"; "project"]%string :: rows, outcome).
Proof.
  apply (csv_header_is_table_keys
           [mkColumn "ra" "1D" [VInt 1];
            mkColumn "flags" "3X" [VBits [true; true; false]]]
           None (Some [("project"%string, VInt 7)])
           (BinTableData.mk
              [("ra"%string, [VInt 1]); ("FLAGS1"%string, [VInt 3])] 1)
           (BinTableData.mk
              [("ra"%string, [VInt 1]); ("FLAGS1"%string, [VInt 3]);
               ("project"%string, [VInt 7])] 1)).
  - vm_compute. reflexivity.
  - vm_compute. reflexivity.
Defined.

(** C5.  The per-value rule of a data row: a string passes through
    unchanged, a finite number passes through, and a NaN or an
    infinity of either sign becomes the two-character string [\N].
    The rule takes every string and every number numpy holds; the one
    cell it refuses among strings and numbers is an integer beyond 64
    bits, on which [np.isfinite] raises [TypeError] so that the row
    holding it is never written.  Every data row the emitter writes is
    a row of the transposed columns with each cell taken through the
    rule, in order and from the first row on, so in a written data row
    a string or a finite number is the source cell itself, a
    non-finite number is [\N], and no cell is a non-finite number. *)
Theorem csv_rows_null_substitution :
  (forall s, null_if_not_finite (VStr s) = Ok (VStr s))
  /\ (forall x, numeric x = true -> non_finite x = false ->
        held_by_numpy x = true -> null_if_not_finite x = Ok x)
  /\ (forall x, numeric x = true -> non_finite x = true ->
        null_if_not_finite x = Ok (VStr "\N"))
  /\ (forall x, held_by_numpy x = false ->
        null_if_not_finite x = Raise TypeError)
  /\ non_finite (VFloat S754_nan) = true
  /\ non_finite (VFloat (S754_infinity false)) = true
  /\ non_finite (VFloat (S754_infinity true)) = true
  /\ String.length "\N" = 2%nat
  /\ (forall bintable column_mapping callbacks added_columns
        header rows outcome,
        create_csv_file_from_fits bintable column_mapping callbacks
          added_columns = (header :: rows, outcome) ->
        exists t0 t,
          BinTableData.__init__ bintable 64 = Ok t0
          /\ add_columns added_columns t0 = (t, Ok tt)
          /\ match map_result (column_for t (callbacks_used callbacks))
                     (map snd (mapping_used column_mapping t)) with
             | Ok columns =>
                 Forall2
                   (Forall2
                      (fun x y =>
                         null_if_not_finite x = Ok y
                         /\ ((exists s, x = VStr s) -> y = x)
                         /\ (numeric x = true -> non_finite x = false ->
                             y = x)
                         /\ (numeric x = true -> non_finite x = true ->
                             y = VStr "\N")))
                   (firstn (length rows) (Py.zip_star columns)) rows
                 /\ (outcome = Ok tt ->
                     length rows = length (Py.zip_star columns))
             | Raise e => rows = [] /\ outcome = Raise e
             end
          /\ Forall (Forall (fun y => non_finite y = false)) rows).
Proof.
  split; [reflexivity|].
  split.
  { intros x Hn Hf Hh.
    rewrite null_if_not_finite_total by (try right; assumption).
    unfold serialized. rewrite Hf. reflexivity. }
  split.
  { intros x Hn Hf. rewrite null_if_not_finite_total.
    - unfold serialized. rewrite Hf. reflexivity.
    - right. assumption.
    - destruct x; try reflexivity; discriminate. }
  split.
  { intros [s|n|f|b|l]; cbn; try discriminate.
    apply null_if_not_finite_beyond. }
  do 4 (split; [reflexivity|]).
  intros bintable cm cbs added header rows outcome H.
  destruct (create_csv_cases bintable cm cbs added)
    as [[e E]|(t0 & t & H0 & H1)]; [rewrite E in H; discriminate|].
  rewrite (create_csv_eq _ _ _ _ t0 t H0 H1) in H. cbn zeta in H.
  exists t0, t. split; [assumption|]. split; [assumption|].
  destruct (map_result (column_for t (callbacks_used cbs)) _)
    as [columns|e].
  - unfold write_rows in H.
    destruct (for_each_rows (Py.zip_star columns)
                [map VStr (map fst (mapping_used cm t))])
      as (w & E & F & L).
    unfold row in *. rewrite H in E, L. cbn in E, L.
    injection E as -> ->.
    split; [split; [|exact L]|].
    + eapply Forall2_impl; [|exact F]. cbn beta.
      intros r r' Hr. eapply Forall2_impl; [|exact Hr]. cbn beta.
      intros x y Hx. split; [exact Hx|].
      destruct (null_if_not_finite_rule x y Hx)
        as [[-> ->]|[(b & -> & ->)|[_ ->]]].
      * repeat split; try discriminate. intros [s Hs]. discriminate Hs.
      * repeat split; try reflexivity. discriminate.
      * unfold serialized. repeat split.
        -- intros [s ->]. reflexivity.
        -- intros _ ->. reflexivity.
        -- intros _ ->. reflexivity.
    + eapply Forall2_Forall_r; [|exact F]. cbn beta.
      intros r r' Hr. eapply Forall2_Forall_r; [|exact Hr].
      intros x y Hx. apply (null_if_not_finite_output x y Hx).
  - injection H as _ <- <-. split; [split; reflexivity|constructor].
Qed.

Lemma csv_rows_null_substitution_witness :
  null_if_not_finite (VFloat (S754_finite false 3 (-1)))
  = Ok (VFloat (S754_finite false 3 (-1)))
  /\ null_if_not_finite (VInt (2 ^ 64 - 1)) = Ok (VInt (2 ^ 64 - 1))
  /\ null_if_not_finite (VFloat (S754_infinity true)) = Ok (VStr "\N")
  /\ null_if_not_finite (VInt (2 ^ 64)) = Raise TypeError
  /\ exists t0 t,
       BinTableData.__init__
         [mkColumn "ra" "1D" [VFloat S754_nan; VFloat (S754_finite false 3 (-1))]]
         64 = Ok t0
       /\ add_columns None t0 = (t, Ok tt)
       /\ match map_result (column_for t (callbacks_used None))
                  (map snd (mapping_used None t)) with
          | Ok columns =>
              length (Py.zip_star columns) = 2%nat
              /\ Forall2
                   (Forall2 (fun x y => null_if_not_finite x = Ok y))
                   (Py.zip_star columns)
                   [[VStr "\N"]; [VFloat (S754_finite false 3 (-1))]]
          | Raise _ => False
          end.
Proof.
  destruct csv_rows_null_substitution
    as (_ & Hfin & Hnull & Hbeyond & _ & _ & _ & _ & Hrows).
  split; [apply Hfin; reflexivity|].
  split; [apply Hfin; reflexivity|].
  split; [apply Hnull; reflexivity|].
  split; [apply Hbeyond; reflexivity|].
  destruct (Hrows
              [mkColumn "ra" "1D"
                 [VFloat S754_nan; VFloat (S754_finite false 3 (-1))]]
              None None None
              [VStr "ra"]
              [[VStr "\N"]; [VFloat (S754_finite false 3 (-1))]]
              (Ok tt) eq_refl)
    as (t0 & t & H0 & H1 & Hc & _).
  exists t0, t. split; [assumption|]. split; [assumption|].
  destruct (map_result (column_for t (callbacks_used None))
              (map snd (mapping_used None t))) as [columns|e].
  - destruct Hc as [F L]. specialize (L eq_refl). split; [symmetry; exact L|].
    rewrite L, firstn_all in F.
    eapply Forall2_impl; [|exact F]. cbn beta.
    intros r r' Hr. eapply Forall2_impl; [|exact Hr]. cbn beta.
    intros x y [Hx _]. exact Hx.
  - destruct Hc as [Hc _]. discriminate Hc.
Defined.

(** C6.  Adding a constant column under a name the table already has
    raises the [RuntimeError] that reports the duplicate and leaves
    the table as it was; under a new name it appends, after the last
    column, a series of [nrows] copies of the value. *)
Theorem add_column_duplicate_or_append (bintable_data : BinTableData.t)
  (col_name : string) (v : value) :
  (In col_name (OrderedDict.keys (BinTableData.cols bintable_data)) ->
   add_column col_name v bintable_data
   = (bintable_data, Raise (RuntimeError (duplicate_message col_name))))
  /\ (~ In col_name (OrderedDict.keys (BinTableData.cols bintable_data)) ->
      add_column col_name v bintable_data
      = (BinTableData.mk
           (BinTableData.cols bintable_data
            ++ [(col_name, repeat v (BinTableData.nrows bintable_data))])
           (BinTableData.nrows bintable_data),
         Ok tt)).
Proof.
  unfold add_column. split; intros H.
  - apply has_key_In in H. rewrite H. reflexivity.
  - rewrite set_fresh by assumption.
    apply has_key_false in H. rewrite H. reflexivity.
Qed.

Lemma add_column_duplicate_or_append_witness :
  add_column "RA" (VInt 7) (BinTableData.mk [("RA"%string, [VInt 1; VInt 2])] 2)
  = (BinTableData.mk [("RA"%string, [VInt 1; VInt 2])] 2,
     Raise (RuntimeError (duplicate_message "RA")))
  /\ add_column "project" (VInt 7)
       (BinTableData.mk [("RA"%string, [VInt 1; VInt 2])] 2)
     = (BinTableData.mk
          [("RA"%string, [VInt 1; VInt 2]);
           ("project"%string, [VInt 7; VInt 7])] 2,
        Ok tt).
Proof.
  split.
  - apply (add_column_duplicate_or_append
             (BinTableData.mk [("RA"%string, [VInt 1; VInt 2])] 2) "RA" (VInt 7)).
    simpl. left. reflexivity.
  - apply (add_column_duplicate_or_append
             (BinTableData.mk [("RA"%string, [VInt 1; VInt 2])] 2)
             "project" (VInt 7)).
    simpl. intros [H|[]]. discriminate H.
Defined.

Lemma getitem_has_key {V : Type} (d : list (string * V)) (k : string) (v : V) :
  Py.getitem d k = Ok v -> OrderedDict.has_key d k = true.
Proof.
  induction d as [|[k' v'] r IH]; cbn; [discriminate|].
  unfold OrderedDict.has_key in *. cbn.
  rewrite (String.eqb_sym k k').
  destruct (String.eqb k' k); cbn; [reflexivity|assumption].
Qed.

Lemma map_result_nth_error {A B : Type} (f : A -> result B) (l : list A)
  (ys : list B) (j : nat) (x : A) :
  map_result f l = Ok ys -> nth_error l j = Some x ->
  exists y, nth_error ys j = Some y /\ f x = Ok y.
Proof.
  intros H. apply map_result_Forall2 in H. revert j.
  induction H as [|a b l' ys' Hab _ IH]; intros j Hj.
  - destruct j; discriminate Hj.
  - destruct j as [|j]; cbn in *.
    + injection Hj as ->. exists b. split; [reflexivity|assumption].
    + apply IH. assumption.
Qed.

Lemma Forall2_nth_error_r {A B : Type} (R : A -> B -> Prop) (l : list A)
  (l' : list B) (i : nat) (y : B) :
  Forall2 R l l' -> nth_error l' i = Some y ->
  exists x, nth_error l i = Some x /\ R x y.
Proof.
  intros H. revert i. induction H as [|a b t t' Hab _ IH]; intros i Hi.
  - destruct i; discriminate Hi.
  - destruct i as [|i]; cbn in *.
    + injection Hi as ->. exists a. split; [reflexivity|assumption].
    + apply IH. assumption.
Qed.

Lemma Forall2_nth_error_l {A B : Type} (R : A -> B -> Prop) (l : list A)
  (l' : list B) (i : nat) (x : A) :
  Forall2 R l l' -> nth_error l i = Some x ->
  exists y, nth_error l' i = Some y /\ R x y.
Proof.
  intros H. revert i. induction H as [|a b t t' Hab _ IH]; intros i Hi.
  - destruct i; discriminate Hi.
  - destruct i as [|i]; cbn in *.
    + injection Hi as ->. exists b. split; [reflexivity|assumption].
    + apply IH. assumption.
Qed.

Lemma nth_error_firstn_Some {A : Type} (l : list A) (n i : nat) (x : A) :
  nth_error (firstn n l) i = Some x -> nth_error l i = Some x.
Proof.
  revert n i; induction l as [|a t IH]; intros n i H.
  - rewrite firstn_nil in H. destruct i; discriminate H.
  - destruct n as [|n]; [destruct i; discriminate H|].
    destruct i as [|i]; cbn in *; [assumption|]. apply (IH n). assumption.
Qed.

(** The heads and tails [uncons_all] takes are those of each list, at
    the list's position. *)
Lemma uncons_all_cell {A : Type} (ls : list (list A)) (hs : list A)
  (ts : list (list A)) (j : nat) (l : list A) :
  Py.uncons_all ls = Some (hs, ts) -> nth_error ls j = Some l ->
  exists x t, l = x :: t /\ nth_error hs j = Some x /\ nth_error ts j = Some t.
Proof.
  revert hs ts j; induction ls as [|l0 rest IH]; intros hs ts j H Hj.
  - destruct j; discriminate Hj.
  - cbn in H. destruct l0 as [|x0 t0]; [discriminate|].
    destruct (Py.uncons_all rest) as [[hs' ts']|] eqn:E; [|discriminate].
    injection H as <- <-. destruct j as [|j]; cbn in *.
    + injection Hj as <-. exists x0, t0. repeat split.
    + apply (IH hs' ts' j eq_refl Hj).
Qed.

Lemma zip_star_fuel_cell {A : Type} (m : nat) (ls : list (list A))
  (i j : nat) (r l : list A) :
  nth_error (Py.zip_star_fuel m ls) i = Some r -> nth_error ls j = Some l ->
  exists x, nth_error l i = Some x /\ nth_error r j = Some x.
Proof.
  revert ls i l; induction m as [|m IH]; intros ls i l Hi Hj; cbn in Hi.
  - destruct i; discriminate Hi.
  - destruct (Py.uncons_all ls) as [[hs ts]|] eqn:E;
      [|destruct i; discriminate Hi].
    destruct (uncons_all_cell ls hs ts j l E Hj) as (x & t & -> & Hx & Ht).
    destruct i as [|i]; cbn in Hi.
    + injection Hi as <-. exists x. split; [reflexivity|assumption].
    + destruct (IH ts i t Hi Ht) as (y & Hy & Hr).
      exists y. split; assumption.
Qed.

(** The row [i] of [zip( *ls )] holds, at the position of each list,
    the element [i] of that list. *)
Lemma zip_star_cell {A : Type} (ls : list (list A)) (i j : nat)
  (r l : list A) :
  nth_error (Py.zip_star ls) i = Some r -> nth_error ls j = Some l ->
  exists x, nth_error l i = Some x /\ nth_error r j = Some x.
Proof.
  destruct ls as [|l0 rest]; [destruct i; discriminate|].
  apply zip_star_fuel_cell.
Qed.

(** C9.  When the callback registered for a column of the table raises
    [KeyError] on the column's series, the handler meant for a missing
    callback catches it and the series is taken untransformed.  The
    whole call writes and ends exactly as if the callback were the
    identity, and when the columns of the mapping resolve, the series
    as the table holds it is the column at every position mapped to
    that name: the call writes the header and then, from the first
    record on, the rows of the transposed columns through the rule of
    [\N], so each written row [i] holds at such a position the element
    [i] of the untransformed series; it writes all the rows when it
    returns, and when it raises it does so on the row after the last
    one written, on a cell the rule refuses. *)
Theorem callback_KeyError_is_swallowed (bintable : list Column)
  (column_mapping : option (list (string * value)))
  (callbacks : list (string * callback))
  (added_columns : option (list (string * value)))
  (t0 t : BinTableData.t) (colname key : string) (f : callback)
  (coldata : list value) :
  BinTableData.__init__ bintable 64 = Ok t0 ->
  add_columns added_columns t0 = (t, Ok tt) ->
  Py.getitem (BinTableData.cols t) colname = Ok coldata ->
  Py.getitem callbacks colname = Ok f ->
  f coldata = Raise (KeyError key) ->
  column_for t callbacks (VStr colname) = Ok coldata
  /\ create_csv_file_from_fits bintable column_mapping (Some callbacks)
       added_columns
     = create_csv_file_from_fits bintable column_mapping
         (Some ((colname, fun series => Ok series) :: callbacks))
         added_columns
  /\ (forall columns,
        map_result (column_for t callbacks)
          (map snd (mapping_used column_mapping t)) = Ok columns ->
        (forall j,
           nth_error (map snd (mapping_used column_mapping t)) j
           = Some (VStr colname) ->
           nth_error columns j = Some coldata)
        /\ exists rows outcome,
             create_csv_file_from_fits bintable column_mapping
               (Some callbacks) added_columns
             = (map VStr (map fst (mapping_used column_mapping t)) :: rows,
                outcome)
             /\ Forall2 (Forall2 (fun x y => null_if_not_finite x = Ok y))
                  (firstn (length rows) (Py.zip_star columns)) rows
             /\ (forall i j r,
                   nth_error rows i = Some r ->
                   nth_error (map snd (mapping_used column_mapping t)) j
                   = Some (VStr colname) ->
                   exists x y,
                     nth_error coldata i = Some x
                     /\ nth_error r j = Some y
                     /\ null_if_not_finite x = Ok y)
             /\ (outcome = Ok tt ->
                 length rows = length (Py.zip_star columns))
             /\ (forall e, outcome = Raise e ->
                 exists r,
                   nth_error (Py.zip_star columns) (length rows) = Some r
                   /\ map_result null_if_not_finite r = Raise e)).
Proof.
  intros H0 H1 Hd Hc Hf.
  assert (Hk := getitem_has_key _ _ _ Hd).
  assert (E1 : column_for t callbacks (VStr colname) = Ok coldata).
  { unfold column_for. rewrite Hk, Hd. cbn. rewrite Hc. cbn.
    rewrite Hf. reflexivity. }
  split; [exact E1|]. split.
  { rewrite !(create_csv_eq _ _ _ _ t0 t H0 H1). cbn zeta.
    unfold callbacks_used.
    rewrite (map_result_ext
               (column_for t callbacks)
               (column_for t ((colname, fun series => Ok series) :: callbacks))).
    - reflexivity.
    - intros [s|n|x|b|l]; try reflexivity.
      destruct (String.eqb_spec colname s) as [<-|N].
      + rewrite E1. unfold column_for. rewrite Hk, Hd. cbn.
        rewrite String.eqb_refl. reflexivity.
      + unfold column_for. cbn [Py.getitem].
        apply String.eqb_neq in N. rewrite N. reflexivity. }
  intros columns Hcols.
  assert (Hpos : forall j,
             nth_error (map snd (mapping_used column_mapping t)) j
             = Some (VStr colname) ->
             nth_error columns j = Some coldata).
  { intros j Hj.
    destruct (map_result_nth_error _ _ _ j _ Hcols Hj) as (y & Hy & Ey).
    rewrite E1 in Ey. injection Ey as <-. exact Hy. }
  split; [exact Hpos|].
  rewrite (create_csv_eq _ _ _ _ t0 t H0 H1). cbn zeta.
  unfold callbacks_used. rewrite Hcols. unfold write_rows.
  destruct (for_each_rows (Py.zip_star columns)
              [map VStr (map fst (mapping_used column_mapping t))])
    as (w & E & F & L).
  pose proof (for_each_rows_stop (Py.zip_star columns)
                [map VStr (map fst (mapping_used column_mapping t))]) as Hstop.
  unfold row in *.
  destruct (@for_each (list (list value)) (list value)
              (Py.zip_star columns) write_row
              [map VStr (map fst (mapping_used column_mapping t))])
    as [written outcome].
  cbn [fst snd] in E, L, Hstop. subst written. cbn [app] in *.
  exists w, outcome. split; [reflexivity|]. split; [exact F|].
  split; [|split; [exact L|]].
  - intros i j r Hi Hj.
    destruct (Forall2_nth_error_r _ _ _ i r F Hi) as (r0 & Hr0 & Hr).
    apply nth_error_firstn_Some in Hr0.
    destruct (zip_star_cell columns i j r0 coldata Hr0 (Hpos j Hj))
      as (x & Hx & Hxr).
    destruct (Forall2_nth_error_l _ _ _ j x Hr Hxr) as (y & Hy & Exy).
    exists x, y. repeat split; assumption.
  - intros e He. destruct (Hstop e He) as (r & Hr & Er).
    exists r. split; [|exact Er].
    rewrite <- Hr. f_equal. rewrite length_app. cbn [length]. lia.
Qed.

Lemma callback_KeyError_is_swallowed_witness :
  column_for (BinTableData.mk [("ra"%string, [VInt 1; VInt 2])] 2)
    [("ra"%string, fun _ => Raise (KeyError "zeropoint"))] (VStr "ra")
  = Ok [VInt 1; VInt 2]
  /\ create_csv_file_from_fits [mkColumn "ra" "1J" [VInt 1; VInt 2]] None
       (Some [("ra"%string, fun _ => Raise (KeyError "zeropoint"))]) None
     = ([[VStr "ra"]; [VInt 1]; [VInt 2]], Ok tt)
  /\ exists rows,
       create_csv_file_from_fits [mkColumn "ra" "1J" [VInt 1; VInt 2]] None
         (Some [("ra"%string, fun _ => Raise (KeyError "zeropoint"))]) None
       = ([VStr "ra"] :: rows, Ok tt)
       /\ length rows = 2%nat
       /\ forall i r, nth_error rows i = Some r ->
            exists x y, nth_error [VInt 1; VInt 2] i = Some x
                        /\ nth_error r 0 = Some y
                        /\ null_if_not_finite x = Ok y.
Proof.
  destruct (callback_KeyError_is_swallowed
              [mkColumn "ra" "1J" [VInt 1; VInt 2]] None
              [("ra"%string, fun _ => Raise (KeyError "zeropoint"))] None
              (BinTableData.mk [("ra"%string, [VInt 1; VInt 2])] 2)
              (BinTableData.mk [("ra"%string, [VInt 1; VInt 2])] 2)
              "ra" "zeropoint" (fun _ => Raise (KeyError "zeropoint"))
              [VInt 1; VInt 2] eq_refl eq_refl eq_refl eq_refl eq_refl)
    as (Hcol & Heq & Hrows).
  split; [exact Hcol|].
  split; [etransitivity; [exact Heq|reflexivity]|].
  destruct (Hrows [[VInt 1; VInt 2]] eq_refl)
    as (_ & rows & outcome & E & _ & Hcell & Hall & _).
  assert (Ho : outcome = Ok tt).
  { pose proof (eq_trans (eq_sym E) Heq) as E'. vm_compute in E'.
    injection E' as _ ->. reflexivity. }
  subst outcome. exists rows. split; [exact E|].
  split; [exact (Hall eq_refl)|].
  intros i r Hi. apply (Hcell i 0%nat r Hi). reflexivity.
Defined.

(** ** The schema emitter *)

Lemma getitem_missing {V : Type} (d : list (string * V)) (k : string) :
  ~ In k (map fst d) -> Py.getitem d k = Raise (KeyError k).
Proof.
  induction d as [|[k' v] r IH]; cbn; intros H; [reflexivity|].
  destruct (String.eqb_spec k' k) as [->|N]; [exfalso; auto|].
  apply IH. tauto.
Qed.

Lemma getitem_In {V : Type} (d : list (string * V)) (k : string) (v : V) :
  Py.getitem d k = Ok v -> In (k, v) d.
Proof.
  induction d as [|[k' v'] r IH]; cbn; [discriminate|].
  destruct (String.eqb_spec k' k) as [->|N].
  - intros H. injection H as <-. left. reflexivity.
  - intros H. right. apply IH. assumption.
Qed.

(** C7.  For a column whose format (quotes stripped) does not end in
    [X]: when the count before the type letter reads as 1 and the
    format is no key of [type_map] (the five formats 1D, 1E, 1K, 1J
    and 1I), [write_schema_column] writes nothing and raises the
    [KeyError] that carries the format; when the count reads as
    anything but 1, it writes nothing and returns; when the count does
    not read as an integer, it writes nothing and raises; and whatever
    the format, it either writes nothing or writes the one line whose
    type is the format's entry in [type_map], never a default type. *)
Theorem schema_unknown_format_or_vector (column : Column)
  (padding output : string) (c : ascii) :
  let format_ := Py.strip_chars is_quote (format column) in
  Py.last_char format_ = Ok c ->
  c <> "X"%char ->
  map fst type_map = ["1D"; "1E"; "1K"; "1J"; "1I"]%string
  /\ (Py.int (Py.but_last format_) = Ok 1 ->
      ~ In format_ (map fst type_map) ->
      write_schema_column column padding output
      = (output, Raise (KeyError format_)))
  /\ (forall n : Z,
        Py.int (Py.but_last format_) = Ok n ->
        n <> 1 ->
        write_schema_column column padding output = (output, Ok tt))
  /\ (forall e : exn,
        Py.int (Py.but_last format_) = Raise e ->
        write_schema_column column padding output = (output, Raise e))
  /\ (fst (write_schema_column column padding output) = output
      \/ exists sql_type : string,
           In (format_, sql_type) type_map
           /\ write_schema_column column padding output
              = ((output ++ padding ++ name column ++ " " ++ sql_type
                  ++ "," ++ Py.nl)%string, Ok tt)).
Proof.
  intros format_ Hc HX. split; [reflexivity|].
  unfold write_schema_column. fold format_.
  unfold bind, lift. rewrite Hc.
  apply Ascii.eqb_neq in HX. rewrite HX.
  split; [|split; [|split]].
  - intros H1 Hmiss. rewrite H1. cbn [Z.eqb Pos.eqb negb].
    rewrite (getitem_missing _ _ Hmiss). reflexivity.
  - intros n Hn Hne. rewrite Hn.
    apply Z.eqb_neq in Hne. rewrite Hne. reflexivity.
  - intros e He. rewrite He. reflexivity.
  - destruct (Py.int (Py.but_last format_)) as [n|e]; [|left; reflexivity].
    destruct (n =? 1); cbn [negb]; [|left; reflexivity].
    destruct (Py.getitem type_map format_) as [ty|e] eqn:G;
      [|left; reflexivity].
    right. exists ty. split; [apply getitem_In; assumption|reflexivity].
Qed.

Lemma schema_unknown_format_or_vector_witness :
  write_schema_column (mkColumn "id" "1A" []) "  " "create"%string =
    ("create"%string, Raise (KeyError "1A"))
  /\ write_schema_column (mkColumn "pos" "3E" []) "  " "create"%string =
     ("create"%string, Ok tt).
Proof.
  split.
  - destruct (schema_unknown_format_or_vector (mkColumn "id" "1A" [])
                "  "%string "create"%string "A"%char)
      as (_ & H & _); [reflexivity|discriminate|].
    apply H; [reflexivity|].
    vm_compute. intuition discriminate.
  - destruct (schema_unknown_format_or_vector (mkColumn "pos" "3E" [])
                "  "%string "create"%string "E"%char)
      as (_ & _ & H & _); [reflexivity|discriminate|].
    apply (H 3); [reflexivity|lia].
Defined.

(** C3 (as amended).  For the table with columns RA (format 1D) and
    FLAGS (format 9X) and the two records of the scenario, the
    materialized table holds exactly RA, with its two values
    unchanged, and FLAGS1, with 2^0+2^2+2^3+2^5+2^6+2^7 for the first
    record and 0 for the second; the schema for table name T and an
    empty primary key is the text whose lines after the first are
    indented by seven blanks, the closing parenthesis included, and
    which ends with a newline. *)
Theorem scenario_table_and_schema (ra1 ra2 : spec_float) :
  BinTableData.__init__ (scenario_table (VFloat ra1) (VFloat ra2)) 64
  = Ok (BinTableData.mk
          [("RA"%string, [VFloat ra1; VFloat ra2]);
           ("FLAGS1"%string,
            [VInt (2^0 + 2^2 + 2^3 + 2^5 + 2^6 + 2^7); VInt 0])]
          2)
  /\ create_schema_from_fits (scenario_table (VFloat ra1) (VFloat ra2))
       "T" EmptyString []
     = (scenario_text_7, Ok tt).
Proof.
  split; vm_compute; reflexivity.
Qed.

(** C3, the text as first stated: the schema of the scenario is not
    the text with three blanks of indentation. *)
Lemma scenario_text_3_counterexample :
  fst (create_schema_from_fits
         (scenario_table (VFloat (S754_zero false)) (VFloat (S754_zero false)))
         "T" EmptyString [])
  <> scenario_text_3.
Proof.
  apply String.eqb_neq. vm_compute. reflexivity.
Qed.

(** ** The header check *)

Lemma check_pairs_ok (l : list string) :
  DbConnection.check_pairs (combine l l) = Ok tt.
Proof.
  induction l as [|x t IH]; cbn; [reflexivity|].
  rewrite String.eqb_refl. cbn. assumption.
Qed.

Lemma check_pairs_spec (l1 l2 : list string) :
  length l1 = length l2 ->
  (l1 = l2 /\ DbConnection.check_pairs (combine l1 l2) = Ok tt)
  \/ (exists (i : nat) (a b : string),
        nth_error l1 i = Some a /\ nth_error l2 i = Some b /\ a <> b
        /\ DbConnection.check_pairs (combine l1 l2)
           = Raise (RuntimeError (DbConnection.name_message a b))).
Proof.
  revert l2; induction l1 as [|x t IH]; intros [|y u] H;
    try discriminate H.
  - left. split; reflexivity.
  - cbn [combine DbConnection.check_pairs].
    destruct (String.eqb_spec x y) as [<-|N]; cbn [negb].
    + destruct (IH u ltac:(cbn in H; lia)) as [[-> E]|(i & a & b & Ha & Hb & N & E)].
      * left. split; [reflexivity|assumption].
      * right. exists (S i), a, b. repeat split; assumption.
    + right. exists 0%nat, x, y. repeat split. assumption.
Qed.

(** C8.  [check_column_names] raises a [RuntimeError] exactly when the
    header of the CSV file, read as the check reads it, differs from
    the table's column names in length or at some position; when the
    two agree it returns; it ends in no other way. *)
Theorem check_column_names_iff_mismatch (column_names : list string)
  (contents : string) :
  let csv_cols := DbConnection.csv_cols contents in
  ((exists msg,
      DbConnection.check_column_names column_names contents
      = Raise (RuntimeError msg))
   <-> (length csv_cols <> length column_names
        \/ exists (i : nat) (a b : string),
             nth_error csv_cols i = Some a
             /\ nth_error column_names i = Some b /\ a <> b))
  /\ (csv_cols = column_names <->
      DbConnection.check_column_names column_names contents = Ok tt).
Proof.
  intros cols. unfold DbConnection.check_column_names. fold cols.
  destruct (Nat.eqb_spec (length cols) (length column_names)) as [L|L];
    cbn [negb].
  - destruct (check_pairs_spec cols column_names L)
      as [[E1 E2]|(i & a & b & Ha & Hb & N & E)].
    + rewrite E2. split; split.
      * intros [msg H]. discriminate H.
      * intros [H|(i & a & b & Ha & Hb & N)]; [contradiction|].
        exfalso. rewrite E1 in Ha. congruence.
      * reflexivity.
      * intros _. exact E1.
    + rewrite E. split; split.
      * intros _. right. exists i, a, b. repeat split; assumption.
      * intros _. eexists. reflexivity.
      * intros H. exfalso. rewrite H in Ha. congruence.
      * discriminate.
  - split; split.
    + intros _. left. assumption.
    + intros _. eexists. reflexivity.
    + intros H. exfalso. apply L. rewrite H. reflexivity.
    + discriminate.
Qed.

Lemma check_column_names_iff_mismatch_witness :
  (exists msg,
     DbConnection.check_column_names ["a"; "b"]%string
       ("a,c" ++ Py.nl ++ "1,2" ++ Py.nl)%string
     = Raise (RuntimeError msg))
  /\ DbConnection.check_column_names ["a"; "b"]%string
       ("a,b" ++ Py.nl ++ "1,2" ++ Py.nl)%string
     = Ok tt.
Proof.
  split.
  - apply (check_column_names_iff_mismatch ["a"; "b"]%string
             ("a,c" ++ Py.nl ++ "1,2" ++ Py.nl)%string).
    right. exists 1%nat, "c"%string, "b"%string.
    repeat split; [discriminate].
  - apply (check_column_names_iff_mismatch ["a"; "b"]%string
             ("a,b" ++ Py.nl ++ "1,2" ++ Py.nl)%string).
    reflexivity.
Defined.

(** ** Strings and decimal numerals *)

Lemma append_assoc (a b c : string) :
  ((a ++ b) ++ c = a ++ (b ++ c))%string.
Proof. induction a as [|x a IH]; cbn; [reflexivity|]. rewrite IH. reflexivity. Qed.

Lemma append_empty_r (a : string) : (a ++ EmptyString = a)%string.
Proof. induction a as [|x a IH]; cbn; [reflexivity|]. rewrite IH. reflexivity. Qed.

Lemma append_inv_head (a b c : string) :
  (a ++ b = a ++ c)%string -> b = c.
Proof.
  induction a as [|x a IH]; cbn; intros H; [assumption|].
  injection H as H. apply IH. assumption.
Qed.

Lemma chars_app (a b : string) : chars (a ++ b) = chars a ++ chars b.
Proof. induction a as [|x a IH]; cbn; [reflexivity|]. rewrite IH. reflexivity. Qed.

Lemma lstrip_id (p : ascii -> bool) (s : string) :
  Forall (fun c => p c = false) (chars s) -> Py.lstrip p s = s.
Proof.
  destruct s as [|c t]; cbn; intros H; [reflexivity|].
  inversion H as [|? ? Hc _]; subst. rewrite Hc. reflexivity.
Qed.

Lemma rstrip_id (p : ascii -> bool) (s : string) :
  Forall (fun c => p c = false) (chars s) -> Py.rstrip p s = s.
Proof.
  induction s as [|c t IH]; cbn; intros H; [reflexivity|].
  inversion H as [|? ? Hc Ht]; subst. rewrite (IH Ht), Hc.
  destruct t; reflexivity.
Qed.

Lemma strip_chars_id (p : ascii -> bool) (s : string) :
  Forall (fun c => p c = false) (chars s) -> Py.strip_chars p s = s.
Proof.
  intros H. unfold Py.strip_chars. rewrite lstrip_id, rstrip_id by assumption.
  reflexivity.
Qed.

Lemma last_char_snoc (s : string) (c : ascii) :
  Py.last_char (s ++ String c EmptyString) = Ok c.
Proof.
  induction s as [|x t IH]; cbn; [reflexivity|].
  rewrite IH. destruct (t ++ String c EmptyString)%string eqn:E; [|reflexivity].
  destruct t; discriminate E.
Qed.

Lemma but_last_snoc (s : string) (c : ascii) :
  Py.but_last (s ++ String c EmptyString) = s.
Proof.
  induction s as [|x t IH]; cbn; [reflexivity|].
  rewrite IH. destruct (t ++ String c EmptyString)%string eqn:E; [|reflexivity].
  destruct t; discriminate E.
Qed.

Lemma string_of_uint_digits (d : uint) :
  Forall (fun c => is_digit c = true) (chars (NilEmpty.string_of_uint d)).
Proof.
  induction d; cbn; constructor; (reflexivity || assumption).
Qed.

Lemma str_of_nat_digits (n : nat) :
  Forall (fun c => is_digit c = true) (chars (Py.str_of_nat n)).
Proof. apply string_of_uint_digits. Qed.

Lemma str_of_nat_not_empty (n : nat) : Py.str_of_nat n <> EmptyString.
Proof.
  unfold Py.str_of_nat. destruct (N.of_nat n) as [|p]; [discriminate|].
  cbn. pose proof (DecimalPos.Unsigned.to_uint_nonnil p) as H.
  destruct (Pos.to_uint p); [contradiction| | | | | | | | | | ]; discriminate.
Qed.

Lemma str_of_nat_inj (n m : nat) : Py.str_of_nat n = Py.str_of_nat m -> n = m.
Proof.
  unfold Py.str_of_nat. intros H.
  apply (f_equal NilEmpty.uint_of_string) in H. rewrite !NilEmpty.usu in H.
  injection H as H. apply DecimalN.Unsigned.to_uint_inj in H.
  apply Nat2N.inj. assumption.
Qed.

Lemma digit_facts (c : ascii) :
  is_digit c = true ->
  is_quote c = false /\ Py.is_space c = false
  /\ c <> "-"%char /\ c <> "+"%char.
Proof.
  destruct c as [[] [] [] [] [] [] [] []]; cbn; intros H;
    try discriminate H; repeat split; discriminate.
Qed.

Lemma Forall_digit_weaken (p : ascii -> bool) (l : list ascii) :
  (forall c, is_digit c = true -> p c = false) ->
  Forall (fun c => is_digit c = true) l -> Forall (fun c => p c = false) l.
Proof. intros H F. eapply Forall_impl; [|exact F]. exact H. Qed.

(** Reading back the decimal numeral of a natural number. *)
Lemma float_str_of_nat (n : nat) :
  Py.float (Py.str_of_nat n) = Ok (Z.of_nat n).
Proof.
  unfold Py.float, Py.int, Py.strip.
  rewrite strip_chars_id.
  2:{ apply Forall_digit_weaken; [|apply str_of_nat_digits].
      intros c Hc. apply (digit_facts c Hc). }
  pose proof (str_of_nat_not_empty n) as Hne.
  pose proof (str_of_nat_digits n) as Hd.
  assert (E : Py.digits (Py.str_of_nat n) = Ok (Z.of_nat n)).
  { unfold Py.digits. destruct (Py.str_of_nat n) eqn:Es; [contradiction|].
    rewrite <- Es. unfold Py.str_of_nat. rewrite NilEmpty.usu.
    rewrite DecimalN.Unsigned.of_to, nat_N_Z. reflexivity. }
  destruct (Py.str_of_nat n) as [|c r]; [contradiction|].
  inversion Hd as [|? ? Hc _]; subst.
  destruct (digit_facts c Hc) as (_ & _ & Hm & Hp).
  destruct c as [[] [] [] [] [] [] [] []]; try exact E;
    exfalso; (apply Hm; reflexivity) || (apply Hp; reflexivity).
Qed.

Lemma for_each_write {A : Type} (l : list A) (g : A -> string)
  (output : string) :
  for_each l (fun x => write (g x)) output
  = ((output ++ String.concat EmptyString (map g l))%string, Ok tt).
Proof.
  revert output; induction l as [|x t IH]; intros output.
  - cbn. rewrite append_empty_r. reflexivity.
  - cbn [for_each]. unfold bind. unfold write at 1.
    rewrite IH, append_assoc. f_equal. f_equal. f_equal.
    cbn [map String.concat]. destruct (map g t) eqn:E.
    + rewrite append_empty_r. reflexivity.
    + reflexivity.
Qed.

(** ** Transposition *)

Lemma uncons_all_spec {A : Type} (P : A -> Prop) (ls : list (list A))
  (m : nat) :
  Forall (fun l => length l = S m /\ Forall P l) ls ->
  exists hs ts,
    Py.uncons_all ls = Some (hs, ts)
    /\ length hs = length ls
    /\ length ts = length ls
    /\ Forall P hs
    /\ Forall (fun l => length l = m /\ Forall P l) ts.
Proof.
  induction ls as [|l rest IH]; intros H.
  - exists [], []. repeat split; constructor.
  - inversion H as [|? ? [Hl HP] Hrest]; subst.
    destruct (IH Hrest) as (hs & ts & E & Lh & L & Hh & Ht).
    destruct l as [|x t]; [discriminate Hl|].
    inversion HP as [|? ? Hx Hxs]; subst.
    exists (x :: hs), (t :: ts). cbn. rewrite E. repeat split.
    + rewrite Lh. reflexivity.
    + rewrite L. reflexivity.
    + constructor; assumption.
    + constructor; [|assumption]. split; [|assumption].
      cbn in Hl. lia.
Qed.

Lemma zip_star_fuel_spec {A : Type} (P : A -> Prop) (m : nat)
  (ls : list (list A)) :
  Forall (fun l => length l = m /\ Forall P l) ls ->
  length (Py.zip_star_fuel m ls) = m
  /\ Forall (fun r => length r = length ls /\ Forall P r)
       (Py.zip_star_fuel m ls).
Proof.
  revert ls; induction m as [|m IH]; intros ls H.
  - split; [reflexivity|constructor].
  - destruct (uncons_all_spec P ls m H) as (hs & ts & E & Lh & L & Hh & Ht).
    cbn. rewrite E. destruct (IH ts Ht) as [IL IF].
    split; [cbn; rewrite IL; reflexivity|].
    constructor; [split; assumption|]. rewrite <- L. assumption.
Qed.

Lemma zip_star_spec {A : Type} (P : A -> Prop) (m : nat)
  (ls : list (list A)) :
  ls <> [] ->
  Forall (fun l => length l = m /\ Forall P l) ls ->
  length (Py.zip_star ls) = m
  /\ Forall (fun r => length r = length ls /\ Forall P r) (Py.zip_star ls).
Proof.
  intros Hne H. destruct ls as [|l rest]; [contradiction|].
  unfold Py.zip_star. inversion H as [|? ? [Hl _] _]; subst.
  apply zip_star_fuel_spec. assumption.
Qed.

(** ** The materializer on a bit-array column *)

Lemma pack_flags_ok (flags : list bool) (w : Z) :
  0 < w ->
  exists packed,
    BinTableData.pack_flags flags w = Ok packed
    /\ length packed = Z.to_nat ((Z.of_nat (length flags) + w - 1) / w)
    /\ Forall (fun v => 0 <= v < 2 ^ w) packed.
Proof.
  intros Hw. eexists. split; [apply pack_flags_chunks; assumption|].
  split.
  - rewrite length_map, length_seq, ceil_div_pos by assumption. reflexivity.
  - rewrite Forall_forall. intros v Hv.
    apply in_map_iff in Hv. destruct Hv as (k & <- & _).
    pose proof (bits_value_range (chunk flags w k)) as R.
    pose proof (length_chunk flags w k Hw) as L.
    assert (2 ^ Z.of_nat (length (chunk flags w k)) <= 2 ^ w)
      by (apply Z.pow_le_mono_r; lia).
    lia.
Qed.

Lemma pack_series (series : list value) (W : nat) :
  Forall (fun x => exists l, x = VBits l /\ length l = W) series ->
  exists packed,
    map_result
      (fun x => bind_result (BinTableData.flags_of_cell x)
                  (fun f => BinTableData.pack_flags f 64)) series
    = Ok packed
    /\ length packed = length series
    /\ Forall (fun p => length p = Z.to_nat ((Z.of_nat W + 63) / 64)
                        /\ Forall (fun v => 0 <= v < 2 ^ 64) p) packed.
Proof.
  induction series as [|x t IH]; intros H.
  - exists []. repeat split. constructor.
  - inversion H as [|? ? (l & -> & Hl) Ht]; subst.
    destruct (IH Ht) as (packed & E & L & F).
    destruct (pack_flags_ok l 64 ltac:(lia)) as (p & Ep & Lp & Fp).
    exists (p :: packed).
    cbn [map_result BinTableData.flags_of_cell bind_result].
    rewrite Ep. cbn [bind_result]. rewrite E. cbn [bind_result].
    split; [reflexivity|]. split.
    + cbn [length]. rewrite L. reflexivity.
    + constructor; [|assumption]. split; [|assumption].
      rewrite Lp. f_equal. f_equal. lia.
Qed.

Lemma to_uint64_series (flags : list Z) :
  Forall (fun v => 0 <= v < 2 ^ 64) flags ->
  map_result BinTableData.to_uint64 flags = Ok (map VInt flags).
Proof.
  induction 1 as [|v t Hv Ht IH]; [reflexivity|].
  cbn [map_result]. unfold BinTableData.to_uint64 at 1.
  destruct (Z.leb_spec 0 v); [|lia].
  destruct (Z.ltb_spec v (2 ^ 64)); [|lia].
  cbn. rewrite IH. reflexivity.
Qed.

Lemma fold_set_flag_col (C : string) (fc : list (list Z)) (k : nat)
  (d : OrderedDict.t (list value)) :
  Forall (Forall (fun v => 0 <= v < 2 ^ 64)) fc ->
  fold_left (BinTableData.set_flag_col C) (Py.enumerate_from k fc) (Ok d)
  = Ok (assign d
          (combine
             (map (fun i : nat => (Py.upper C ++ Py.str_of_nat (i + 1))%string)
                (seq k (length fc)))
             (map (map VInt) fc))).
Proof.
  revert k d; induction fc as [|flags rest IH]; intros k d HF.
  - reflexivity.
  - inversion HF as [|? ? Hflags Hrest]; subst.
    cbn [Py.enumerate_from fold_left length seq map combine].
    unfold BinTableData.set_flag_col at 2. cbn [bind_result fst snd].
    rewrite (to_uint64_series flags Hflags). cbn [bind_result].
    rewrite (IH (S k) _ Hrest). reflexivity.
Qed.

Lemma bit_column_names_NoDup (C : string) (k n : nat) :
  NoDup (map (fun i : nat => (Py.upper C ++ Py.str_of_nat (i + 1))%string)
           (seq k n)).
Proof.
  revert k; induction n as [|n IH]; intros k; cbn; constructor.
  - intros I. apply in_map_iff in I. destruct I as (j & E & I).
    apply append_inv_head, str_of_nat_inj in E.
    apply in_seq in I. lia.
  - apply IH.
Qed.

Lemma NoDup_app_disjoint {A : Type} (l1 l2 : list A) :
  NoDup l1 -> NoDup l2 -> (forall x, In x l2 -> ~ In x l1) ->
  NoDup (l1 ++ l2).
Proof.
  intros H1 H2 D. induction H1 as [|x l Hx Hl IH]; cbn; [assumption|].
  constructor.
  - rewrite in_app_iff. intros [I|I]; [contradiction|].
    apply (D x I). left. reflexivity.
  - apply IH. intros y Hy I. apply (D y Hy). right. assumption.
Qed.

(** ** The two derivations of the columns of a bit array *)

Lemma map_fst_combine {A B : Type} (l : list A) (l' : list B) :
  length l' = length l -> map fst (combine l l') = l.
Proof.
  revert l'; induction l as [|x t IH]; intros [|y r] L;
    try discriminate L; [reflexivity|].
  cbn. f_equal. apply IH. cbn in L. injection L as L. exact L.
Qed.

Section BitColumn.

Variables (col : Column) (W : nat).

(** The format declares a bit array of [W] bits. *)
Hypothesis format_W : format col = (Py.str_of_nat W ++ "X")%string.

Lemma bit_schema_lines (padding output : string) :
  write_bit_schema_column col padding output
  = ((output
      ++ String.concat EmptyString
           (map (bit_schema_line padding) (bit_column_names (name col) W)))%string,
     Ok tt).
Proof.
  unfold write_bit_schema_column. rewrite format_W.
  rewrite strip_chars_id.
  2:{ rewrite chars_app. apply Forall_app. split.
      - apply Forall_digit_weaken; [|apply str_of_nat_digits].
        intros c Hc. apply (digit_facts c Hc).
      - repeat constructor. }
  rewrite but_last_snoc, float_str_of_nat.
  unfold bind at 1, lift. rewrite ceil_div_pos by lia.
  replace (Z.of_nat W + 64 - 1) with (Z.of_nat W + 63) by lia.
  unfold Py.range, bit_column_names. rewrite map_map.
  apply (for_each_write (seq 0 (Z.to_nat ((Z.of_nat W + 63) / 64)))
           (fun icol : nat =>
              (padding ++ (Py.upper (name col) ++ Py.str_of_nat (icol + 1))
               ++ " " ++ "BIGINT UNSIGNED" ++ "," ++ Py.nl)%string)).
Qed.

(** The table has a record, and every record holds [W] flags. *)
Hypothesis has_record : data col <> [].
Hypothesis records_W :
  Forall (fun x => exists l, x = VBits l /\ length l = W) (data col).

Lemma bit_column_series (d : OrderedDict.t (list value)) :
  exists series : list (list value),
    length series = length (bit_column_names (name col) W)
    /\ Forall (fun s => length s = length (data col)) series
    /\ BinTableData.set_column 64 (Ok d) col
       = Ok (assign d (combine (bit_column_names (name col) W) series)).
Proof.
  unfold BinTableData.set_column. cbn [bind_result].
  rewrite format_W, last_char_snoc. cbn [bind_result Ascii.eqb Bool.eqb].
  unfold BinTableData.flag_cols.
  destruct (pack_series (data col) W records_W) as (packed & E & L & F).
  rewrite E. cbn [bind_result].
  assert (Hp : packed <> []).
  { intros ->. destruct (data col); [contradiction|discriminate L]. }
  destruct (zip_star_spec (fun v => 0 <= v < 2 ^ 64) _ packed Hp F)
    as [Lz Fz].
  exists (map (map VInt) (Py.zip_star packed)).
  unfold bit_column_names. rewrite !length_map, length_seq.
  split; [assumption|]. split.
  - rewrite Forall_map. eapply Forall_impl; [|exact Fz].
    intros r [Hr _]. rewrite length_map. congruence.
  - unfold Py.enumerate. rewrite <- Lz. apply fold_set_flag_col.
    eapply Forall_impl; [|exact Fz]. intros r [_ Hr]. exact Hr.
Qed.

End BitColumn.

(** C1 (as amended).  For a bit-array column named [C] of declared
    width [W] in a table with at least one record, every record
    holding [W] flags, the materializer assigns and the schema emitter
    writes the same [ceil(W/64)] columns, named [UPPERCASE(C)]
    followed by 1, 2, ..., in that order; where none of these names is
    a key already, the table grows by exactly these keys; for
    [W = 142] the names are the three [UPPERCASE(C)1],
    [UPPERCASE(C)2], [UPPERCASE(C)3]. *)
Theorem bit_columns_agree_nonempty (col : Column) (W : nat)
  (d : OrderedDict.t (list value)) (padding output : string) :
  format col = (Py.str_of_nat W ++ "X")%string ->
  data col <> [] ->
  Forall (fun x => exists l, x = VBits l /\ length l = W) (data col) ->
  bit_columns_agree col W d padding output
  /\ length (bit_column_names (name col) W)
     = Z.to_nat ((Z.of_nat W + 63) / 64)
  /\ (NoDup (OrderedDict.keys d) ->
      (forall n, In n (bit_column_names (name col) W) ->
                 ~ In n (OrderedDict.keys d)) ->
      exists d',
        BinTableData.set_column 64 (Ok d) col = Ok d'
        /\ OrderedDict.keys d'
           = OrderedDict.keys d ++ bit_column_names (name col) W)
  /\ (W = 142%nat ->
      bit_column_names (name col) W
      = [Py.upper (name col) ++ "1"; Py.upper (name col) ++ "2";
         Py.upper (name col) ++ "3"]%string).
Proof.
  intros Hf Hne Hrows.
  pose proof (bit_column_series col W Hf Hne Hrows d) as Hs.
  split; [split|split; [|split]].
  - exact Hs.
  - apply bit_schema_lines; assumption.
  - unfold bit_column_names. rewrite length_map, length_seq. reflexivity.
  - intros Hd Hfresh. destruct Hs as (series & Ls & _ & E).
    eexists. split; [exact E|].
    rewrite keys_assign; rewrite (map_fst_combine _ _ Ls); [reflexivity|].
    apply NoDup_app_disjoint;
      [assumption|apply bit_column_names_NoDup|assumption].
  - intros ->. reflexivity.
Qed.

Lemma bit_columns_agree_nonempty_witness :
  bit_columns_agree
    (mkColumn "name" "142X" [VBits (repeat true 142)]) 142
    [("RA"%string, [VFloat (S754_zero false)])] "       " EmptyString
  /\ bit_column_names "name" 142 = ["NAME1"; "NAME2"; "NAME3"]%string.
Proof.
  destruct (bit_columns_agree_nonempty
              (mkColumn "name" "142X" [VBits (repeat true 142)]) 142
              [("RA"%string, [VFloat (S754_zero false)])] "       "
              EmptyString)
    as (H1 & _ & _ & H3).
  - reflexivity.
  - discriminate.
  - constructor; [|constructor]. eexists. split; reflexivity.
  - split; [exact H1|exact (H3 eq_refl)].
Defined.

(** What the two sides do with a 142-bit column of a table without
    records: the materializer keeps the table as it is, the schema
    emitter writes three lines. *)
Example empty_table_runs :
  BinTableData.__init__
    [mkColumn "RA" "1D" []; mkColumn "flags" "142X" []] 64
  = Ok (BinTableData.mk [("RA"%string, [])] 0)
  /\ write_bit_schema_column (mkColumn "flags" "142X" []) EmptyString EmptyString
     = (("FLAGS1 BIGINT UNSIGNED," ++ Py.nl
         ++ "FLAGS2 BIGINT UNSIGNED," ++ Py.nl
         ++ "FLAGS3 BIGINT UNSIGNED," ++ Py.nl)%string, Ok tt).
Proof. split; vm_compute; reflexivity. Qed.

(** C1, as first stated for every bit-array column: in a table without
    records the materializer registers no column for a 142-bit column,
    so the two sides do not agree. *)
Lemma bit_columns_empty_table_counterexample :
  ~ bit_columns_agree (mkColumn "flags" "142X" []) 142
      [("RA"%string, [])] EmptyString EmptyString.
Proof.
  intros [(series & L & _ & E) _].
  destruct series as [|s1 [|s2 [|s3 [|s4 r]]]]; try discriminate L.
  vm_compute in E. discriminate E.
Qed.

(** * Further properties *)

(** ** Bit-flag packing: edge widths, concatenation, reading back *)

(** A width of zero raises [ZeroDivisionError]; a negative width
    returns the empty list whatever the flags, which are dropped
    without an error; no flags give no integers. *)
Theorem pack_flags_edge_widths (flags : list bool) (nbits : Z) :
  (nbits = 0 -> BinTableData.pack_flags flags nbits = Raise ZeroDivisionError)
  /\ (nbits < 0 -> BinTableData.pack_flags flags nbits = Ok [])
  /\ (nbits <> 0 -> BinTableData.pack_flags [] nbits = Ok []).
Proof.
  unfold BinTableData.pack_flags, BinTableData.subarrs, Py.range, Py.ceil_div.
  split; [|split].
  - intros ->. reflexivity.
  - intros H. destruct (Z.eqb_spec nbits 0) as [?|_]; [lia|].
    assert (0 <= - Z.of_nat (length flags) / nbits).
    { pose proof (Z.div_mod (- Z.of_nat (length flags)) nbits ltac:(lia)) as E.
      pose proof (Z.mod_neg_bound (- Z.of_nat (length flags)) nbits H) as B.
      nia. }
    replace (Z.to_nat (- (- Z.of_nat (length flags) / nbits))) with 0%nat by lia.
    reflexivity.
  - intros H. destruct (Z.eqb_spec nbits 0) as [?|_]; [contradiction|].
    reflexivity.
Qed.

Lemma pack_flags_edge_widths_witness :
  BinTableData.pack_flags [true; false; true] 0 = Raise ZeroDivisionError
  /\ BinTableData.pack_flags [true; false; true] (-2) = Ok []
  /\ BinTableData.pack_flags [] 64 = Ok [].
Proof.
  destruct (pack_flags_edge_widths [true; false; true] 0) as (H0 & _ & _).
  destruct (pack_flags_edge_widths [true; false; true] (-2)) as (_ & H1 & _).
  destruct (pack_flags_edge_widths [] 64) as (_ & _ & H2).
  split; [apply H0; reflexivity|].
  split; [apply H1; lia|apply H2; lia].
Defined.

Lemma seq_map_add (a s n : nat) :
  seq (a + s) n = map (Nat.add a) (seq s n).
Proof.
  revert s; induction n as [|n IH]; intros s; [reflexivity|].
  cbn. f_equal. rewrite <- IH. f_equal. lia.
Qed.

Lemma chunk_app_l (f g : list bool) (w : Z) (k : nat) :
  ((k + 1) * Z.to_nat w <= length f)%nat ->
  chunk (f ++ g) w k = chunk f w k.
Proof.
  intros H. unfold chunk. rewrite firstn_app.
  replace ((k + 1) * Z.to_nat w - length f)%nat with 0%nat by lia.
  cbn. rewrite app_nil_r. reflexivity.
Qed.

Lemma chunk_app_r (f g : list bool) (w : Z) (a j : nat) :
  length f = (a * Z.to_nat w)%nat ->
  chunk (f ++ g) w (a + j) = chunk g w j.
Proof.
  intros H. unfold chunk. rewrite firstn_app.
  rewrite firstn_all2 by nia. rewrite skipn_app.
  rewrite skipn_all2 by nia. cbn [app].
  replace ((a + j + 1) * Z.to_nat w - length f)%nat
    with ((j + 1) * Z.to_nat w)%nat by nia.
  replace ((a + j) * Z.to_nat w - length f)%nat
    with (j * Z.to_nat w)%nat by nia.
  reflexivity.
Qed.

(** Packing distributes over concatenation at a chunk boundary: when
    the number of flags of [f] is a multiple of the width, the
    integers of [f ++ g] are those of [f] followed by those of [g]. *)
Theorem pack_flags_app (f g : list bool) (w : Z) :
  0 < w ->
  Z.of_nat (length f) mod w = 0 ->
  exists pf pg : list Z,
    BinTableData.pack_flags f w = Ok pf
    /\ BinTableData.pack_flags g w = Ok pg
    /\ BinTableData.pack_flags (f ++ g) w = Ok (pf ++ pg).
Proof.
  intros Hw Hm.
  do 2 eexists. split; [apply pack_flags_chunks; assumption|].
  split; [apply pack_flags_chunks; assumption|].
  rewrite pack_flags_chunks by assumption. f_equal.
  rewrite !ceil_div_pos by assumption. rewrite length_app, Nat2Z.inj_add.
  pose proof (Z.div_mod (Z.of_nat (length f)) w ltac:(lia)) as E.
  rewrite Hm, Z.add_0_r in E.
  set (a := Z.of_nat (length f) / w) in *.
  assert (Ha : 0 <= a) by (apply Z.div_pos; lia).
  assert (Ef : (Z.of_nat (length f) + w - 1) / w = a).
  { symmetry. apply (Z.div_unique_pos _ _ _ (w - 1)); lia. }
  assert (Efg : (Z.of_nat (length f) + Z.of_nat (length g) + w - 1) / w
                = a + (Z.of_nat (length g) + w - 1) / w).
  { replace (Z.of_nat (length f) + Z.of_nat (length g) + w - 1)
      with (a * w + (Z.of_nat (length g) + w - 1)) by lia.
    apply Z.div_add_l. lia. }
  rewrite Ef, Efg.
  assert (0 <= (Z.of_nat (length g) + w - 1) / w) by (apply Z.div_pos; lia).
  rewrite Z2Nat.inj_add by assumption.
  rewrite seq_app, map_app. f_equal.
  - apply map_ext_in. intros k Hk. apply in_seq in Hk.
    rewrite chunk_app_l; [reflexivity|]. nia.
  - cbn [Nat.add]. rewrite <- (Nat.add_0_r (Z.to_nat a)) at 1.
    rewrite seq_map_add, map_map.
    apply map_ext. intros j. rewrite chunk_app_r; [reflexivity|]. nia.
Qed.

Lemma pack_flags_app_witness :
  exists pf pg : list Z,
    BinTableData.pack_flags [true; true] 2 = Ok pf
    /\ BinTableData.pack_flags [false; true; true] 2 = Ok pg
    /\ BinTableData.pack_flags ([true; true] ++ [false; true; true]) 2
       = Ok (pf ++ pg).
Proof.
  apply (pack_flags_app [true; true] [false; true; true] 2);
    [lia | reflexivity].
Defined.

Lemma packed_testbit (f : list bool) (w : Z) (i : nat) :
  0 < w ->
  (i < length f)%nat ->
  Z.testbit
    (nth (Z.to_nat (Z.of_nat i / w))
       (map (fun k => bits_value (chunk f w k))
          (seq 0 (Z.to_nat (Py.ceil_div (Z.of_nat (length f)) w)))) 0)
    (Z.of_nat i mod w)
  = nth i f false.
Proof.
  intros Hw Hi.
  pose proof (ceil_div_bounds (Z.of_nat (length f)) w Hw ltac:(lia))
    as [Hm0 Hm].
  pose proof (Z.div_mod (Z.of_nat i) w ltac:(lia)) as E.
  pose proof (Z.mod_pos_bound (Z.of_nat i) w Hw) as B.
  assert (0 <= Z.of_nat i / w) by (apply Z.div_pos; lia).
  rewrite nth_map_seq by nia.
  rewrite <- (Z2Nat.id (Z.of_nat i mod w)) by lia.
  rewrite bits_value_testbit. unfold chunk.
  rewrite nth_skipn_firstn by nia.
  f_equal. nia.
Qed.

Lemma unpack_pack (f : list bool) (w : Z) :
  0 < w ->
  unpack_flags
    (map (fun k => bits_value (chunk f w k))
       (seq 0 (Z.to_nat (Py.ceil_div (Z.of_nat (length f)) w))))
    w (length f)
  = f.
Proof.
  intros Hw. unfold unpack_flags.
  apply (nth_ext _ _ false false).
  - rewrite length_map, length_seq. reflexivity.
  - intros i Hi. rewrite length_map, length_seq in Hi.
    rewrite nth_map_seq by assumption.
    apply packed_testbit; assumption.
Qed.

(** Packing loses nothing: for a positive width the flags are read
    back from the packed integers bit by bit, so two flag vectors of
    one length with the same packed integers are equal. *)
Theorem pack_flags_roundtrip (f : list bool) (w : Z) :
  0 < w ->
  exists packed : list Z,
    BinTableData.pack_flags f w = Ok packed
    /\ unpack_flags packed w (length f) = f
    /\ (forall g : list bool,
          length g = length f ->
          BinTableData.pack_flags g w = Ok packed -> g = f).
Proof.
  intros Hw. eexists. split; [apply pack_flags_chunks; assumption|].
  split; [apply unpack_pack; assumption|].
  intros g Hl Hg. rewrite pack_flags_chunks in Hg by assumption.
  injection Hg as Hg.
  pose proof (unpack_pack g w Hw) as Ug.
  pose proof (unpack_pack f w Hw) as Uf.
  rewrite Hg, Hl in Ug. congruence.
Qed.

Lemma pack_flags_roundtrip_witness :
  exists packed : list Z,
    BinTableData.pack_flags [true; false; true] 2 = Ok packed
    /\ unpack_flags packed 2 3 = [true; false; true].
Proof.
  destruct (pack_flags_roundtrip [true; false; true] 2 ltac:(lia))
    as (packed & H1 & H2 & _).
  exists packed. split; [exact H1|exact H2].
Defined.

(** ** The materializer: row count, failure modes, plain tables *)

Lemma uncons_all_inv {A : Type} (P : A -> Prop) (ls : list (list A))
  (hs : list A) (ts : list (list A)) :
  Py.uncons_all ls = Some (hs, ts) ->
  length hs = length ls /\ length ts = length ls
  /\ (Forall (Forall P) ls -> Forall P hs /\ Forall (Forall P) ts).
Proof.
  revert hs ts; induction ls as [|l rest IH]; intros hs ts H; cbn in H.
  - injection H as <- <-. repeat split; constructor.
  - destruct l as [|x t]; [discriminate|].
    destruct (Py.uncons_all rest) as [[hs' ts']|] eqn:E; [|discriminate].
    injection H as <- <-.
    destruct (IH hs' ts' eq_refl) as (Lh & Lt & F).
    cbn. repeat split; try congruence.
    + inversion H as [|? ? Hx Hr]; subst. inversion Hx; subst.
      constructor; [assumption|]. apply F. assumption.
    + inversion H as [|? ? Hx Hr]; subst. inversion Hx; subst.
      constructor; [assumption|]. apply F. assumption.
Qed.

Lemma zip_star_fuel_inv {A : Type} (P : A -> Prop) (m : nat)
  (ls : list (list A)) :
  Forall (fun r => length r = length ls) (Py.zip_star_fuel m ls)
  /\ (Forall (Forall P) ls -> Forall (Forall P) (Py.zip_star_fuel m ls)).
Proof.
  revert ls; induction m as [|m IH]; intros ls; cbn.
  - split; constructor.
  - destruct (Py.uncons_all ls) as [[hs ts]|] eqn:E; [|split; constructor].
    destruct (uncons_all_inv P ls hs ts E) as (Lh & Lt & F).
    destruct (IH ts) as [IL IP]. split.
    + constructor; [assumption|]. rewrite <- Lt. assumption.
    + intros H. destruct (F H). constructor; [assumption|]. apply IP.
      assumption.
Qed.

Lemma zip_star_inv {A : Type} (P : A -> Prop) (ls : list (list A)) :
  Forall (fun r => length r = length ls) (Py.zip_star ls)
  /\ (Forall (Forall P) ls -> Forall (Forall P) (Py.zip_star ls)).
Proof.
  destruct ls as [|l rest]; [split; constructor|].
  apply zip_star_fuel_inv.
Qed.

Lemma map_result_length {A B : Type} (f : A -> result B) (l : list A)
  (l' : list B) :
  map_result f l = Ok l' -> length l' = length l.
Proof.
  intros H. apply map_result_Forall2 in H.
  symmetry. eapply Forall2_length. exact H.
Qed.

Lemma map_result_error {A B : Type} (f : A -> result B) (l : list A)
  (e : exn) :
  map_result f l = Raise e -> exists x, In x l /\ f x = Raise e.
Proof.
  induction l as [|x t IH]; cbn; [discriminate|].
  destruct (f x) as [y|e'] eqn:Ex; cbn.
  - destruct (map_result f t) as [ys|e'']; cbn; [discriminate|].
    intros H. injection H as ->. destruct (IH eq_refl) as (z & Hz & Ez).
    exists z. split; [right; assumption|assumption].
  - intros H. injection H as ->. exists x. split; [left; reflexivity|assumption].
Qed.

Lemma to_uint64_inv (flags : list Z) (arr : list value) :
  map_result BinTableData.to_uint64 flags = Ok arr -> arr = map VInt flags.
Proof.
  revert arr; induction flags as [|v t IH]; intros arr H; cbn in H.
  - injection H as <-. reflexivity.
  - unfold BinTableData.to_uint64 at 1 in H.
    destruct ((0 <=? v) && (v <? 2 ^ 64)); cbn in H; [|discriminate].
    destruct (map_result BinTableData.to_uint64 t) as [ys|e]; cbn in H;
      [|discriminate].
    injection H as <-. cbn. f_equal. apply IH. reflexivity.
Qed.

Lemma to_uint64_range (flags : list Z) (arr : list value) :
  map_result BinTableData.to_uint64 flags = Ok arr ->
  Forall (fun v => 0 <= v < 2 ^ 64) flags.
Proof.
  revert arr; induction flags as [|v t IH]; intros arr H; cbn in H;
    [constructor|].
  unfold BinTableData.to_uint64 at 1 in H.
  destruct (Z.leb_spec 0 v); cbn [andb] in H; [|discriminate].
  destruct (Z.ltb_spec v (2 ^ 64)); cbn [bind_result] in H; [|discriminate].
  destruct (map_result BinTableData.to_uint64 t) as [ys|e] eqn:E;
    [|discriminate].
  constructor; [lia|]. apply (IH ys). reflexivity.
Qed.

Lemma flag_cols_rows (series : list value) (nbits : Z) (fc : list (list Z)) :
  BinTableData.flag_cols series nbits = Ok fc ->
  Forall (fun r => length r = length series) fc.
Proof.
  unfold BinTableData.flag_cols. intros H.
  destruct (map_result _ series) as [packed|e] eqn:E; cbn in H;
    [|discriminate].
  injection H as <-. apply map_result_length in E. rewrite <- E.
  apply (zip_star_inv (fun _ => True)).
Qed.

Lemma flag_cols_range (series : list value) (nbits : Z) (fc : list (list Z)) :
  0 < nbits ->
  BinTableData.flag_cols series nbits = Ok fc ->
  Forall (Forall (fun v => 0 <= v < 2 ^ nbits)) fc.
Proof.
  unfold BinTableData.flag_cols. intros Hn H.
  destruct (map_result _ series) as [packed|e] eqn:E; cbn in H;
    [|discriminate].
  injection H as <-. apply zip_star_inv.
  apply map_result_Forall2 in E.
  eapply Forall2_Forall_r; [|exact E]. cbn beta.
  intros x p Hx. destruct (BinTableData.flags_of_cell x) as [f|e]; cbn in Hx;
    [|discriminate].
  destruct (pack_flags_ok f nbits Hn) as (p' & Ep & _ & Fp).
  rewrite Ep in Hx. injection Hx as <-. assumption.
Qed.

Lemma fold_left_In_invariant {A B : Type} (P : B -> Prop)
  (step : B -> A -> B) (l : list A) (acc : B) :
  (forall a x, In x l -> P a -> P (step a x)) ->
  P acc -> P (fold_left step l acc).
Proof.
  revert acc; induction l as [|x t IH]; intros acc Hs H; cbn; [assumption|].
  apply IH.
  - intros a y Hy. apply Hs. right. assumption.
  - apply Hs; [left; reflexivity|assumption].
Qed.

Lemma Forall_set {V : Type} (P : string * V -> Prop) (d : OrderedDict.t V)
  (k : string) (v : V) :
  (forall k', P (k', v)) -> Forall P d -> Forall P (OrderedDict.set d k v).
Proof.
  intros Hv. induction 1 as [|[k' v'] r Hx Hr IH]; cbn.
  - constructor; [apply Hv|constructor].
  - destruct (String.eqb k' k); constructor; auto.
Qed.

Lemma set_column_series (Q : list value -> Prop) (nbits : Z)
  (acc : result (OrderedDict.t (list value))) (col : Column) :
  (is_plain_column col -> Q (data col)) ->
  (forall flags : list Z,
     length flags = length (data col) ->
     Forall (fun v => 0 <= v < 2 ^ 64) flags -> Q (map VInt flags)) ->
  series_all Q acc -> series_all Q (BinTableData.set_column nbits acc col).
Proof.
  intros Hplain Hbits. unfold BinTableData.set_column.
  destruct acc as [d|e]; cbn; [|trivial]. intros Hd.
  destruct (Py.last_char (format col)) as [c|e] eqn:Ec; cbn; [|trivial].
  destruct (Ascii.eqb_spec c "X"%char) as [->|N].
  - destruct (BinTableData.flag_cols (data col) nbits) as [fc|e] eqn:Ef; cbn;
      [|trivial].
    pose proof (flag_cols_rows _ _ _ Ef) as Hrows. clear Ef.
    unfold Py.enumerate. generalize 0%nat. revert d Hd.
    induction Hrows as [|r fc' Hr Hfc IH]; intros d Hd k;
      cbn [Py.enumerate_from fold_left]; [assumption|].
    unfold BinTableData.set_flag_col at 2. cbn [bind_result fst snd].
    destruct (map_result BinTableData.to_uint64 r) as [arr|e] eqn:Ea;
      cbn [bind_result].
    + apply IH. apply Forall_set; [|assumption].
      intros ?. cbn. rewrite (to_uint64_inv _ _ Ea).
      apply Hbits; [assumption|]. apply (to_uint64_range _ _ Ea).
    + clear. generalize (S k). induction fc' as [|r' t IH']; intros k';
        cbn [Py.enumerate_from fold_left]; [exact I|]. apply IH'.
  - cbn. apply Forall_set; [|assumption]. intros ?. cbn. apply Hplain.
    exists c. split; assumption.
Qed.

Lemma init_series (Q : list value -> Prop) (bintable : list Column)
  (nbits : Z) (t : BinTableData.t) :
  (forall col, In col bintable -> is_plain_column col -> Q (data col)) ->
  (forall col (flags : list Z), In col bintable ->
     length flags = length (data col) ->
     Forall (fun v => 0 <= v < 2 ^ 64) flags -> Q (map VInt flags)) ->
  BinTableData.__init__ bintable nbits = Ok t ->
  Forall (fun kv => Q (snd kv)) (BinTableData.cols t)
  /\ exists v rest,
       OrderedDict.values (BinTableData.cols t) = v :: rest
       /\ BinTableData.nrows t = length v.
Proof.
  intros Hplain Hbits H. unfold BinTableData.__init__ in H.
  pose proof (fold_left_In_invariant (series_all Q)
                (BinTableData.set_column nbits) bintable (Ok OrderedDict.empty))
    as Inv.
  destruct (fold_left _ bintable _) as [d|e]; cbn in H; [|discriminate].
  destruct (OrderedDict.values d) as [|v rest] eqn:Ev; [discriminate|].
  injection H as <-. cbn. split.
  - apply Inv; [|constructor].
    intros a col Hin Ha. apply set_column_series.
    + apply Hplain. assumption.
    + intros flags. apply Hbits. assumption.
    + assumption.
  - exists v, rest. split; [assumption|reflexivity].
Qed.

(** When every source column holds [n] records, a table that is
    built has [nrows = n] and every series of it, packed flag series
    included, has exactly [n] elements. *)
Theorem init_row_count (bintable : list Column) (nbits : Z)
  (t : BinTableData.t) (n : nat) :
  BinTableData.__init__ bintable nbits = Ok t ->
  Forall (fun col => length (data col) = n) bintable ->
  BinTableData.nrows t = n
  /\ Forall (fun kv => length (snd kv) = n) (BinTableData.cols t).
Proof.
  intros H Hn. rewrite Forall_forall in Hn.
  destruct (init_series (fun s => length s = n) bintable nbits t) as [F E];
    try assumption.
  - intros col Hin _. apply Hn. assumption.
  - intros col flags Hin Hl _. rewrite length_map, Hl. apply Hn. assumption.
  - split; [|exact F].
    destruct E as (v & rest & Ev & ->).
    destruct (BinTableData.cols t) as [|[k v'] r]; [discriminate Ev|].
    cbn in Ev. injection Ev as -> _. inversion F as [|? ? Hv _].
    exact Hv.
Qed.

Lemma init_row_count_witness :
  BinTableData.nrows
    (BinTableData.mk
       [("ra"%string, [VInt 1; VInt 2]); ("FLAGS1"%string, [VInt 1; VInt 2])] 2)
  = 2%nat.
Proof.
  apply (init_row_count
           [mkColumn "ra" "1J" [VInt 1; VInt 2];
            mkColumn "flags" "2X" [VBits [true; false]; VBits [false; true]]]
           64 _ 2).
  - reflexivity.
  - repeat constructor.
Defined.

Lemma flag_cols_fails (series : list value) (nbits : Z) (e : exn) :
  nbits <> 0 ->
  BinTableData.flag_cols series nbits = Raise e -> e = TypeError.
Proof.
  unfold BinTableData.flag_cols. intros Hn H.
  destruct (map_result _ series) as [packed|e'] eqn:E; cbn in H;
    [discriminate|].
  injection H as ->. apply map_result_error in E.
  destruct E as (x & _ & Ex).
  destruct x as [s|n|f|b|l]; cbn in Ex; try (injection Ex as <-; reflexivity).
  - unfold BinTableData.pack_flags in Ex.
    destruct (Z.eqb_spec nbits 0); [contradiction|discriminate].
  - unfold BinTableData.pack_flags in Ex.
    destruct (Z.eqb_spec nbits 0); [contradiction|discriminate].
Qed.

Lemma fold_set_flag_col_ok (C : string) (fc : list (list Z)) (k : nat)
  (d : OrderedDict.t (list value)) :
  Forall (Forall (fun v => 0 <= v < 2 ^ 64)) fc ->
  exists d' : OrderedDict.t (list value),
    fold_left (BinTableData.set_flag_col C) (Py.enumerate_from k fc) (Ok d)
    = Ok d'
    /\ (d <> [] -> d' <> []).
Proof.
  intros HF. rewrite fold_set_flag_col by assumption.
  eexists. split; [reflexivity|].
  generalize (combine
                (map (fun i : nat => (Py.upper C ++ Py.str_of_nat (i + 1))%string)
                   (seq k (length fc)))
                (map (map VInt) fc)).
  intros items. revert d. unfold assign.
  induction items as [|[n v] t IH]; intros d Hd; cbn; [assumption|].
  apply IH. destruct d as [|[k' v'] r]; [contradiction|]. cbn.
  destruct (String.eqb k' n); discriminate.
Qed.

Lemma set_column_fails_mildly (nbits : Z)
  (acc : result (OrderedDict.t (list value))) (col : Column) :
  0 < nbits <= 64 ->
  fails_mildly acc -> fails_mildly (BinTableData.set_column nbits acc col).
Proof.
  intros Hn. unfold BinTableData.set_column.
  destruct acc as [d|e]; cbn; [|trivial]. intros _.
  destruct (Py.last_char (format col)) as [c|e] eqn:Ec; cbn.
  - destruct (Ascii.eqb c "X"%char); [|exact I].
    destruct (BinTableData.flag_cols (data col) nbits) as [fc|e] eqn:Ef; cbn.
    + assert (HF : Forall (Forall (fun v => 0 <= v < 2 ^ 64)) fc).
      { pose proof (flag_cols_range (data col) nbits fc ltac:(lia) Ef) as R.
        eapply Forall_impl; [|exact R]. intros r Hr.
        eapply Forall_impl; [|exact Hr]. cbn beta. intros v Hv.
        assert (2 ^ nbits <= 2 ^ 64) by (apply Z.pow_le_mono_r; lia). lia. }
      destruct (fold_set_flag_col_ok (name col) fc 0 d HF) as (d' & E & _).
      unfold Py.enumerate. rewrite E. exact I.
    + right. eapply flag_cols_fails; [|exact Ef]. lia.
  - destruct col as [nm [|ch fmt] dt]; cbn in Ec.
    + injection Ec as <-. left. reflexivity.
    + exfalso. clear -Ec. revert ch Ec.
      induction fmt as [|c' t IH]; intros ch Ec; cbn in Ec; [discriminate|].
      apply (IH c'). exact Ec.
Qed.

(** With a width between 1 and 64 the construction of the table fails
    in two ways only: with [IndexError] (an empty format, or a table
    that registers no column) or with [TypeError] (a number where a
    bit-array cell is expected); in particular the conversion to
    unsigned 64-bit integers never overflows. *)
Theorem init_failure_modes (bintable : list Column) (nbits : Z) (e : exn) :
  0 < nbits <= 64 ->
  BinTableData.__init__ bintable nbits = Raise e ->
  e = IndexError \/ e = TypeError.
Proof.
  intros Hn H. unfold BinTableData.__init__ in H.
  pose proof (fold_left_In_invariant fails_mildly
                (BinTableData.set_column nbits) bintable (Ok OrderedDict.empty)
                (fun a x _ Ha => set_column_fails_mildly nbits a x Hn Ha) I)
    as Inv.
  destruct (fold_left _ bintable _) as [d|e']; cbn in H.
  - destruct (OrderedDict.values d); [|discriminate].
    injection H as <-. left. reflexivity.
  - injection H as <-. exact Inv.
Qed.

Lemma init_failure_modes_witness :
  exists e : exn,
    BinTableData.__init__ [mkColumn "flags" "3X" [VInt 5]] 64 = Raise e
    /\ (e = IndexError \/ e = TypeError).
Proof.
  exists TypeError. split; [reflexivity|].
  apply (init_failure_modes [mkColumn "flags" "3X" [VInt 5]] 64 TypeError).
  - lia.
  - reflexivity.
Defined.

(** A table without columns, or whose columns are all bit arrays
    without a record, registers nothing, and its construction raises
    [IndexError]. *)
Theorem init_nothing_registered (bintable : list Column) (nbits : Z) :
  Forall (fun col => is_bit_column col /\ data col = []) bintable ->
  BinTableData.__init__ bintable nbits = Raise IndexError.
Proof.
  intros H. unfold BinTableData.__init__.
  assert (E : fold_left (BinTableData.set_column nbits) bintable
                (Ok OrderedDict.empty) = Ok OrderedDict.empty).
  { induction H as [|col t [Hb Hd] Ht IH]; [reflexivity|].
    cbn [fold_left]. unfold BinTableData.set_column at 2.
    cbn [bind_result]. unfold is_bit_column in Hb. rewrite Hb, Hd.
    cbn. exact IH. }
  rewrite E. reflexivity.
Qed.

Lemma init_nothing_registered_witness :
  BinTableData.__init__
    [mkColumn "flags" "142X" []; mkColumn "mask" "9X" []] 64
  = Raise IndexError.
Proof.
  apply init_nothing_registered.
  repeat constructor.
Defined.

Lemma plain_fold (nbits : Z) (bintable : list Column)
  (d : OrderedDict.t (list value)) :
  Forall is_plain_column bintable ->
  NoDup (OrderedDict.keys d ++ map name bintable) ->
  fold_left (BinTableData.set_column nbits) bintable (Ok d)
  = Ok (d ++ map (fun col => (name col, data col)) bintable).
Proof.
  intros H. revert d. induction H as [|col t (ch & Hc & Hx) Ht IH];
    intros d Hd.
  - cbn. rewrite app_nil_r. reflexivity.
  - cbn [fold_left map]. unfold BinTableData.set_column at 2.
    cbn [bind_result]. rewrite Hc. cbn [bind_result].
    apply Ascii.eqb_neq in Hx. rewrite Hx.
    assert (Hk : ~ In (name col) (OrderedDict.keys d)).
    { cbn in Hd. apply NoDup_remove_2 in Hd. intros I. apply Hd.
      apply in_or_app. left. assumption. }
    rewrite (set_fresh _ _ _ Hk), IH.
    + rewrite <- app_assoc. reflexivity.
    + rewrite keys_app, <- app_assoc. exact Hd.
Qed.

(** A table without bit-array columns and with distinct column names
    is served as it is: the same names in the same order, each with
    its series untouched, and [nrows] is the number of records of the
    first column. *)
Theorem init_plain_table (col : Column) (rest : list Column) (nbits : Z) :
  Forall is_plain_column (col :: rest) ->
  NoDup (map name (col :: rest)) ->
  BinTableData.__init__ (col :: rest) nbits
  = Ok (BinTableData.mk
          (map (fun c => (name c, data c)) (col :: rest))
          (length (data col))).
Proof.
  intros H Hn. unfold BinTableData.__init__.
  rewrite (plain_fold nbits (col :: rest) OrderedDict.empty H Hn).
  reflexivity.
Qed.

Lemma init_plain_table_witness :
  BinTableData.__init__
    [mkColumn "ra" "1D" [VInt 1]; mkColumn "dec" "1D" [VInt 2]] 64
  = Ok (BinTableData.mk [("ra"%string, [VInt 1]); ("dec"%string, [VInt 2])] 1).
Proof.
  apply (init_plain_table (mkColumn "ra" "1D" [VInt 1])
           [mkColumn "dec" "1D" [VInt 2]] 64).
  - repeat constructor; exists "D"%char; split; (reflexivity || discriminate).
  - repeat constructor; simpl; intuition discriminate.
Defined.

(** ** The CSV emitter: failures and the file of a regular table *)

Lemma add_column_keys (col_name : string) (v : value) (t : BinTableData.t)
  (k : string) :
  In k (OrderedDict.keys (BinTableData.cols t)) ->
  In k (OrderedDict.keys (BinTableData.cols (fst (add_column col_name v t)))).
Proof.
  intros H. unfold add_column.
  destruct (OrderedDict.has_key (BinTableData.cols t) col_name) eqn:E;
    cbn [fst BinTableData.cols]; [assumption|].
  apply has_key_false in E. rewrite set_fresh, keys_app by assumption.
  apply in_or_app. left. assumption.
Qed.

Lemma add_columns_duplicate (items : list (string * value))
  (t0 : BinTableData.t) (col_name : string) (v : value) :
  In (col_name, v) items ->
  In col_name (OrderedDict.keys (BinTableData.cols t0)) ->
  exists (nm : string) (t : BinTableData.t),
    In nm (map fst items)
    /\ for_each items (fun p => add_column (fst p) (snd p)) t0
       = (t, Raise (RuntimeError (duplicate_message nm))).
Proof.
  revert t0; induction items as [|[n1 v1] rest IH]; intros t0 Hin Hk;
    [destruct Hin|].
  cbn [for_each fst snd]. unfold bind.
  destruct (OrderedDict.has_key (BinTableData.cols t0) n1) eqn:E.
  - exists n1, t0. split; [left; reflexivity|].
    unfold add_column. rewrite E. reflexivity.
  - assert (Hrest : In (col_name, v) rest).
    { destruct Hin as [H|H]; [|assumption].
      injection H as -> ->. apply has_key_In in Hk. congruence. }
    pose proof (add_column_keys n1 v1 t0 col_name Hk) as Hk'.
    unfold add_column in *. rewrite E in *. cbn [fst] in Hk'.
    destruct (IH _ Hrest Hk') as (nm & t & Hnm & Et).
    exists nm, t. split; [right; assumption|assumption].
Qed.

(** When the name of an added column is already a key of the
    materialized table, the call raises the [RuntimeError] of a
    duplicate column (for the first name found to be one) before the
    CSV file is opened: nothing is written, not even the header. *)
Theorem csv_duplicate_added_column (bintable : list Column)
  (column_mapping : option (list (string * value)))
  (callbacks : option (list (string * callback)))
  (items : list (string * value)) (t0 : BinTableData.t)
  (col_name : string) (v : value) :
  BinTableData.__init__ bintable 64 = Ok t0 ->
  In (col_name, v) items ->
  In col_name (OrderedDict.keys (BinTableData.cols t0)) ->
  exists nm : string,
    In nm (map fst items)
    /\ create_csv_file_from_fits bintable column_mapping callbacks (Some items)
       = ([], Raise (RuntimeError (duplicate_message nm))).
Proof.
  intros H0 Hin Hk.
  destruct (add_columns_duplicate items t0 col_name v Hin Hk)
    as (nm & t & Hnm & E).
  exists nm. split; [assumption|].
  unfold create_csv_file_from_fits. rewrite H0.
  unfold add_columns. rewrite E. reflexivity.
Qed.

Lemma csv_duplicate_added_column_witness :
  exists nm : string,
    In nm (map fst [("project"%string, VInt 1); ("ra"%string, VInt 0)])
    /\ create_csv_file_from_fits [mkColumn "ra" "1D" [VInt 1]] None None
         (Some [("project"%string, VInt 1); ("ra"%string, VInt 0)])
       = ([], Raise (RuntimeError (duplicate_message nm))).
Proof.
  apply (csv_duplicate_added_column [mkColumn "ra" "1D" [VInt 1]] None None
           [("project"%string, VInt 1); ("ra"%string, VInt 0)]
           (BinTableData.mk [("ra"%string, [VInt 1])] 1) "ra" (VInt 0)).
  - reflexivity.
  - right. left. reflexivity.
  - left. reflexivity.
Defined.

Lemma has_key_getitem {V : Type} (d : list (string * V)) (k : string) :
  OrderedDict.has_key d k = true -> exists v, Py.getitem d k = Ok v.
Proof.
  unfold OrderedDict.has_key. induction d as [|[k' v'] r IH]; cbn;
    [discriminate|].
  rewrite (String.eqb_sym k k').
  destruct (String.eqb k' k); cbn; [eauto|assumption].
Qed.

Lemma column_for_fails (t : BinTableData.t)
  (callbacks : list (string * callback)) (colname : value) (e : exn) :
  column_for t callbacks colname = Raise e ->
  (forall k, e <> KeyError k)
  /\ exists (s : string) (coldata : list value) (f : callback),
       colname = VStr s
       /\ Py.getitem (BinTableData.cols t) s = Ok coldata
       /\ Py.getitem callbacks s = Ok f
       /\ f coldata = Raise e.
Proof.
  unfold column_for. destruct colname as [s|n|x|b|l]; try discriminate.
  destruct (OrderedDict.has_key (BinTableData.cols t) s) eqn:Hk;
    [|discriminate].
  destruct (has_key_getitem _ _ Hk) as [coldata Ed]. rewrite Ed. cbn.
  destruct (Py.getitem callbacks s) as [f|e'] eqn:Ec; cbn.
  - destruct (f coldata) as [s'|e'] eqn:Ef; cbn; [discriminate|].
    destruct e'; cbn; try discriminate; intros H; injection H as <-;
      (split; [intros k; discriminate|]);
      exists s, coldata, f; repeat split; assumption.
  - assert (exists k, e' = KeyError k) as [k ->].
    { clear -Ec. induction callbacks as [|[k' f'] r IH]; cbn in Ec.
      - injection Ec as <-. eauto.
      - destruct (String.eqb k' s); [discriminate|auto]. }
    cbn. discriminate.
Qed.

Lemma map_result_fails_In {A B : Type} (f : A -> result B) (l : list A)
  (x : A) (e0 : exn) :
  In x l -> f x = Raise e0 ->
  exists (e : exn) (y : A), map_result f l = Raise e /\ In y l /\ f y = Raise e.
Proof.
  induction l as [|z t IH]; intros Hin Hx; [destruct Hin|].
  cbn. destruct (f z) as [b|e] eqn:Ez; cbn.
  - destruct Hin as [->|Hin]; [congruence|].
    destruct (IH Hin Hx) as (e & y & E & Hy & Ey).
    rewrite E. cbn. exists e, y. repeat split; [right|]; assumption.
  - exists e, z. repeat split; [left; reflexivity|assumption].
Qed.

(** When the callback of a mapped table column raises anything but a
    [KeyError] on the column's series, the call raises an exception
    that is no [KeyError], and the rows handed to the writer are the
    header alone: no data row is written. *)
Theorem csv_callback_failure (bintable : list Column)
  (column_mapping : option (list (string * value)))
  (callbacks : option (list (string * callback)))
  (added_columns : option (list (string * value)))
  (t0 t : BinTableData.t) (s : string) (coldata : list value)
  (f : callback) (e0 : exn) :
  BinTableData.__init__ bintable 64 = Ok t0 ->
  add_columns added_columns t0 = (t, Ok tt) ->
  In (VStr s) (map snd (mapping_used column_mapping t)) ->
  Py.getitem (BinTableData.cols t) s = Ok coldata ->
  Py.getitem (callbacks_used callbacks) s = Ok f ->
  f coldata = Raise e0 ->
  (forall k, e0 <> KeyError k) ->
  exists e : exn,
    (forall k, e <> KeyError k)
    /\ create_csv_file_from_fits bintable column_mapping callbacks
         added_columns
       = ([map VStr (map fst (mapping_used column_mapping t))], Raise e).
Proof.
  intros H0 H1 Hin Hd Hc Hf Hn.
  rewrite (create_csv_eq _ _ _ _ t0 t H0 H1). cbn zeta.
  assert (Ecol : column_for t (callbacks_used callbacks) (VStr s) = Raise e0).
  { unfold column_for. rewrite (getitem_has_key _ _ _ Hd), Hd. cbn.
    rewrite Hc. cbn. rewrite Hf.
    destruct e0; try reflexivity. exfalso. apply (Hn key). reflexivity. }
  destruct (map_result_fails_In _ _ _ _ Hin Ecol) as (e & y & E & _ & Ey).
  rewrite E. exists e. split; [|reflexivity].
  apply (column_for_fails _ _ _ _ Ey).
Qed.

Lemma csv_callback_failure_witness :
  exists e : exn,
    (forall k, e <> KeyError k)
    /\ create_csv_file_from_fits [mkColumn "ra" "1D" [VInt 1]] None
         (Some [("ra"%string, fun _ => Raise ValueError)]) None
       = ([[VStr "ra"]], Raise e).
Proof.
  apply (csv_callback_failure [mkColumn "ra" "1D" [VInt 1]] None
           (Some [("ra"%string, fun _ => Raise ValueError)]) None
           (BinTableData.mk [("ra"%string, [VInt 1])] 1)
           (BinTableData.mk [("ra"%string, [VInt 1])] 1)
           "ra" [VInt 1] (fun _ => Raise ValueError) ValueError);
    try reflexivity.
  - left. reflexivity.
  - intros k. discriminate.
Defined.









Lemma null_if_not_finite_scalars (r : row) :
  Forall (fun x => scalar x = true) r ->
  map_result null_if_not_finite r = Ok (map serialized r).
Proof.
  induction 1 as [|x t Hx Ht IH]; [reflexivity|].
  cbn [map_result map]. rewrite null_if_not_finite_total, IH; [reflexivity| |].
  - destruct x as [s|n|f|b|l]; try discriminate Hx;
      (left; eexists; reflexivity) || (right; reflexivity).
  - destruct x as [s|n|f|b|l]; try reflexivity. exact Hx.
Qed.







Lemma map_result_TypeError (r : row) :
  Forall (fun x => string_or_number x = true) r ->
  Exists (fun x => held_by_numpy x = false) r ->
  map_result null_if_not_finite r = Raise TypeError.
Proof.
  induction 1 as [|x t Hx Ht IH]; intros He; [inversion He|].
  cbn [map_result].
  destruct (held_by_numpy x) eqn:Eh.
  - rewrite null_if_not_finite_total; [| |exact Eh].
    + cbn [bind_result]. rewrite IH; [reflexivity|].
      inversion He as [? ? Hb|? ? Hb]; subst; [congruence|exact Hb].
    + destruct x as [s|n|f|b|l]; try discriminate Hx;
        (left; eexists; reflexivity) || (right; reflexivity).
  - destruct x as [s|n|f|b|l]; try discriminate Eh.
    rewrite null_if_not_finite_beyond by exact Eh. reflexivity.
Qed.

Lemma write_rows_stop (rows : list row) (r : row) (rest out : list row)
  (e : exn) :
  Forall (Forall (fun x => scalar x = true)) rows ->
  map_result null_if_not_finite r = Raise e ->
  for_each (rows ++ r :: rest) write_row out
  = (out ++ map (map serialized) rows, Raise e).
Proof.
  intros H Hr. revert out. induction H as [|r0 t Hr0 Ht IH]; intros out.
  - rewrite app_nil_l. cbn [for_each map]. unfold bind.
    rewrite write_row_eq, Hr, app_nil_r. reflexivity.
  - rewrite <- app_comm_cons. cbn [for_each map]. unfold bind.
    rewrite write_row_eq.
    rewrite (null_if_not_finite_scalars r0 Hr0), IH, <- app_assoc.
    reflexivity.
Qed.

(** An integer beyond 64 bits stops the file.  When the columns of
    the mapping resolve, the records before some record hold only
    strings and numbers numpy holds, and that record holds strings and
    numbers one of which is an integer below [-2^63] or from [2^64]
    on, the call writes the header and the records before it, each
    cell through the NULL rule, and raises the [TypeError] of
    [np.isfinite]: neither that record nor any after it is written. *)
Theorem csv_integer_beyond_64_bits (bintable : list Column)
  (column_mapping : option (list (string * value)))
  (callbacks : option (list (string * callback)))
  (added_columns : option (list (string * value)))
  (t0 t : BinTableData.t) (columns : list (list value))
  (before : list row) (r : row) (after : list row) :
  BinTableData.__init__ bintable 64 = Ok t0 ->
  add_columns added_columns t0 = (t, Ok tt) ->
  map_result (column_for t (callbacks_used callbacks))
    (map snd (mapping_used column_mapping t)) = Ok columns ->
  Py.zip_star columns = before ++ r :: after ->
  Forall (Forall (fun x => scalar x = true)) before ->
  Forall (fun x => string_or_number x = true) r ->
  Exists (fun x => held_by_numpy x = false) r ->
  create_csv_file_from_fits bintable column_mapping callbacks added_columns
  = (map VStr (map fst (mapping_used column_mapping t))
       :: map (map serialized) before,
     Raise TypeError).
Proof.
  intros H0 H1 Hc Hz Hb Hr He.
  rewrite (create_csv_eq _ _ _ _ t0 t H0 H1). cbn zeta.
  rewrite Hc. unfold write_rows. rewrite Hz.
  rewrite (write_rows_stop before r after _ TypeError Hb
             (map_result_TypeError r Hr He)).
  reflexivity.
Qed.

Lemma csv_integer_beyond_64_bits_witness :
  create_csv_file_from_fits
    [mkColumn "ra" "1D" [VFloat S754_nan; VInt 2; VInt 3]] None None
    (Some [("run"%string, VInt (2 ^ 70))])
  = ([[VStr "ra"; VStr "run"]], Raise TypeError)
  /\ create_csv_file_from_fits
       [mkColumn "ra" "1D" [VFloat S754_nan; VInt 2; VInt 3]]
       (Some [("ra"%string, VStr "ra"); ("id"%string, VStr "ra")])
       (Some [("ra"%string,
               fun _ => Ok [VInt (2 ^ 64 - 1); VInt (2 ^ 64); VInt 0])])
       None
     = ([[VStr "ra"; VStr "id"];
         [VInt (2 ^ 64 - 1); VInt (2 ^ 64 - 1)]],
        Raise TypeError).
Proof.
  split.
  - apply (csv_integer_beyond_64_bits
             [mkColumn "ra" "1D" [VFloat S754_nan; VInt 2; VInt 3]]
             None None
             (Some [("run"%string, VInt (2 ^ 70))])
             (BinTableData.mk
                [("ra"%string, [VFloat S754_nan; VInt 2; VInt 3])] 3)
             (BinTableData.mk
                [("ra"%string, [VFloat S754_nan; VInt 2; VInt 3]);
                 ("run"%string, repeat (VInt (2 ^ 70)) 3)] 3)
             [[VFloat S754_nan; VInt 2; VInt 3]; repeat (VInt (2 ^ 70)) 3]
             [] [VFloat S754_nan; VInt (2 ^ 70)]
             [[VInt 2; VInt (2 ^ 70)]; [VInt 3; VInt (2 ^ 70)]]).
    + reflexivity.
    + reflexivity.
    + reflexivity.
    + reflexivity.
    + constructor.
    + repeat constructor.
    + apply Exists_cons_tl. apply Exists_cons_hd. reflexivity.
  - apply (csv_integer_beyond_64_bits
             [mkColumn "ra" "1D" [VFloat S754_nan; VInt 2; VInt 3]]
             (Some [("ra"%string, VStr "ra"); ("id"%string, VStr "ra")])
             (Some [("ra"%string,
                     fun _ => Ok [VInt (2 ^ 64 - 1); VInt (2 ^ 64); VInt 0])])
             None
             (BinTableData.mk
                [("ra"%string, [VFloat S754_nan; VInt 2; VInt 3])] 3)
             (BinTableData.mk
                [("ra"%string, [VFloat S754_nan; VInt 2; VInt 3])] 3)
             [[VInt (2 ^ 64 - 1); VInt (2 ^ 64); VInt 0];
              [VInt (2 ^ 64 - 1); VInt (2 ^ 64); VInt 0]]
             [[VInt (2 ^ 64 - 1); VInt (2 ^ 64 - 1)]]
             [VInt (2 ^ 64); VInt (2 ^ 64)] [[VInt 0; VInt 0]]).
    + reflexivity.
    + reflexivity.
    + reflexivity.
    + reflexivity.
    + repeat constructor.
    + repeat constructor.
    + apply Exists_cons_hd. reflexivity.
Defined.

(** ** The schema emitter: the text of a table, truncation on failure *)

Lemma appends_ret {A : Type} (a : A) : appends (ret a).
Proof. intros output. cbn. rewrite append_empty_r. reflexivity. Qed.

Lemma appends_lift {A : Type} (r : result A) : appends (lift r).
Proof. intros output. cbn. rewrite append_empty_r. reflexivity. Qed.

Lemma appends_write (s : string) : appends (write s).
Proof. intros output. reflexivity. Qed.

Lemma appends_bind {A B : Type} (m : M string A) (k : A -> M string B) :
  appends m -> (forall a, appends (k a)) -> appends (bind m k).
Proof.
  intros Hm Hk output. unfold bind. rewrite (Hm output).
  destruct (m EmptyString) as [w [a|e]]; cbn [fst snd].
  - rewrite (Hk a (output ++ w)%string), (Hk a w), append_assoc. reflexivity.
  - reflexivity.
Qed.

Lemma appends_for_each {A : Type} (l : list A) (body : A -> M string unit) :
  (forall x, appends (body x)) -> appends (for_each l body).
Proof.
  intros H. induction l as [|x t IH]; cbn [for_each].
  - apply appends_ret.
  - apply appends_bind; [apply H|intros _; exact IH].
Qed.

Lemma appends_write_bit_schema_column (c : Column) (padding : string) :
  appends (write_bit_schema_column c padding).
Proof.
  unfold write_bit_schema_column.
  apply appends_bind; [apply appends_lift|]. intros n.
  apply appends_for_each. intros x. apply appends_write.
Qed.

Lemma appends_write_schema_column (c : Column) (padding : string) :
  appends (write_schema_column c padding).
Proof.
  unfold write_schema_column.
  apply appends_bind; [apply appends_lift|]. intros ch.
  destruct (Ascii.eqb ch "X"); [apply appends_write_bit_schema_column|].
  apply appends_bind; [apply appends_lift|]. intros n.
  destruct (negb (n =? 1)); [apply appends_ret|].
  apply appends_bind; [apply appends_lift|]. intros ty.
  apply appends_write.
Qed.

Lemma write_schema_column_from (c : Column) (padding output : string) :
  write_schema_column c padding output
  = ((output ++ column_text padding c)%string, column_outcome padding c).
Proof. apply appends_write_schema_column. Qed.

Lemma concat_cons (x : string) (l : list string) :
  String.concat EmptyString (x :: l)
  = (x ++ String.concat EmptyString l)%string.
Proof.
  cbn [String.concat]. destruct l; [rewrite append_empty_r|]; reflexivity.
Qed.

Lemma concat_app (l1 l2 : list string) :
  String.concat EmptyString (l1 ++ l2)
  = (String.concat EmptyString l1 ++ String.concat EmptyString l2)%string.
Proof.
  induction l1 as [|x t IH]; [reflexivity|].
  change ((x :: t) ++ l2) with (x :: (t ++ l2)).
  rewrite (concat_cons x (t ++ l2)), (concat_cons x t), IH, append_assoc.
  reflexivity.
Qed.

Lemma schema_columns_from (padding : string) (cols : list Column)
  (output : string) :
  (Forall (fun c => column_outcome padding c = Ok tt) cols
   /\ for_each cols (fun c => write_schema_column c padding) output
      = ((output
          ++ String.concat EmptyString (map (column_text padding) cols))%string,
         Ok tt))
  \/ (exists (k : nat) (c : Column) (e : exn),
        nth_error cols k = Some c
        /\ column_outcome padding c = Raise e
        /\ Forall (fun c' => column_outcome padding c' = Ok tt) (firstn k cols)
        /\ for_each cols (fun c => write_schema_column c padding) output
           = ((output
               ++ String.concat EmptyString
                    (map (column_text padding) (firstn (S k) cols)))%string,
              Raise e)).
Proof.
  revert output; induction cols as [|c rest IH]; intros output.
  - left. split; [constructor|]. cbn. rewrite append_empty_r. reflexivity.
  - cbn [for_each]. unfold bind. rewrite write_schema_column_from.
    destruct (column_outcome padding c) as [[]|e] eqn:Ec.
    + destruct (IH (output ++ column_text padding c)%string)
        as [[F E]|(k & c' & e & Hk & He & F & E)].
      * left. split; [constructor; assumption|].
        rewrite E, append_assoc. cbn [map]. rewrite concat_cons. reflexivity.
      * right. exists (S k), c', e.
        split; [assumption|]. split; [assumption|].
        split; [cbn; constructor; assumption|].
        rewrite E, append_assoc. cbn [firstn map] in *.
        rewrite concat_cons. reflexivity.
    + right. exists 0%nat, c, e.
      split; [reflexivity|]. split; [assumption|]. split; [constructor|].
      reflexivity.
Qed.

Lemma declared_column (padding : string) (c : Column)
  (cols : list (string * string)) :
  declares c cols ->
  column_text padding c
  = String.concat EmptyString (map (schema_line padding) cols)
  /\ column_outcome padding c = Ok tt.
Proof.
  intros [ty Hty|W Hf]; unfold column_text, column_outcome.
  - destruct c as [nm fmt dt]. cbn [format name] in *.
    cbn in Hty.
    destruct Hty as [H|[H|[H|[H|[H|[]]]]]]; injection H as <- <-;
      split; reflexivity.
  - unfold write_schema_column. rewrite Hf.
    rewrite strip_chars_id.
    2:{ rewrite chars_app. apply Forall_app. split.
        - apply Forall_digit_weaken; [|apply str_of_nat_digits].
          intros ch Hch. apply (digit_facts ch Hch).
        - repeat constructor. }
    unfold bind, lift. rewrite last_char_snoc, Ascii.eqb_refl.
    rewrite (bit_schema_lines c W Hf padding EmptyString).
    cbn [fst snd]. split; [|reflexivity].
    rewrite map_map. reflexivity.
Qed.

Lemma schema_columns_declared (padding : string) (cols : list Column)
  (colss : list (list (string * string))) (output : string) :
  Forall2 declares cols colss ->
  for_each cols (fun c => write_schema_column c padding) output
  = ((output
      ++ String.concat EmptyString
           (map (schema_line padding) (concat colss)))%string,
     Ok tt).
Proof.
  intros H. revert output.
  induction H as [|c cs rest restss Hc Hrest IH]; intros output.
  - cbn. rewrite append_empty_r. reflexivity.
  - cbn [for_each]. unfold bind. rewrite write_schema_column_from.
    destruct (declared_column padding c cs Hc) as [-> ->].
    rewrite IH, append_assoc. cbn [concat]. rewrite map_app, concat_app.
    reflexivity.
Qed.

Lemma create_schema_eq (bin_table : list Column)
  (table_name primary_key : string) (add_columns : list string) :
  create_schema_from_fits bin_table table_name primary_key add_columns
  = match for_each bin_table
            (fun column => write_schema_column column "       ")
            (schema_head table_name) with
    | (output, Ok _) =>
        ((output
          ++ String.concat EmptyString
               (map (schema_added_line "       ") add_columns)
          ++ schema_tail "       " primary_key)%string,
         Ok tt)
    | (output, Raise e) => (output, Raise e)
    end.
Proof.
  unfold create_schema_from_fits.
  unfold bind at 1. unfold write at 1.
  change (EmptyString ++ ?s)%string with s.
  unfold bind at 1. fold (schema_head table_name).
  destruct (for_each bin_table _ (schema_head table_name)) as [output [u|e]];
    [|reflexivity].
  unfold bind.
  rewrite (for_each_write add_columns (schema_added_line "       ")).
  unfold write. rewrite append_assoc. reflexivity.
Qed.

(** The schema of a table whose columns are all of one of the five
    scalar formats or bit arrays: the line [create table if not
    exists], one line per declared SQL column in column order (one
    for a scalar column, [ceil(W/64)] for a bit array of [W] bits),
    one line per added column, then the primary key clause and the
    closing parenthesis, all after the first with the seven blanks of
    padding; the call returns normally. *)
Theorem schema_of_declared_table (bin_table : list Column)
  (colss : list (list (string * string)))
  (table_name primary_key : string) (add_columns : list string) :
  Forall2 declares bin_table colss ->
  create_schema_from_fits bin_table table_name primary_key add_columns
  = ((schema_head table_name
      ++ String.concat EmptyString
           (map (schema_line "       ") (concat colss))
      ++ String.concat EmptyString
           (map (schema_added_line "       ") add_columns)
      ++ schema_tail "       " primary_key)%string,
     Ok tt).
Proof.
  intros H. rewrite create_schema_eq.
  rewrite (schema_columns_declared _ _ _ _ H), !append_assoc. reflexivity.
Qed.

Lemma schema_of_declared_table_witness :
  create_schema_from_fits
    [mkColumn "ra" "1D" []; mkColumn "flags" "65X" []] "T" "id" ["id INT"%string]
  = (("create table if not exists T (" ++ Py.nl
      ++ "       ra DOUBLE," ++ Py.nl
      ++ "       FLAGS1 BIGINT UNSIGNED," ++ Py.nl
      ++ "       FLAGS2 BIGINT UNSIGNED," ++ Py.nl
      ++ "       id INT," ++ Py.nl
      ++ "       primary key (id)" ++ Py.nl
      ++ "       )" ++ Py.nl)%string,
     Ok tt).
Proof.
  apply (schema_of_declared_table
           [mkColumn "ra" "1D" []; mkColumn "flags" "65X" []]
           [[("ra", "DOUBLE")];
            [("FLAGS1", "BIGINT UNSIGNED"); ("FLAGS2", "BIGINT UNSIGNED")]]%string
           "T" "id" ["id INT"%string]).
  constructor; [|constructor; [|constructor]].
  - apply (declares_scalar (mkColumn "ra" "1D" []) "DOUBLE").
    left. reflexivity.
  - apply (declares_bits (mkColumn "flags" "65X" []) 65). reflexivity.
Defined.

Lemma last_char_error (s : string) (e : exn) :
  Py.last_char s = Raise e -> e = IndexError.
Proof.
  destruct s as [|c t]; cbn; [intros H; injection H as <-; reflexivity|].
  revert c; induction t as [|c' t IH]; intros c; cbn; [discriminate|].
  apply IH.
Qed.

Lemma int_error (s : string) (e : exn) :
  Py.int s = Raise e -> e = ValueError.
Proof.
  assert (D : forall r, Py.digits r = Raise e -> e = ValueError).
  { intros r. unfold Py.digits. destruct r; [intros H; injection H as <-; reflexivity|].
    destruct (NilEmpty.uint_of_string _); [discriminate|].
    intros H; injection H as <-; reflexivity. }
  unfold Py.int. destruct (Py.strip s) as [|c r]; [apply D|].
  destruct c as [[] [] [] [] [] [] [] []]; try apply D.
  destruct (Py.digits r) eqn:E; cbn; [discriminate|].
  intros H. injection H as <-. apply (D r). assumption.
Qed.

Lemma getitem_error {V : Type} (d : list (string * V)) (k : string) (e : exn) :
  Py.getitem d k = Raise e -> e = KeyError k.
Proof.
  induction d as [|[k' v] r IH]; cbn.
  - intros H. injection H as <-. reflexivity.
  - destruct (String.eqb k' k); [discriminate|assumption].
Qed.

Lemma column_failure (padding : string) (c : Column) (e : exn) :
  column_outcome padding c = Raise e ->
  column_text padding c = EmptyString
  /\ (e = IndexError \/ e = ValueError
      \/ e = KeyError (Py.strip_chars is_quote (format c))).
Proof.
  unfold column_outcome, column_text.
  destruct (write_schema_column c padding EmptyString) as [w r] eqn:E.
  cbn [fst snd]. intros ->.
  unfold write_schema_column, bind, lift in E.
  destruct (Py.last_char (Py.strip_chars is_quote (format c))) as [ch|e']
    eqn:El.
  - destruct (Ascii.eqb ch "X").
    + unfold write_bit_schema_column, bind, lift in E.
      destruct (Py.float _) as [n|e'] eqn:Ef.
      * rewrite for_each_write in E. discriminate E.
      * injection E as <- <-.
        split; [reflexivity|]. right. left. apply (int_error _ _ Ef).
    + destruct (Py.int _) as [n|e'] eqn:Ei.
      * destruct (negb (n =? 1)); [discriminate E|].
        destruct (Py.getitem type_map _) as [ty|e'] eqn:Eg; [discriminate E|].
        injection E as <- <-.
        split; [reflexivity|]. right. right. apply (getitem_error _ _ _ Eg).
      * injection E as <- <-.
        split; [reflexivity|]. right. left. apply (int_error _ _ Ei).
  - injection E as <- <-.
    split; [reflexivity|]. left. apply (last_char_error _ _ El).
Qed.

(** A schema that fails is truncated.  The call raises only for a
    column: [IndexError] for an empty format, [ValueError] for a
    count that is no integer, [KeyError] of the format for a scalar
    format without SQL type.  The text written is then the first
    line and the lines of the columns before the first such column;
    the lines of the added columns, the primary key clause and the
    closing parenthesis are never written. *)
Theorem schema_failure_truncates (bin_table : list Column)
  (table_name primary_key : string) (add_columns : list string) (e : exn) :
  snd (create_schema_from_fits bin_table table_name primary_key add_columns)
  = Raise e ->
  exists (k : nat) (c : Column),
    nth_error bin_table k = Some c
    /\ column_outcome "       " c = Raise e
    /\ (e = IndexError \/ e = ValueError
        \/ e = KeyError (Py.strip_chars is_quote (format c)))
    /\ Forall (fun c' => column_outcome "       " c' = Ok tt)
         (firstn k bin_table)
    /\ fst (create_schema_from_fits bin_table table_name primary_key
              add_columns)
       = (schema_head table_name
          ++ String.concat EmptyString
               (map (column_text "       ") (firstn k bin_table)))%string.
Proof.
  rewrite create_schema_eq.
  destruct (schema_columns_from "       " bin_table (schema_head table_name))
    as [[F E]|(k & c & e' & Hk & He & F & E)].
  - rewrite E. cbn [snd]. discriminate.
  - rewrite E. cbn [fst snd].
    intros H. injection H as ->.
    destruct (column_failure _ _ _ He) as [Et Hkind].
    exists k, c. repeat split; try assumption.
    f_equal.
    clear E F He Hkind. revert k Hk.
    induction bin_table as [|c0 rest IH]; intros k Hk;
      [destruct k; discriminate Hk|].
    destruct k as [|k].
    + cbn in Hk. injection Hk as ->. cbn. assumption.
    + cbn in Hk. cbn [firstn map]. rewrite !concat_cons.
      f_equal. apply IH. assumption.
Qed.

Lemma schema_failure_truncates_witness :
  exists (k : nat) (c : Column),
    nth_error [mkColumn "ra" "1D" []; mkColumn "id" "1A" [];
               mkColumn "dec" "1D" []] k = Some c
    /\ column_outcome "       " c = Raise (KeyError "1A")
    /\ fst (create_schema_from_fits
              [mkColumn "ra" "1D" []; mkColumn "id" "1A" [];
               mkColumn "dec" "1D" []] "T" "id" [])
       = (schema_head "T"
          ++ String.concat EmptyString
               (map (column_text "       ")
                  (firstn k [mkColumn "ra" "1D" []; mkColumn "id" "1A" [];
                             mkColumn "dec" "1D" []])))%string.
Proof.
  destruct (schema_failure_truncates
              [mkColumn "ra" "1D" []; mkColumn "id" "1A" [];
               mkColumn "dec" "1D" []] "T" "id" [] (KeyError "1A") eq_refl)
    as (k & c & H1 & H2 & _ & _ & H5).
  exists k, c. split; [exact H1|]. split; [exact H2|exact H5].
Defined.

Lemma declared_column_keys (c : Column) (cols : list (string * string))
  (d : OrderedDict.t (list value)) :
  declares c cols ->
  (forall W : nat,
     format c = (Py.str_of_nat W ++ "X")%string ->
     data c <> []
     /\ Forall (fun x => exists l, x = VBits l /\ length l = W) (data c)) ->
  NoDup (OrderedDict.keys d ++ map fst cols) ->
  exists d' : OrderedDict.t (list value),
    BinTableData.set_column 64 (Ok d) c = Ok d'
    /\ OrderedDict.keys d' = OrderedDict.keys d ++ map fst cols.
Proof.
  intros [ty Hty|W Hf] Hdata Hn.
  - assert (Hk : ~ In (name c) (OrderedDict.keys d)).
    { cbn in Hn. apply NoDup_remove_2 in Hn. intros I. apply Hn.
      apply in_or_app. left. assumption. }
    exists (d ++ [(name c, data c)]). split.
    + unfold BinTableData.set_column. cbn [bind_result].
      rewrite <- (set_fresh d (name c) (data c) Hk).
      destruct c as [nm fmt dt]. cbn [format name data] in *. cbn in Hty.
      destruct Hty as [H|[H|[H|[H|[H|[]]]]]]; injection H as <- <-;
        reflexivity.
    + rewrite keys_app. reflexivity.
  - destruct (Hdata W Hf) as [Hne Hrows].
    destruct (bit_column_series c W Hf Hne Hrows d) as (series & Ls & _ & E).
    eexists. split; [exact E|].
    rewrite map_map in Hn. cbn [fst] in Hn. rewrite map_id in Hn.
    rewrite keys_assign; rewrite (map_fst_combine _ _ Ls).
    + rewrite map_map. cbn [fst]. rewrite map_id. reflexivity.
    + assumption.
Qed.

Lemma declared_table_keys (bintable : list Column)
  (colss : list (list (string * string))) (d : OrderedDict.t (list value)) :
  Forall2 declares bintable colss ->
  Forall (fun c =>
            forall W : nat,
              format c = (Py.str_of_nat W ++ "X")%string ->
              data c <> []
              /\ Forall (fun x => exists l, x = VBits l /\ length l = W)
                   (data c)) bintable ->
  NoDup (OrderedDict.keys d ++ map fst (concat colss)) ->
  exists d' : OrderedDict.t (list value),
    fold_left (BinTableData.set_column 64) bintable (Ok d) = Ok d'
    /\ OrderedDict.keys d' = OrderedDict.keys d ++ map fst (concat colss).
Proof.
  intros H. revert d.
  induction H as [|c cols rest restss Hc Hrest IH]; intros d Hdata Hn.
  - exists d. split; [reflexivity|]. cbn. rewrite app_nil_r. reflexivity.
  - inversion Hdata as [|? ? Hd1 Hd2]; subst.
    cbn [concat] in Hn. rewrite map_app, app_assoc in Hn.
    destruct (declared_column_keys c cols d Hc Hd1
                (NoDup_app_remove_r _ _ Hn)) as (d1 & E1 & K1).
    destruct (IH d1 Hd2) as (d' & E & K).
    { rewrite K1. exact Hn. }
    exists d'. split.
    + cbn [fold_left]. rewrite E1. exact E.
    + rewrite K, K1. cbn [concat]. rewrite map_app, app_assoc. reflexivity.
Qed.

(** The materializer and the schema emitter agree on a whole table.
    For a table whose columns are all of one of the five scalar
    formats or bit arrays with at least one record of the declared
    width, and whose declared SQL column names are distinct, the keys
    of the materialized table are exactly the column names of the
    schema, in the same order. *)
Theorem materialized_keys_are_schema_columns (bintable : list Column)
  (colss : list (list (string * string)))
  (table_name primary_key : string) (add_columns : list string) :
  Forall2 declares bintable colss ->
  Forall (fun c =>
            forall W : nat,
              format c = (Py.str_of_nat W ++ "X")%string ->
              data c <> []
              /\ Forall (fun x => exists l, x = VBits l /\ length l = W)
                   (data c)) bintable ->
  NoDup (map fst (concat colss)) ->
  concat colss <> [] ->
  exists t : BinTableData.t,
    BinTableData.__init__ bintable 64 = Ok t
    /\ OrderedDict.keys (BinTableData.cols t) = map fst (concat colss)
    /\ fst (create_schema_from_fits bintable table_name primary_key
              add_columns)
       = (schema_head table_name
          ++ String.concat EmptyString
               (map (schema_line "       ") (concat colss))
          ++ String.concat EmptyString
               (map (schema_added_line "       ") add_columns)
          ++ schema_tail "       " primary_key)%string.
Proof.
  intros H Hdata Hn Hne.
  destruct (declared_table_keys bintable colss OrderedDict.empty H Hdata Hn)
    as (d & E & K).
  cbn [OrderedDict.keys OrderedDict.empty map app] in K.
  unfold BinTableData.__init__. rewrite E. cbn [bind_result].
  destruct (OrderedDict.values d) as [|v rest] eqn:Ev.
  - exfalso. apply Hne. unfold OrderedDict.values, OrderedDict.keys in *.
    destruct d; [|discriminate Ev]. cbn in K.
    destruct (concat colss); [reflexivity|discriminate K].
  - eexists. split; [reflexivity|]. split; [exact K|].
    rewrite create_schema_eq.
    rewrite (schema_columns_declared _ _ _ _ H), !append_assoc. reflexivity.
Qed.

Lemma materialized_keys_are_schema_columns_witness :
  exists t : BinTableData.t,
    BinTableData.__init__
      [mkColumn "ra" "1D" [VInt 1]; mkColumn "flags" "2X" [VBits [true; false]]]
      64 = Ok t
    /\ OrderedDict.keys (BinTableData.cols t) = ["ra"; "FLAGS1"]%string.
Proof.
  destruct (materialized_keys_are_schema_columns
              [mkColumn "ra" "1D" [VInt 1];
               mkColumn "flags" "2X" [VBits [true; false]]]
              [[("ra", "DOUBLE")]; [("FLAGS1", "BIGINT UNSIGNED")]]%string
              "T" EmptyString [])
    as (t & H1 & H2 & _).
  - constructor; [|constructor; [|constructor]].
    + apply (declares_scalar (mkColumn "ra" "1D" [VInt 1]) "DOUBLE").
      left. reflexivity.
    + apply (declares_bits
               (mkColumn "flags" "2X" [VBits [true; false]]) 2).
      reflexivity.
  - constructor; [|constructor; [|constructor]].
    + intros W HW. exfalso. cbn in HW.
      apply (f_equal Py.last_char) in HW. rewrite last_char_snoc in HW.
      discriminate HW.
    + intros W HW. cbn in HW. split; [discriminate|].
      assert (W = 2%nat) as ->.
      { apply (f_equal Py.but_last) in HW. rewrite but_last_snoc in HW.
        apply str_of_nat_inj. symmetry. exact HW. }
      constructor; [|constructor]. eexists. split; reflexivity.
  - simpl. constructor; [|constructor; [intros []|constructor]].
    intros [H|[]]. discriminate H.
  - discriminate.
  - exists t. split; [exact H1|exact H2].
Defined.

(** ** The header check: what it reads, and reading back a header *)

Lemma split_not_nil (sep : ascii) (s : string) : Py.split sep s <> [].
Proof.
  destruct s as [|c t]; cbn; [discriminate|].
  destruct (Ascii.eqb c sep); [discriminate|].
  destruct (Py.split sep t); discriminate.
Qed.

(** A table without columns never passes the header check: even the
    header of an empty file is read as one (empty) name. *)
Theorem check_column_names_no_columns (contents : string) :
  DbConnection.check_column_names [] contents
  = Raise (RuntimeError DbConnection.count_message).
Proof.
  unfold DbConnection.check_column_names.
  pose proof (split_not_nil ","%char
                (Py.strip (Py.readline contents))) as H.
  unfold DbConnection.csv_cols.
  destruct (Py.split ","%char (Py.strip (Py.readline contents)));
    [contradiction|reflexivity].
Qed.

Lemma readline_one_line (line rest : string) :
  one_line line ->
  Py.readline (line ++ Py.nl ++ rest) = (line ++ Py.nl)%string
  /\ Py.readline line = line.
Proof.
  unfold one_line, Py.nl.
  change (String "010"%char EmptyString ++ rest)%string
    with (String "010"%char rest).
  induction line as [|c t IH]; intros H.
  - split; reflexivity.
  - inversion H as [|? ? Hc Ht]; subst.
    apply Ascii.eqb_neq in Hc. cbn [append Py.readline]. rewrite Hc.
    destruct (IH Ht) as [-> ->]. split; reflexivity.
Qed.

Lemma lstrip_app (p : ascii -> bool) (s t : string) :
  Py.lstrip p (s ++ t)
  = match Py.lstrip p s with
    | EmptyString => Py.lstrip p t
    | r => (r ++ t)%string
    end.
Proof.
  induction s as [|c s IH]; cbn; [destruct (Py.lstrip p t); reflexivity|].
  destruct (p c); [exact IH|reflexivity].
Qed.

Lemma rstrip_snoc (p : ascii -> bool) (s : string) (c : ascii) :
  p c = true ->
  Py.rstrip p (s ++ String c EmptyString) = Py.rstrip p s.
Proof.
  intros Hc. induction s as [|x s IH]; cbn; [rewrite Hc; reflexivity|].
  rewrite IH. reflexivity.
Qed.

Lemma strip_newline (s : string) : Py.strip (s ++ Py.nl) = Py.strip s.
Proof.
  unfold Py.strip, Py.strip_chars. rewrite lstrip_app.
  destruct (Py.lstrip Py.is_space s) as [|c r] eqn:E; [reflexivity|].
  change (String c r ++ Py.nl)%string
    with (String c r ++ String "010"%char EmptyString)%string.
  apply rstrip_snoc. reflexivity.
Qed.

(** The check reads the first line only: whatever follows the first
    newline, and the newline itself, make no difference to its
    result. *)
Theorem check_column_names_first_line (column_names : list string)
  (line rest : string) :
  one_line line ->
  DbConnection.check_column_names column_names (line ++ Py.nl ++ rest)
  = DbConnection.check_column_names column_names line.
Proof.
  intros H. unfold DbConnection.check_column_names, DbConnection.csv_cols.
  destruct (readline_one_line line rest H) as [-> ->].
  rewrite strip_newline. reflexivity.
Qed.

Lemma check_column_names_first_line_witness :
  DbConnection.check_column_names ["a"; "b"]%string
    ("a,b" ++ Py.nl ++ "1,2")%string
  = DbConnection.check_column_names ["a"; "b"]%string "a,b"%string.
Proof.
  apply (check_column_names_first_line ["a"; "b"]%string "a,b" "1,2").
  repeat constructor; discriminate.
Defined.

Lemma split_no_sep (sep : ascii) (s : string) :
  Forall (fun c => c <> sep) (chars s) -> Py.split sep s = [s].
Proof.
  induction s as [|c t IH]; cbn; intros H; [reflexivity|].
  inversion H as [|? ? Hc Ht]; subst.
  apply Ascii.eqb_neq in Hc. rewrite Hc, (IH Ht). reflexivity.
Qed.

Lemma split_app_sep (sep : ascii) (s t : string) :
  Forall (fun c => c <> sep) (chars s) ->
  Py.split sep (s ++ String sep t) = s :: Py.split sep t.
Proof.
  induction s as [|c s IH]; cbn; intros H.
  - rewrite Ascii.eqb_refl. reflexivity.
  - inversion H as [|? ? Hc Ht]; subst.
    apply Ascii.eqb_neq in Hc. rewrite Hc, (IH Ht). reflexivity.
Qed.

Lemma join_cons (x y : string) (l : list string) :
  String.concat "," (x :: y :: l)
  = (x ++ String ","%char (String.concat "," (y :: l)))%string.
Proof. reflexivity. Qed.

Lemma split_join (names : list string) :
  names <> [] ->
  Forall (fun n => Forall (fun c => c <> ","%char) (chars n)) names ->
  Py.split ","%char (String.concat "," names) = names.
Proof.
  intros Hne H. induction H as [|n rest Hn Hrest IH]; [contradiction|].
  destruct rest as [|m rest'].
  - cbn. apply split_no_sep. assumption.
  - rewrite join_cons.
    rewrite split_app_sep by assumption. f_equal. apply IH. discriminate.
Qed.

Lemma chars_join (P : ascii -> Prop) (names : list string) :
  P ","%char ->
  Forall (fun n => Forall P (chars n)) names ->
  Forall P (chars (String.concat "," names)).
Proof.
  intros Hc H. induction H as [|n rest Hn Hrest IH]; [constructor|].
  destruct rest as [|m rest']; [exact Hn|].
  rewrite join_cons, chars_app. apply Forall_app. split; [assumption|].
  cbn [chars]. constructor; [assumption|]. apply IH.
Qed.

(** Reading back a header.  A file whose first line is the names
    joined by commas, the names holding no comma and no blank
    character, passes the check against these names, whatever the
    lines that follow. *)
Theorem check_column_names_joined_header (column_names : list string)
  (rest : string) :
  column_names <> [] ->
  Forall plain_name column_names ->
  DbConnection.check_column_names column_names
    (String.concat "," column_names ++ Py.nl ++ rest)
  = Ok tt.
Proof.
  intros Hne H.
  assert (Hline : one_line (String.concat "," column_names)).
  { apply chars_join; [discriminate|].
    eapply Forall_impl; [|exact H]. intros n Hn.
    eapply Forall_impl; [|exact Hn]. cbn beta. intros c [Hs _] ->.
    discriminate Hs. }
  unfold DbConnection.check_column_names, DbConnection.csv_cols.
  destruct (readline_one_line _ rest Hline) as [-> _].
  rewrite strip_newline. unfold Py.strip. rewrite strip_chars_id.
  - rewrite split_join; [|assumption|].
    + rewrite Nat.eqb_refl. cbn [negb]. apply check_pairs_ok.
    + eapply Forall_impl; [|exact H]. intros n Hn.
      eapply Forall_impl; [|exact Hn]. cbn beta. intros c [_ Hc]. exact Hc.
  - apply chars_join; [reflexivity|].
    eapply Forall_impl; [|exact H]. intros n Hn.
    eapply Forall_impl; [|exact Hn]. cbn beta. intros c [Hs _]. exact Hs.
Qed.

Lemma check_column_names_joined_header_witness :
  DbConnection.check_column_names ["ra"; "FLAGS1"]%string
    (String.concat "," ["ra"; "FLAGS1"] ++ Py.nl ++ "1.5,237")%string
  = Ok tt.
Proof.
  apply (check_column_names_joined_header ["ra"; "FLAGS1"]%string "1.5,237").
  - discriminate.
  - repeat constructor; discriminate.
Defined.

(** ** The database side: distinct rows, the load statement, scripts *)

Lemma same_row_spec (k x : string * string) :
  same_row k x = true <-> k = x.
Proof.
  unfold same_row. destruct k as [a b], x as [c d]. cbn.
  rewrite andb_true_iff, !String.eqb_eq. split.
  - intros [-> ->]. reflexivity.
  - intros H. injection H as -> ->. split; reflexivity.
Qed.

Lemma set_row_keys (d : list ((string * string) * Z)) (x : string * string) :
  (In x (map fst d) -> map fst (DbConnection.set_row d x) = map fst d)
  /\ (~ In x (map fst d) ->
      map fst (DbConnection.set_row d x) = map fst d ++ [x]).
Proof.
  induction d as [|[k v] r [IH1 IH2]]; cbn.
  - split; [intros []|reflexivity].
  - fold (same_row k x).
    destruct (same_row k x) eqn:E.
    + apply same_row_spec in E. subst. split; [reflexivity|].
      intros H. exfalso. apply H. left. reflexivity.
    + assert (N : k <> x).
      { intros ->. assert (same_row x x = true) by (apply same_row_spec; reflexivity).
        congruence. }
      cbn. split.
      * intros [H|H]; [contradiction|]. rewrite IH1 by assumption. reflexivity.
      * intros H. rewrite IH2; [reflexivity|tauto].
Qed.

Lemma fold_set_row (curs : list (string * string))
  (d : list ((string * string) * Z)) :
  NoDup (map fst d) ->
  NoDup (map fst (fold_left DbConnection.set_row curs d))
  /\ (forall x, In x (map fst (fold_left DbConnection.set_row curs d))
                <-> In x (map fst d) \/ In x curs)
  /\ (NoDup (map fst d ++ curs) ->
      map fst (fold_left DbConnection.set_row curs d) = map fst d ++ curs).
Proof.
  revert d; induction curs as [|x rest IH]; intros d Hd; cbn [fold_left].
  - split; [assumption|]. split; [intros x; cbn; tauto|].
    intros _. rewrite app_nil_r. reflexivity.
  - destruct (set_row_keys d x) as [K1 K2].
    destruct (in_dec (fun a b : string * string =>
                        ltac:(decide equality; apply string_dec) : {a = b} + {a <> b})
                x (map fst d)) as [I|I].
    + specialize (K1 I).
      destruct (IH (DbConnection.set_row d x)) as (N & M & Id);
        [rewrite K1; assumption|].
      split; [assumption|]. split.
      * intros y. rewrite M, K1. cbn. split; [tauto|].
        intros [H|[H|H]]; subst; tauto.
      * intros H. exfalso. apply NoDup_remove_2 in H. apply H.
        apply in_or_app. left. assumption.
    + specialize (K2 I).
      destruct (IH (DbConnection.set_row d x)) as (N & M & Id).
      { rewrite K2. apply NoDup_snoc; assumption. }
      split; [assumption|]. split.
      * intros y. rewrite M, K2, in_app_iff. cbn. tauto.
      * intros H. rewrite Id; rewrite K2, <- app_assoc; [reflexivity|].
        exact H.
Qed.

(** [dtype_tuple] keeps each row of the cursor once: its result has
    no repeated row, holds exactly the rows of the cursor, and is the
    cursor's own list of rows when that has no repetition. *)
Theorem dtype_tuple_distinct (curs : list (string * string)) :
  NoDup (DbConnection.dtype_tuple curs)
  /\ (forall x, In x (DbConnection.dtype_tuple curs) <-> In x curs)
  /\ (NoDup curs -> DbConnection.dtype_tuple curs = curs).
Proof.
  unfold DbConnection.dtype_tuple.
  destruct (fold_set_row curs [] (NoDup_nil _)) as (N & M & Id).
  split; [assumption|]. split.
  - intros x. rewrite M. cbn. tauto.
  - intros H. apply Id. exact H.
Qed.

Lemma dtype_tuple_distinct_witness :
  NoDup (DbConnection.dtype_tuple
           [("ra", "double"); ("id", "int"); ("ra", "double")]%string)
  /\ DbConnection.dtype_tuple [("ra", "double"); ("id", "int")]%string
     = [("ra", "double"); ("id", "int")]%string.
Proof.
  destruct (dtype_tuple_distinct
              [("ra", "double"); ("id", "int"); ("ra", "double")]%string)
    as (H1 & _ & _).
  destruct (dtype_tuple_distinct [("ra", "double"); ("id", "int")]%string)
    as (_ & _ & H3).
  split; [exact H1|]. apply H3.
  constructor; [|constructor; [intros []|constructor]].
  intros [H|[]]. discriminate H.
Defined.

Lemma apply_user_func {R A : Type} (db : string -> result (list R))
  (sql : string) (f : list R -> result A) (events : list DbConnection.event) :
  DbConnection.apply db sql (DbConnection.user_func f) events
  = match db sql with
    | Raise e => (events ++ [DbConnection.Execute sql], Raise e)
    | Ok curs =>
        match f curs with
        | Raise e => (events ++ [DbConnection.Execute sql], Raise e)
        | Ok a =>
            (events ++ [DbConnection.Execute sql; DbConnection.CursorClose],
             Ok (Some a))
        end
    end.
Proof.
  unfold DbConnection.apply, bind, lift, DbConnection.log, ret.
  destruct (db sql) as [curs|e]; [|reflexivity].
  destruct (f curs) as [a|e]; cbn; [|reflexivity].
  rewrite <- app_assoc. reflexivity.
Qed.

Lemma apply_null_func {R A : Type} (db : string -> result (list R))
  (sql : string) (events : list DbConnection.event) :
  DbConnection.apply (A := A) db sql DbConnection.null_func events
  = match db sql with
    | Raise e => (events ++ [DbConnection.Execute sql], Raise e)
    | Ok curs =>
        (events ++ [DbConnection.Execute sql; DbConnection.CursorClose;
                    DbConnection.Commit],
         Ok None)
    end.
Proof.
  unfold DbConnection.apply, bind, lift, DbConnection.log, ret.
  destruct (db sql) as [curs|e]; [|reflexivity].
  cbn. rewrite <- !app_assoc. reflexivity.
Qed.

Lemma check_column_names_cases (column_names : list string)
  (contents : string) :
  (DbConnection.csv_cols contents = column_names
   /\ DbConnection.check_column_names column_names contents = Ok tt)
  \/ (DbConnection.csv_cols contents <> column_names
      /\ exists msg,
           DbConnection.check_column_names column_names contents
           = Raise (RuntimeError msg)).
Proof.
  unfold DbConnection.check_column_names.
  destruct (Nat.eqb_spec (length (DbConnection.csv_cols contents))
              (length column_names)) as [L|L]; cbn [negb].
  - destruct (check_pairs_spec _ _ L) as [[E1 E2]|(i & a & b & Ha & Hb & N & E)].
    + left. split; assumption.
    + right. split; [|eexists; exact E].
      intros H. rewrite H in Ha. congruence.
  - right. split; [|eexists; reflexivity].
    intros H. apply L. rewrite H. reflexivity.
Qed.

Lemma load_csv_eq (db : string -> result (list (string * string)))
  (table_name csv_file contents : string) (events : list DbConnection.event)
  (curs : list (string * string)) :
  db (DbConnection.query table_name) = Ok curs ->
  let data_types := DbConnection.dtype_tuple curs in
  let events1 :=
    events ++ [DbConnection.Execute (DbConnection.query table_name);
               DbConnection.CursorClose] in
  DbConnection.load_csv db table_name csv_file contents events
  = match DbConnection.check_column_names (map fst data_types) contents with
    | Raise e => (events1, Raise e)
    | Ok _ =>
        match map_result DbConnection.cast_entry (conversions data_types) with
        | Raise e => (events1, Raise e)
        | Ok cast_list =>
            let sql :=
              (DbConnection.load_data csv_file table_name
               ++ String.concat ("," ++ Py.nl) (map fst data_types) ++ ")"
               ++ set_clause cast_list)%string in
            match db sql with
            | Raise e => (events1 ++ [DbConnection.Execute sql], Raise e)
            | Ok _ =>
                (events1 ++ [DbConnection.Execute sql;
                             DbConnection.CursorClose; DbConnection.Commit],
                 Ok tt)
            end
        end
    end.
Proof.
  intros Hq. cbn zeta. unfold DbConnection.load_csv.
  unfold bind at 1. rewrite apply_user_func, Hq.
  unfold bind at 1, lift at 1. unfold bind at 1, lift at 1.
  destruct (DbConnection.check_column_names _ contents) as [[]|e];
    [|reflexivity].
  unfold bind at 1, lift at 1. fold (conversions (DbConnection.dtype_tuple curs)).
  destruct (conversions (DbConnection.dtype_tuple curs)) as [|p convs] eqn:Ec.
  - cbn [map_result set_clause]. unfold bind. rewrite apply_null_func.
    change (")" ++ EmptyString)%string with ")"%string.
    destruct (db (DbConnection.load_data csv_file table_name ++ _)%string);
      reflexivity.
  - destruct (map_result DbConnection.cast_entry (p :: convs))
      as [cast_list|e] eqn:Em; cbn [bind_result]; [|reflexivity].
    assert (Hc : set_clause cast_list
                 = (" set " ++ Py.nl
                    ++ String.concat ("," ++ Py.nl) cast_list ++ ";")%string).
    { apply map_result_length in Em. destruct cast_list; [discriminate Em|].
      reflexivity. }
    rewrite Hc. unfold bind. rewrite apply_null_func.
    rewrite !append_assoc.
    destruct (db (DbConnection.load_data csv_file table_name ++ _)%string);
      reflexivity.
Qed.

(** When the header of the CSV file differs from the column names the
    database reports, [load_csv] raises the [RuntimeError] of the
    header check after the introspection query alone: no load
    statement reaches the database and nothing is committed. *)
Theorem load_csv_header_mismatch
  (db : string -> result (list (string * string)))
  (table_name csv_file contents : string) (events : list DbConnection.event)
  (curs : list (string * string)) :
  db (DbConnection.query table_name) = Ok curs ->
  DbConnection.csv_cols contents <> map fst (DbConnection.dtype_tuple curs) ->
  exists msg : string,
    DbConnection.load_csv db table_name csv_file contents events
    = (events ++ [DbConnection.Execute (DbConnection.query table_name);
                  DbConnection.CursorClose],
       Raise (RuntimeError msg)).
Proof.
  intros Hq Hne. rewrite (load_csv_eq _ _ _ _ _ curs Hq). cbn zeta.
  destruct (check_column_names_cases
              (map fst (DbConnection.dtype_tuple curs)) contents)
    as [[E _]|[_ [msg E]]]; [contradiction|].
  rewrite E. exists msg. reflexivity.
Qed.

Lemma load_csv_header_mismatch_witness :
  exists msg : string,
    DbConnection.load_csv
      (fun _ => Ok [("ra", "double"); ("id", "int")]%string)
      "T" "t.csv" ("ra" ++ Py.nl ++ "1.5")%string []
    = ([DbConnection.Execute (DbConnection.query "T");
        DbConnection.CursorClose],
       Raise (RuntimeError msg)).
Proof.
  apply (load_csv_header_mismatch
           (fun _ => Ok [("ra", "double"); ("id", "int")]%string)
           "T" "t.csv" ("ra" ++ Py.nl ++ "1.5")%string []
           [("ra", "double"); ("id", "int")]%string).
  - reflexivity.
  - vm_compute. discriminate.
Defined.

Lemma dtype_tuple_members (curs : list (string * string))
  (x : string * string) :
  In x curs -> In x (DbConnection.dtype_tuple curs).
Proof.
  intros H. unfold DbConnection.dtype_tuple.
  destruct (fold_set_row curs [] (NoDup_nil _)) as (_ & M & _).
  apply M. right. assumption.
Qed.

Lemma getitem_raise_not_in {V : Type} (d : list (string * V)) (k : string)
  (e : exn) :
  Py.getitem d k = Raise e -> ~ In k (map fst d).
Proof.
  induction d as [|[k' v] r IH]; cbn; [intros _ []|].
  destruct (String.eqb_spec k' k) as [->|N]; [discriminate|].
  intros H [I|I]; [contradiction|]. apply (IH H I).
Qed.

(** [load_csv] casts every column whose type does not contain [char],
    and knows five types only: int, bigint, tinyint, float, double.
    When the table has a column of any other such type (smallint, as
    the schema emitter itself declares for format 1I, or datetime,
    text, ...), the call raises the [KeyError] of such a type after
    the introspection query alone: no load statement reaches the
    database. *)
Theorem load_csv_unknown_type
  (db : string -> result (list (string * string)))
  (table_name csv_file contents : string) (events : list DbConnection.event)
  (curs : list (string * string)) (column data_type : string) :
  db (DbConnection.query table_name) = Ok curs ->
  DbConnection.csv_cols contents = map fst (DbConnection.dtype_tuple curs) ->
  In (column, data_type) curs ->
  Py.find data_type "char" = -1 ->
  ~ In data_type (map fst DbConnection.dtypes) ->
  map fst DbConnection.dtypes
  = ["int"; "bigint"; "tinyint"; "float"; "double"]%string
  /\ exists ty : string,
       ~ In ty (map fst DbConnection.dtypes)
       /\ DbConnection.load_csv db table_name csv_file contents events
          = (events ++ [DbConnection.Execute (DbConnection.query table_name);
                        DbConnection.CursorClose],
             Raise (KeyError ty)).
Proof.
  intros Hq Hh Hin Hf Hty. split; [reflexivity|].
  rewrite (load_csv_eq _ _ _ _ _ curs Hq). cbn zeta.
  destruct (check_column_names_cases
              (map fst (DbConnection.dtype_tuple curs)) contents)
    as [[_ E]|[N _]]; [|contradiction].
  rewrite E.
  assert (Hc : In (column, data_type)
                 (conversions (DbConnection.dtype_tuple curs))).
  { unfold conversions. apply filter_In. split.
    - apply dtype_tuple_members. assumption.
    - cbn [snd]. rewrite Hf. reflexivity. }
  assert (Ee : DbConnection.cast_entry (column, data_type)
               = Raise (KeyError data_type)).
  { unfold DbConnection.cast_entry. cbn [snd].
    rewrite (getitem_missing _ _ Hty). reflexivity. }
  destruct (map_result_fails_In _ _ _ _ Hc Ee) as (e & y & Em & _ & Ey).
  rewrite Em. unfold DbConnection.cast_entry in Ey.
  destruct (Py.getitem DbConnection.dtypes (snd y)) as [my|e'] eqn:Eg;
    cbn in Ey; [discriminate|].
  injection Ey as <-. pose proof (getitem_error _ _ _ Eg) as ->.
  exists (snd y). split; [|reflexivity].
  apply (getitem_raise_not_in _ _ _ Eg).
Qed.

Lemma load_csv_unknown_type_witness :
  exists ty : string,
    ~ In ty (map fst DbConnection.dtypes)
    /\ DbConnection.load_csv
         (fun _ => Ok [("ra", "double"); ("n", "smallint")]%string)
         "T" "t.csv" ("ra,n" ++ Py.nl ++ "1.5,3")%string []
       = ([DbConnection.Execute (DbConnection.query "T");
           DbConnection.CursorClose],
          Raise (KeyError ty)).
Proof.
  apply (load_csv_unknown_type
           (fun _ => Ok [("ra", "double"); ("n", "smallint")]%string)
           "T" "t.csv" ("ra,n" ++ Py.nl ++ "1.5,3")%string []
           [("ra", "double"); ("n", "smallint")]%string "n" "smallint").
  - reflexivity.
  - reflexivity.
  - right. left. reflexivity.
  - reflexivity.
  - simpl. intuition discriminate.
Defined.

Lemma cast_entries_ok (convs : list (string * string)) :
  Forall (fun p => In (snd p) (map fst DbConnection.dtypes)) convs ->
  exists cast_list : list string,
    map_result DbConnection.cast_entry convs = Ok cast_list
    /\ Forall2 (fun p cast =>
                  exists my_dtype : string,
                    In (snd p, my_dtype) DbConnection.dtypes
                    /\ cast = cast_text p my_dtype)
         convs cast_list.
Proof.
  induction 1 as [|p rest Hp Hrest (cl & E & F)].
  - exists []. split; [reflexivity|constructor].
  - apply (has_key_In DbConnection.dtypes) in Hp.
    destruct (has_key_getitem _ _ Hp) as [my Eg].
    exists (cast_text p my :: cl). split.
    + cbn [map_result]. unfold DbConnection.cast_entry at 1.
      rewrite Eg. cbn [bind_result]. rewrite E. reflexivity.
    + constructor; [|assumption]. exists my.
      split; [apply getitem_In; assumption|reflexivity].
Qed.

(** The load that goes through.  When the header agrees, every
    column to cast has one of the five known types and the database
    accepts the statements, [load_csv] executes two statements, the
    introspection query and one [LOAD DATA] statement, and commits
    the second only.  The load statement names the columns in the
    order the database reports them and casts, in that order, exactly
    the columns whose type does not contain [char], each to the type
    the table [dtypes] gives; without such a column it has no [set]
    clause. *)
Theorem load_csv_statement
  (db : string -> result (list (string * string)))
  (table_name csv_file contents : string) (events : list DbConnection.event)
  (curs : list (string * string)) :
  db (DbConnection.query table_name) = Ok curs ->
  (forall sql, exists rows, db sql = Ok rows) ->
  DbConnection.csv_cols contents = map fst (DbConnection.dtype_tuple curs) ->
  Forall (fun p => In (snd p) (map fst DbConnection.dtypes))
    (conversions (DbConnection.dtype_tuple curs)) ->
  exists cast_list : list string,
    Forall2 (fun p cast =>
               exists my_dtype : string,
                 In (snd p, my_dtype) DbConnection.dtypes
                 /\ cast = cast_text p my_dtype)
      (conversions (DbConnection.dtype_tuple curs)) cast_list
    /\ DbConnection.load_csv db table_name csv_file contents events
       = (events
          ++ [DbConnection.Execute (DbConnection.query table_name);
              DbConnection.CursorClose;
              DbConnection.Execute
                (DbConnection.load_data csv_file table_name
                 ++ String.concat ("," ++ Py.nl)
                      (map fst (DbConnection.dtype_tuple curs))
                 ++ ")" ++ set_clause cast_list)%string;
              DbConnection.CursorClose; DbConnection.Commit],
          Ok tt).
Proof.
  intros Hq Hdb Hh Hc.
  destruct (cast_entries_ok _ Hc) as (cl & E & F).
  exists cl. split; [exact F|].
  rewrite (load_csv_eq _ _ _ _ _ curs Hq). cbn zeta.
  destruct (check_column_names_cases
              (map fst (DbConnection.dtype_tuple curs)) contents)
    as [[_ Ec]|[N _]]; [|contradiction].
  rewrite Ec, E.
  destruct (Hdb (DbConnection.load_data csv_file table_name
                 ++ String.concat ("," ++ Py.nl)
                      (map fst (DbConnection.dtype_tuple curs))
                 ++ ")" ++ set_clause cl)%string) as [rows ->].
  rewrite <- app_assoc. reflexivity.
Qed.

Lemma load_csv_statement_witness :
  exists cast_list : list string,
    DbConnection.load_csv
      (fun _ => Ok [("name", "varchar"); ("ra", "double")]%string)
      "T" "t.csv" ("name,ra" ++ Py.nl ++ "a,1.5")%string []
    = ([DbConnection.Execute (DbConnection.query "T");
        DbConnection.CursorClose;
        DbConnection.Execute
          (DbConnection.load_data "t.csv" "T"
           ++ String.concat ("," ++ Py.nl) ["name"; "ra"]
           ++ ")" ++ set_clause cast_list)%string;
        DbConnection.CursorClose; DbConnection.Commit],
       Ok tt).
Proof.
  destruct (load_csv_statement
              (fun _ => Ok [("name", "varchar"); ("ra", "double")]%string)
              "T" "t.csv" ("name,ra" ++ Py.nl ++ "a,1.5")%string []
              [("name", "varchar"); ("ra", "double")]%string)
    as (cl & _ & H).
  - reflexivity.
  - intros sql. eexists. reflexivity.
  - reflexivity.
  - vm_compute. constructor; [|constructor].
    right. right. right. right. left. reflexivity.
  - exists cl. exact H.
Defined.

Lemma concat_readlines (s : string) :
  String.concat EmptyString (Py.readlines s) = s.
Proof.
  induction s as [|c t IH]; [reflexivity|].
  cbn [Py.readlines]. destruct (Ascii.eqb c "010"%char).
  - rewrite concat_cons, IH. reflexivity.
  - destruct (Py.readlines t) as [|l r].
    + cbn in IH. subst t. reflexivity.
    + rewrite concat_cons in *. cbn. rewrite IH. reflexivity.
Qed.

(** [run_script] sends the file to the database as one statement,
    character for character (joining the lines read gives the file
    back), and commits it; when the database refuses the statement
    the exception goes to the caller with the cursor left open and
    nothing committed; a dry run prints the statement and leaves the
    connection untouched. *)
Theorem run_script_runs_the_file {R : Type}
  (db : string -> result (list R)) (contents : string) (dry_run : bool)
  (events : list DbConnection.event) :
  DbConnection.run_script db contents dry_run events
  = if dry_run
    then (events ++ [DbConnection.Print (contents ++ Py.nl)], Ok tt)
    else
      match db contents with
      | Ok _ =>
          (events ++ [DbConnection.Execute contents;
                      DbConnection.CursorClose; DbConnection.Commit],
           Ok tt)
      | Raise e => (events ++ [DbConnection.Execute contents], Raise e)
      end.
Proof.
  unfold DbConnection.run_script. rewrite concat_readlines.
  destruct dry_run; [reflexivity|].
  unfold bind. rewrite apply_null_func.
  destruct (db contents); reflexivity.
Qed.
